(** * Cart, checkout and order workflow of the eCommerce backend

    A shallow embedding of [app/crud.py], [app/routers/cart.py] and
    [app/routers/orders.py], with the order handler of
    [app/routers/admin.py], the role check of [app/auth.py] and the guest
    customer of [app/schemas.py], over an explicit model of the SQLAlchemy
    session, followed by the vocabulary of the statements and by the
    theorems.

    Conventions of the embedding.
    - A table is a list of rows in storage order; [.first()] is the first
      matching row, [.all()] the matching rows in order.  The [products]
      table, only ever read and updated by primary key, is a finite map from
      the primary key to the row.
    - Python [int] is [Z].  [Float] columns and Python floats are exact
      rationals [Q]: comparisons of floats are comparisons of their values,
      and [round(x, 2)] is rounding to the nearest hundredth, ties to even.
      The scenarios use amounts on which floating point computes the same
      results.  The rating of a product is the exception: there
      [float_of_Q] is the conversion to a binary64 number.
    - Columns that none of the modelled functions reads or computes
      (addresses, notes, payment method, timestamps, customer contact data)
      are left out of the records, and so are the request fields that only
      feed them.
    - A handler is a function of the session; [run] is one request, from the
      session [get_db] opens to the durable state it leaves.
    - The [coupons] and [reviews] tables, each read by one function only, are
      arguments of that function. *)

From Stdlib Require Import ZArith QArith Qround Qabs String Ascii List Bool.
From Stdlib Require Import Lia Lqa.
From stdpp Require Import gmap strings list fin_maps pretty.
Import ListNotations.

Local Open Scope Z_scope.
Local Open Scope string_scope.

(** ** Enumerations of [app/models.py] *)

Module UserRole.
Inductive t := CUSTOMER | VENDOR | ADMIN.
Definition eqb (a b : t) : bool :=
  match a, b with
  | CUSTOMER, CUSTOMER | VENDOR, VENDOR | ADMIN, ADMIN => true
  | _, _ => false
  end.
End UserRole.

Module OrderStatus.
Inductive t :=
  PENDING | CONFIRMED | PROCESSING | SHIPPED | DELIVERED | CANCELLED | REFUNDED.
Definition eqb (a b : t) : bool :=
  match a, b with
  | PENDING, PENDING | CONFIRMED, CONFIRMED | PROCESSING, PROCESSING
  | SHIPPED, SHIPPED | DELIVERED, DELIVERED | CANCELLED, CANCELLED
  | REFUNDED, REFUNDED => true
  | _, _ => false
  end.
End OrderStatus.

Module ProductStatus.
Inductive t := ACTIVE | INACTIVE | OUT_OF_STOCK | DISCONTINUED.
Definition eqb (a b : t) : bool :=
  match a, b with
  | ACTIVE, ACTIVE | INACTIVE, INACTIVE | OUT_OF_STOCK, OUT_OF_STOCK
  | DISCONTINUED, DISCONTINUED => true
  | _, _ => false
  end.
End ProductStatus.

(** ** Rows of [app/models.py] *)

Module User.
Record t := { id : Z; role : UserRole.t }.
End User.

Module Product.
(** The primary key is the key of the [products] map. *)
Record t := {
  name : string;
  sku : string;
  price : Q;
  stock_quantity : Z;
  track_inventory : bool;
  status : ProductStatus.t
}.
Definition with_stock (p : t) (n : Z) : t :=
  {| name := name p; sku := sku p; price := price p; stock_quantity := n;
     track_inventory := track_inventory p; status := status p |}.
End Product.

Module CartItem.
Record t := {
  id : Z;
  user_id : Z;
  product_id : Z;
  variant_id : option Z;
  quantity : Z
}.
Definition with_quantity (c : t) (q : Z) : t :=
  {| id := id c; user_id := user_id c; product_id := product_id c;
     variant_id := variant_id c; quantity := q |}.
End CartItem.

Module SessionCart.
Record t := {
  id : Z;
  session_id : string;
  product_id : Z;
  quantity : Z
}.
Definition with_quantity (c : t) (q : Z) : t :=
  {| id := id c; session_id := session_id c; product_id := product_id c;
     quantity := q |}.
End SessionCart.

Module Order.
Record t := {
  id : Z;
  order_number : string;
  user_id : option Z;
  session_id : option string;
  subtotal : Q;
  tax_amount : Q;
  shipping_amount : Q;
  discount_amount : Q;
  total_amount : Q;
  status : OrderStatus.t
}.
Definition with_id (o : t) (i : Z) : t :=
  {| id := i; order_number := order_number o; user_id := user_id o;
     session_id := session_id o; subtotal := subtotal o;
     tax_amount := tax_amount o; shipping_amount := shipping_amount o;
     discount_amount := discount_amount o; total_amount := total_amount o;
     status := status o |}.
Definition with_status (o : t) (s : OrderStatus.t) : t :=
  {| id := id o; order_number := order_number o; user_id := user_id o;
     session_id := session_id o; subtotal := subtotal o;
     tax_amount := tax_amount o; shipping_amount := shipping_amount o;
     discount_amount := discount_amount o; total_amount := total_amount o;
     status := s |}.
End Order.

Module OrderItem.
Record t := {
  order_id : Z;
  product_id : Z;
  variant_id : option Z;
  product_name : string;
  product_sku : string;
  quantity : Z;
  unit_price : Q;
  total_price : Q
}.
End OrderItem.

(** ** Request schemas of [app/schemas.py] *)

Module CartItemCreate.
Record t := { product_id : Z; variant_id : option Z; quantity : Z }.
End CartItemCreate.

Module CartItemUpdate.
Record t := { product_id : Z; quantity : Z }.
End CartItemUpdate.

Module OrderItemCreate.
Record t := {
  product_id : Z;
  variant_id : option Z;
  quantity : Z;
  unit_price : Q
}.
End OrderItemCreate.

Module OrderCreate.
Record t := { items : list OrderItemCreate.t }.
End OrderCreate.

(** ** The database *)

Record DB := {
  products : gmap Z Product.t;
  cart_items : list CartItem.t;
  session_cart : list SessionCart.t;
  orders : list Order.t;
  order_items : list OrderItem.t
}.

Definition set_products (db : DB) (ps : gmap Z Product.t) : DB :=
  {| products := ps; cart_items := cart_items db;
     session_cart := session_cart db; orders := orders db;
     order_items := order_items db |}.

Definition set_cart_items (db : DB) (cs : list CartItem.t) : DB :=
  {| products := products db; cart_items := cs;
     session_cart := session_cart db; orders := orders db;
     order_items := order_items db |}.

Definition set_session_cart (db : DB) (cs : list SessionCart.t) : DB :=
  {| products := products db; cart_items := cart_items db;
     session_cart := cs; orders := orders db;
     order_items := order_items db |}.

Definition set_orders (db : DB) (os : list Order.t) : DB :=
  {| products := products db; cart_items := cart_items db;
     session_cart := session_cart db; orders := os;
     order_items := order_items db |}.

Definition set_order_items (db : DB) (rows : list OrderItem.t) : DB :=
  {| products := products db; cart_items := cart_items db;
     session_cart := session_cart db; orders := orders db;
     order_items := rows |}.

(** ** Errors

    The message of an exception is kept in structured form: one constructor
    per message template of the source, carrying the interpolated values. *)

Inductive Detail :=
| Cart_is_empty
| Insufficient_stock_only (name : string) (available : Z)
| Product_not_found
| Product_is_not_available (name : string)
| Insufficient_stock (name : string) (available requested : Z)
| Insufficient_stock_available (name : string) (available : Z)
| Failed_to_create_order
| Order_not_found
| Not_authorized_to_cancel
| Order_cannot_be_cancelled
| Quantity_must_be_greater_than_0
| Cart_item_not_found.

Inductive Error :=
| HTTPException (status_code : Z) (detail : Detail)
| ValueError (detail : Detail)
| AttributeError
| IntegrityError
| OperationalError.

Inductive Result (A : Type) :=
| Ok (a : A)
| Raise (e : Error).
Arguments Ok {A} a.
Arguments Raise {A} e.

(** ** The SQLAlchemy session

    [committed] is what the database holds durably.  [working] is what the
    open transaction sees: the committed rows with the attribute changes and
    bulk deletes made so far.  The session is created with
    [autoflush=False]: objects handed to [db.add] wait in [new_orders] and
    [new_items] until the next [db.commit()] flushes them.

    [fault] injects a storage failure: [Some k] makes the [k]-th commit from
    now (counting from 0) raise [OperationalError]; [None] is a storage that
    never fails. *)

Record Session := {
  committed : DB;
  working : DB;
  new_orders : list Order.t;
  new_items : list OrderItem.t;
  fault : option nat
}.

Definition M (A : Type) : Type := Session -> Result A * Session.

Definition ret {A} (a : A) : M A := fun s => (Ok a, s).

Definition raise {A} (e : Error) : M A := fun s => (Raise e, s).

Definition bind {A B} (m : M A) (f : A -> M B) : M B :=
  fun s => match m s with
           | (Ok a, s') => f a s'
           | (Raise e, s') => (Raise e, s')
           end.

Declare Scope session_scope.
Delimit Scope session_scope with session.
Notation "x <- m ;; k" := (bind m (fun x => k))
  (at level 100, m at next level, right associativity) : session_scope.
Notation "m ;;; k" := (bind m (fun _ => k))
  (at level 100, right associativity) : session_scope.
Local Open Scope session_scope.

(** [for x in l: body x] *)
Fixpoint for_each {A} (l : list A) (body : A -> M unit) : M unit :=
  match l with
  | [] => ret tt
  | x :: l' => body x ;;; for_each l' body
  end.

(** A list comprehension whose element expression touches the session. *)
Fixpoint for_list {A B} (l : list A) (body : A -> M B) : M (list B) :=
  match l with
  | [] => ret []
  | x :: l' => y <- body x ;; ys <- for_list l' body ;; ret (y :: ys)
  end.

(** [try: m except ValueError as e: raise HTTPException(400, str(e))] *)
Definition except_ValueError {A} (m : M A) : M A :=
  fun s => match m s with
           | (Raise (ValueError d), s') => (Raise (HTTPException 400 d), s')
           | r => r
           end.

Definition get_working : M DB := fun s => (Ok (working s), s).

Definition modify_working (f : DB -> DB) : M unit :=
  fun s => (Ok tt, {| committed := committed s; working := f (working s);
                      new_orders := new_orders s; new_items := new_items s;
                      fault := fault s |}).

(** The primary key the flush will give the next row of [orders]. *)
Definition next_order_id (os : list Order.t) : Z :=
  1 + fold_right Z.max 0 (map Order.id os).

(** [db.add(db_order)]: the result is the object as it reads after the
    flush, with its primary key. *)
Definition db_add_order (o : Order.t) : M Order.t :=
  fun s =>
    let o' := Order.with_id o
                (next_order_id (orders (working s) ++ new_orders s)) in
    (Ok o', {| committed := committed s; working := working s;
               new_orders := new_orders s ++ [o']; new_items := new_items s;
               fault := fault s |}).

(** [db.add(db_order_item)] *)
Definition db_add_order_item (i : OrderItem.t) : M unit :=
  fun s => (Ok tt, {| committed := committed s; working := working s;
                      new_orders := new_orders s;
                      new_items := new_items s ++ [i]; fault := fault s |}).

(** [order_number = Column(String, unique=True, ...)]: inserting a row
    whose order number is already in the table violates the constraint. *)
Definition order_number_taken (os : list Order.t) (n : string) : bool :=
  existsb (fun o => String.eqb (Order.order_number o) n) os.

Fixpoint flush_orders (os pending : list Order.t) : option (list Order.t) :=
  match pending with
  | [] => Some os
  | o :: rest =>
      if order_number_taken os (Order.order_number o) then None
      else flush_orders (os ++ [o]) rest
  end.

Definition tick (f : option nat) : option nat :=
  match f with
  | Some (S k) => Some k
  | other => other
  end.

(** [db.commit()]: flush the pending rows, then make the transaction
    durable.  A failed commit leaves the durable state as it was. *)
Definition db_commit : M unit :=
  fun s =>
    match fault s with
    | Some O => (Raise OperationalError, s)
    | _ =>
        match flush_orders (orders (working s)) (new_orders s) with
        | None => (Raise IntegrityError, s)
        | Some os =>
            let db := set_order_items (set_orders (working s) os)
                        (order_items (working s) ++ new_items s) in
            (Ok tt, {| committed := db; working := db; new_orders := [];
                       new_items := []; fault := tick (fault s) |})
        end
    end.

(** [db.rollback()] *)
Definition db_rollback : M unit :=
  fun s => (Ok tt, {| committed := committed s; working := committed s;
                      new_orders := []; new_items := [];
                      fault := fault s |}).

(** One request: [get_db] opens a session on the durable state and closes
    it in its [finally] clause, whether the handler returned or raised.
    What is left is the durable state. *)
Definition run {A} (m : M A) (db : DB) (f : option nat) : Result A * DB :=
  let '(r, s) := m {| committed := db; working := db; new_orders := [];
                      new_items := []; fault := f |} in
  (r, committed s).

(** ** Python arithmetic on amounts *)

Local Open Scope Q_scope.

(** [sum(xs)]: accumulation from 0, left to right. *)
Definition py_sum (xs : list Q) : Q := fold_left Qplus xs 0.

Definition Qlt_bool (x y : Q) : bool := negb (Qle_bool y x).

(** Nearest integer, ties to even. *)
Definition round_half_even (x : Q) : Z :=
  let n := Qfloor x in
  match Qcompare (x - inject_Z n) (1 # 2) with
  | Lt => n
  | Gt => (n + 1)%Z
  | Eq => if Z.even n then n else (n + 1)%Z
  end.

(** [round(x, 2)] *)
Definition round2 (x : Q) : Q := inject_Z (round_half_even (x * 100)) / 100.

(** ** What a request reads from its environment *)

Record Env := {
  today : string;   (* datetime.now().strftime('%Y%m%d') *)
  uuid4 : string;   (* str(uuid.uuid4()) *)
  time : Z          (* int(time.time()) *)
}.

Definition upper_ascii (c : ascii) : ascii :=
  let n := nat_of_ascii c in
  if ((97 <=? n) && (n <=? 122))%nat then ascii_of_nat (n - 32) else c.

Fixpoint upper (s : string) : string :=
  match s with
  | EmptyString => EmptyString
  | String c s' => String (upper_ascii c) (upper s')
  end.

(** [s[:n]] *)
Definition prefix (n : nat) (s : string) : string := substring 0 n s.

(** Update of the first row that satisfies [p], as done through the object
    that [.first()] returned. *)
Fixpoint update_first {A} (p : A -> bool) (f : A -> A) (l : list A) : list A :=
  match l with
  | [] => []
  | x :: l' => if p x then f x :: l' else x :: update_first p f l'
  end.

(** [db.delete(obj)] of the row that [.first()] returned. *)
Fixpoint delete_first {A} (p : A -> bool) (l : list A) : list A :=
  match l with
  | [] => []
  | x :: l' => if p x then l' else x :: delete_first p l'
  end.

(** ** Rows added to the cart tables

    The session keeps no list of pending cart rows.  The functions that
    [db.add] one call [db.commit()] in their next statement: no query runs
    between the two, and a failed commit leaves the durable state without
    the row either way.  So the row joins the view of the transaction at
    once, with the primary key the flush gives it. *)

(** The next value of an autoincremented primary key. *)
Definition next_id (ids : list Z) : Z := (1 + fold_right Z.max 0 ids)%Z.

(** [db.add(db_cart_item)] *)
Definition db_add_cart_item (c : CartItem.t) : M CartItem.t :=
  fun s =>
    let c' :=
      {| CartItem.id := next_id (map CartItem.id (cart_items (working s)));
         CartItem.user_id := CartItem.user_id c;
         CartItem.product_id := CartItem.product_id c;
         CartItem.variant_id := CartItem.variant_id c;
         CartItem.quantity := CartItem.quantity c |} in
    (Ok c', {| committed := committed s;
               working := set_cart_items (working s)
                            (cart_items (working s) ++ [c']);
               new_orders := new_orders s; new_items := new_items s;
               fault := fault s |}).

(** [db.add(db_cart_item)] for a row of [session_cart] *)
Definition db_add_session_cart (c : SessionCart.t) : M SessionCart.t :=
  fun s =>
    let c' :=
      {| SessionCart.id :=
           next_id (map SessionCart.id (session_cart (working s)));
         SessionCart.session_id := SessionCart.session_id c;
         SessionCart.product_id := SessionCart.product_id c;
         SessionCart.quantity := SessionCart.quantity c |} in
    (Ok c', {| committed := committed s;
               working := set_session_cart (working s)
                            (session_cart (working s) ++ [c']);
               new_orders := new_orders s; new_items := new_items s;
               fault := fault s |}).

(** [a == b] on a nullable integer column: [IS NULL] for [None]. *)
Definition option_Z_eqb (a b : option Z) : bool :=
  match a, b with
  | Some x, Some y => (x =? y)%Z
  | None, None => true
  | _, _ => false
  end.

(** ** Python strings

    Names and slugs are ASCII strings. *)

Definition lower_ascii (c : ascii) : ascii :=
  let n := nat_of_ascii c in
  if ((65 <=? n) && (n <=? 90))%nat then ascii_of_nat (n + 32) else c.

(** [s.lower()] *)
Fixpoint lower (s : string) : string :=
  match s with
  | EmptyString => EmptyString
  | String c s' => String (lower_ascii c) (lower s')
  end.

(** [s.replace(a, b)] for single characters [a] and [b] *)
Fixpoint replace_char (a b : ascii) (s : string) : string :=
  match s with
  | EmptyString => EmptyString
  | String c s' =>
      String (if Ascii.eqb c a then b else c) (replace_char a b s')
  end.

(** The characters of the class [[a-z0-9-]]. *)
Definition slug_char (c : ascii) : bool :=
  let n := nat_of_ascii c in
  (((97 <=? n) && (n <=? 122)) || ((48 <=? n) && (n <=? 57)) || (n =? 45))%nat.

(** [re.sub(r'[^...]', '', s)] for the class of characters [keep] *)
Fixpoint re_sub_not (keep : ascii -> bool) (s : string) : string :=
  match s with
  | EmptyString => EmptyString
  | String c s' =>
      if keep c then String c (re_sub_not keep s') else re_sub_not keep s'
  end.

(** The characters that [str.strip()] removes, among the ASCII ones. *)
Definition whitespace (c : ascii) : bool :=
  let n := nat_of_ascii c in
  (((9 <=? n) && (n <=? 13)) || ((28 <=? n) && (n <=? 32)))%nat.

Fixpoint lstrip (s : string) : string :=
  match s with
  | EmptyString => EmptyString
  | String c s' => if whitespace c then lstrip s' else s
  end.

Fixpoint rstrip (s : string) : string :=
  match s with
  | EmptyString => EmptyString
  | String c s' =>
      match rstrip s' with
      | EmptyString => if whitespace c then EmptyString else String c EmptyString
      | rest => String c rest
      end
  end.

(** [s.strip()] *)
Definition strip (s : string) : string := rstrip (lstrip s).

(** [" " in s] *)
Fixpoint has_space (s : string) : bool :=
  match s with
  | EmptyString => false
  | String c s' => Ascii.eqb c " " || has_space s'
  end.

(** [s.split(" ", 1)] of a string that has a space: what stands before the
    first space and what stands after it. *)
Fixpoint split_space (s : string) : string * string :=
  match s with
  | EmptyString => (EmptyString, EmptyString)
  | String c s' =>
      if Ascii.eqb c " " then (EmptyString, s')
      else let '(a, b) := split_space s' in (String c a, b)
  end.

(** [round(x, 1)] *)
Definition round1 (x : Q) : Q := inject_Z (round_half_even (x * 10)) / 10.

(** ** Python floats

    [float(x)] of an exact number [x]: the nearest binary64 number, ties to
    the even significand.  Overflow and subnormal numbers are left out, so
    this is the conversion for [2^-1022 <= |x| < 2^1024] and for zero. *)

(** [2^e] *)
Definition pow2 (e : Z) : Q :=
  if (0 <=? e)%Z then inject_Z (2 ^ e) else / inject_Z (2 ^ (- e)).

(** The exponent [e] with [2^e <= x < 2^(e+1)], for a positive [x]. *)
Definition binade (x : Q) : Z :=
  if Qle_bool 1 x then Z.log2 (Qfloor x)
  else (- Z.log2_up (Qceiling (/ x)))%Z.

(** A binary64 number has a significand of 53 bits: the numbers of the
    binade of [x] are the multiples of [2^(e-52)]. *)
Definition float_of_Q (x : Q) : Q :=
  if Qeq_bool x 0 then 0%Q
  else
    let ulp := pow2 (binade (Qabs x) - 52) in
    (inject_Z (round_half_even (x / ulp)) * ulp)%Q.

(** ** The customer of a guest checkout, [app/schemas.py]

    [x or y] on an optional string: [x] when it is given and not empty. *)
Definition str_or (x : option string) (y : string) : string :=
  match x with
  | Some (String _ _ as s) => s
  | _ => y
  end.

Module CustomerInfoBase.
Record t := {
  first_name : string;
  last_name : option string;
  email : string;
  phone : string
}.
End CustomerInfoBase.

Module CheckoutCreate.

(** [populate_customer_info] on a request without [customer_info], whose
    [customer_name], [customer_email] and [customer_phone] are strings or
    absent: the [customer_info] it fills in, [None] when it leaves the
    request without one. *)
Definition populate_customer_info
    (customer_name customer_email customer_phone : option string)
  : option CustomerInfoBase.t :=
  let full_name := str_or customer_name "Guest" in
  let email := customer_email in
  let phone := customer_phone in
  let first_name := strip full_name in
  let '(first_name, last_name) :=
    if has_space first_name
    then let '(a, b) := split_space first_name in (a, Some b)
    else (first_name, None) in
  if negb (String.eqb (str_or email "") "")
     || negb (String.eqb (str_or phone "") "")
  then Some {| CustomerInfoBase.first_name := str_or (Some first_name) "Guest";
               CustomerInfoBase.last_name := last_name;
               CustomerInfoBase.email := str_or email "";
               CustomerInfoBase.phone := str_or phone "" |}
  else None.

End CheckoutCreate.

(** ** [app/crud.py] *)

Module crud.

(** [_add_rating_to_product] only sets transient attributes on the object. *)
Definition get_product_by_id (product_id : Z) : M (option Product.t) :=
  db <- get_working ;; ret (products db !! product_id).

(** [product.stock_quantity = n] on the loaded row [product_id]. *)
Definition set_stock_quantity (product_id : Z) (n : Z) : M unit :=
  modify_working (fun db =>
    set_products db
      (alter (fun p => Product.with_stock p n) product_id (products db))).

Definition get_user_cart (user_id : Z) : M (list CartItem.t) :=
  db <- get_working ;;
  ret (List.filter (fun c => CartItem.user_id c =? user_id)%Z (cart_items db)).

Definition update_cart_item (cart_item_id user_id quantity : Z)
  : M (option CartItem.t) :=
  db <- get_working ;;
  let sel c := ((CartItem.id c =? cart_item_id)
                && (CartItem.user_id c =? user_id))%Z in
  match List.find sel (cart_items db) with
  | Some db_item =>
      modify_working (fun db =>
        set_cart_items db
          (update_first sel (fun c => CartItem.with_quantity c quantity)
             (cart_items db))) ;;;
      db_commit ;;;
      ret (Some (CartItem.with_quantity db_item quantity))
  | None => ret None
  end.

Definition clear_user_cart (user_id : Z) : M unit :=
  modify_working (fun db =>
    set_cart_items db
      (List.filter (fun c => negb (CartItem.user_id c =? user_id)%Z)
         (cart_items db))) ;;;
  db_commit.

Definition order_item_for (order_id : Z) (item_data : OrderItemCreate.t)
    (product : Product.t) : OrderItem.t :=
  {| OrderItem.order_id := order_id;
     OrderItem.product_id := OrderItemCreate.product_id item_data;
     OrderItem.variant_id := OrderItemCreate.variant_id item_data;
     OrderItem.product_name := Product.name product;
     OrderItem.product_sku := Product.sku product;
     OrderItem.quantity := OrderItemCreate.quantity item_data;
     OrderItem.unit_price := OrderItemCreate.unit_price item_data;
     OrderItem.total_price :=
       inject_Z (OrderItemCreate.quantity item_data)
       * OrderItemCreate.unit_price item_data |}.

Definition create_order (env : Env) (order : OrderCreate.t) (user_id : Z)
  : M Order.t :=
  let order_number :=
    ("ORD-" ++ today env ++ "-" ++ upper (prefix 8 (uuid4 env)))%string in
  let subtotal :=
    py_sum (map (fun item => inject_Z (OrderItemCreate.quantity item)
                             * OrderItemCreate.unit_price item)
              (OrderCreate.items order)) in
  let tax_amount := subtotal * (18 # 100) in
  let shipping_amount := if Qlt_bool 500 subtotal then 0 else 50 in
  let total_amount := subtotal + tax_amount + shipping_amount in
  db_order <- db_add_order
    {| Order.id := 0%Z;
       Order.order_number := order_number;
       Order.user_id := Some user_id;
       Order.session_id := None;
       Order.subtotal := subtotal;
       Order.tax_amount := tax_amount;
       Order.shipping_amount := shipping_amount;
       Order.discount_amount := 0;
       Order.total_amount := total_amount;
       Order.status := OrderStatus.PENDING |} ;;
  db_commit ;;;
  for_each (OrderCreate.items order) (fun item_data =>
    product <- get_product_by_id (OrderItemCreate.product_id item_data) ;;
    match product with
    | Some product =>
        db_add_order_item (order_item_for (Order.id db_order) item_data product)
    | None => ret tt
    end) ;;;
  db_commit ;;;
  ret db_order.

Definition get_order_by_id (order_id : Z) : M (option Order.t) :=
  db <- get_working ;;
  ret (List.find (fun o => Order.id o =? order_id)%Z (orders db)).

(** The [shipped_at] and [delivered_at] stamps are not modelled. *)
Definition update_order_status (order_id : Z) (status : OrderStatus.t)
  : M (option Order.t) :=
  db <- get_working ;;
  let sel o := (Order.id o =? order_id)%Z in
  match List.find sel (orders db) with
  | Some db_order =>
      modify_working (fun db =>
        set_orders db
          (update_first sel (fun o => Order.with_status o status)
             (orders db))) ;;;
      db_commit ;;;
      ret (Some (Order.with_status db_order status))
  | None => ret None
  end.

(** [db_order.items] *)
Definition order_items_of (order_id : Z) : M (list OrderItem.t) :=
  db <- get_working ;;
  ret (List.filter (fun i => OrderItem.order_id i =? order_id)%Z
         (order_items db)).

(** The [product] relationship of a cart row: the loaded product, or
    [None]. *)
Definition product_of (product_id : Z) : M (option Product.t) :=
  db <- get_working ;; ret (products db !! product_id).

(** Attribute access on what may be [None]. *)
Definition attr (product : option Product.t) : M Product.t :=
  match product with
  | Some p => ret p
  | None => raise AttributeError
  end.

Module SessionCartItemData.
Record t := {
  product_id : Z;
  quantity : Z;
  unit_price : Q;
  subtotal : Q
}.
End SessionCartItemData.

Module SessionCartData.
Record t := {
  items : list SessionCartItemData.t;
  total_items : Z;
  subtotal : Q;
  tax_amount : Q;
  shipping_amount : Q;
  total_amount : Q
}.
End SessionCartData.

Definition _serialize_session_cart_item (products : gmap Z Product.t)
    (cart_item : SessionCart.t) : SessionCartItemData.t :=
  let product := products !! SessionCart.product_id cart_item in
  {| SessionCartItemData.product_id := SessionCart.product_id cart_item;
     SessionCartItemData.quantity := SessionCart.quantity cart_item;
     SessionCartItemData.unit_price :=
       match product with Some p => Product.price p | None => 0 end;
     SessionCartItemData.subtotal :=
       match product with
       | Some p => Product.price p * inject_Z (SessionCart.quantity cart_item)
       | None => 0
       end |}.

Definition session_rows (session_id : string) (db : DB) : list SessionCart.t :=
  List.filter (fun c => String.eqb (SessionCart.session_id c) session_id)
    (session_cart db).

Definition get_session_cart (session_id : string) : M SessionCartData.t :=
  db <- get_working ;;
  let cart_items := session_rows session_id db in
  let serialized_items :=
    map (_serialize_session_cart_item (products db)) cart_items in
  let total_items :=
    fold_left Z.add (map SessionCartItemData.quantity serialized_items) 0%Z in
  let subtotal := py_sum (map SessionCartItemData.subtotal serialized_items) in
  let tax_rate := 18 # 100 in
  let tax_amount := round2 (subtotal * tax_rate) in
  let shipping_threshold := 500 in
  let shipping_amount :=
    if Qle_bool shipping_threshold subtotal || Qeq_bool subtotal 0
    then 0 else 50 in
  let total_amount := round2 (subtotal + tax_amount + shipping_amount) in
  ret {| SessionCartData.items := serialized_items;
         SessionCartData.total_items := total_items;
         SessionCartData.subtotal := round2 subtotal;
         SessionCartData.tax_amount := tax_amount;
         SessionCartData.shipping_amount := shipping_amount;
         SessionCartData.total_amount := total_amount |}.

Definition update_session_cart_item (session_id : string)
    (product_id quantity : Z) : M (option SessionCart.t) :=
  db <- get_working ;;
  let sel c := String.eqb (SessionCart.session_id c) session_id
               && (SessionCart.product_id c =? product_id)%Z in
  match List.find sel (session_cart db) with
  | Some cart_item =>
      (if (quantity <=? 0)%Z then
         modify_working (fun db =>
           set_session_cart db (delete_first sel (session_cart db)))
       else
         modify_working (fun db =>
           set_session_cart db
             (update_first sel (fun c => SessionCart.with_quantity c quantity)
                (session_cart db)))) ;;;
      db_commit ;;;
      ret (Some (if (0 <? quantity)%Z
                 then SessionCart.with_quantity cart_item quantity
                 else cart_item))
  | None => ret None
  end.

Definition clear_session_cart (session_id : string) : M bool :=
  modify_working (fun db =>
    set_session_cart db
      (List.filter
         (fun c => negb (String.eqb (SessionCart.session_id c) session_id))
         (session_cart db))) ;;;
  db_commit ;;;
  ret true.

Definition create_order_from_session_cart (env : Env) (session_id : string)
  : M (option Order.t) :=
  db <- get_working ;;
  let cart_items := session_rows session_id db in
  match cart_items with
  | [] => ret None
  | _ :: _ =>
    (* Validate stock availability before creating order *)
    for_each cart_items (fun cart_item =>
      product <- product_of (SessionCart.product_id cart_item) ;;
      match product with
      | None => raise (ValueError Product_not_found)
      | Some product =>
          if negb (ProductStatus.eqb (Product.status product)
                     ProductStatus.ACTIVE)
          then raise (ValueError (Product_is_not_available
                                    (Product.name product)))
          else if Product.track_inventory product
                  && (Product.stock_quantity product
                      <? SessionCart.quantity cart_item)%Z
          then raise (ValueError
                        (Insufficient_stock (Product.name product)
                           (Product.stock_quantity product)
                           (SessionCart.quantity cart_item)))
          else ret tt
      end) ;;;
    (* Calculate totals *)
    amounts <- for_list cart_items (fun item =>
      product <- bind (product_of (SessionCart.product_id item)) attr ;;
      ret (inject_Z (SessionCart.quantity item) * Product.price product)) ;;
    let subtotal := py_sum amounts in
    let tax_rate := 18 # 100 in
    let tax_amount := round2 (subtotal * tax_rate) in
    let shipping_threshold := 500 in
    let shipping_amount :=
      if Qle_bool shipping_threshold subtotal || Qeq_bool subtotal 0
      then 0 else 50 in
    let total := round2 (subtotal + tax_amount + shipping_amount) in
    (* Generate order number *)
    let order_number :=
      ("ORD-" ++ pretty (time env) ++ "-" ++ prefix 8 session_id)%string in
    (* Create order *)
    db_order <- db_add_order
      {| Order.id := 0%Z;
         Order.order_number := order_number;
         Order.user_id := None;
         Order.session_id := Some session_id;
         Order.subtotal := round2 subtotal;
         Order.tax_amount := tax_amount;
         Order.shipping_amount := shipping_amount;
         Order.discount_amount := 0;
         Order.total_amount := total;
         Order.status := OrderStatus.PENDING |} ;;
    db_commit ;;;
    (* Create order items *)
    for_each cart_items (fun cart_item =>
      product <- bind (product_of (SessionCart.product_id cart_item)) attr ;;
      (* Check stock availability *)
      (if Product.track_inventory product
          && (Product.stock_quantity product
              <? SessionCart.quantity cart_item)%Z
       then
         (* Rollback and raise error if insufficient stock *)
         db_rollback ;;;
         product <- bind (product_of (SessionCart.product_id cart_item)) attr ;;
         raise (ValueError (Insufficient_stock_available
                              (Product.name product)
                              (Product.stock_quantity product)))
       else ret tt) ;;;
      db_add_order_item
        {| OrderItem.order_id := Order.id db_order;
           OrderItem.product_id := SessionCart.product_id cart_item;
           OrderItem.variant_id := None;
           OrderItem.product_name := Product.name product;
           OrderItem.product_sku := Product.sku product;
           OrderItem.quantity := SessionCart.quantity cart_item;
           OrderItem.unit_price := Product.price product;
           OrderItem.total_price :=
             Product.price product
             * inject_Z (SessionCart.quantity cart_item) |} ;;;
      (* Reduce stock quantity if tracking is enabled *)
      if Product.track_inventory product
      then set_stock_quantity (SessionCart.product_id cart_item)
             (Product.stock_quantity product
              - SessionCart.quantity cart_item)%Z
      else ret tt) ;;;
    (* Clear cart after creating order *)
    clear_session_cart session_id ;;;
    db_commit ;;;
    ret (Some db_order)
  end.

(** *** The cart of a registered user *)

Definition add_to_cart (user_id : Z) (cart_item : CartItemCreate.t)
  : M CartItem.t :=
  db <- get_working ;;
  let sel c := ((CartItem.user_id c =? user_id)
                && (CartItem.product_id c
                    =? CartItemCreate.product_id cart_item)
                && option_Z_eqb (CartItem.variant_id c)
                     (CartItemCreate.variant_id cart_item))%Z in
  match List.find sel (cart_items db) with
  | Some existing_item =>
      let quantity := (CartItem.quantity existing_item
                       + CartItemCreate.quantity cart_item)%Z in
      modify_working (fun db =>
        set_cart_items db
          (update_first sel (fun c => CartItem.with_quantity c quantity)
             (cart_items db))) ;;;
      db_commit ;;;
      ret (CartItem.with_quantity existing_item quantity)
  | None =>
      db_cart_item <- db_add_cart_item
        {| CartItem.id := 0%Z;
           CartItem.user_id := user_id;
           CartItem.product_id := CartItemCreate.product_id cart_item;
           CartItem.variant_id := CartItemCreate.variant_id cart_item;
           CartItem.quantity := CartItemCreate.quantity cart_item |} ;;
      db_commit ;;;
      ret db_cart_item
  end.

Definition remove_from_cart (cart_item_id user_id : Z)
  : M (option CartItem.t) :=
  db <- get_working ;;
  let sel c := ((CartItem.id c =? cart_item_id)
                && (CartItem.user_id c =? user_id))%Z in
  match List.find sel (cart_items db) with
  | Some db_item =>
      modify_working (fun db =>
        set_cart_items db (delete_first sel (cart_items db))) ;;;
      db_commit ;;;
      ret (Some db_item)
  | None => ret None
  end.

(** *** The cart of a guest session *)

Definition add_to_session_cart (session_id : string)
    (cart_item : CartItemCreate.t) : M SessionCart.t :=
  db <- get_working ;;
  let sel c := String.eqb (SessionCart.session_id c) session_id
               && (SessionCart.product_id c
                   =? CartItemCreate.product_id cart_item)%Z in
  match List.find sel (session_cart db) with
  | Some existing_item =>
      (* Update quantity *)
      let quantity := (SessionCart.quantity existing_item
                       + CartItemCreate.quantity cart_item)%Z in
      modify_working (fun db =>
        set_session_cart db
          (update_first sel (fun c => SessionCart.with_quantity c quantity)
             (session_cart db))) ;;;
      db_commit ;;;
      ret (SessionCart.with_quantity existing_item quantity)
  | None =>
      (* Create new cart item *)
      db_cart_item <- db_add_session_cart
        {| SessionCart.id := 0%Z;
           SessionCart.session_id := session_id;
           SessionCart.product_id := CartItemCreate.product_id cart_item;
           SessionCart.quantity := CartItemCreate.quantity cart_item |} ;;
      db_commit ;;;
      ret db_cart_item
  end.

Definition remove_from_session_cart (session_id : string) (product_id : Z)
  : M bool :=
  db <- get_working ;;
  let sel c := String.eqb (SessionCart.session_id c) session_id
               && (SessionCart.product_id c =? product_id)%Z in
  match List.find sel (session_cart db) with
  | Some cart_item =>
      modify_working (fun db =>
        set_session_cart db (delete_first sel (session_cart db))) ;;;
      db_commit ;;;
      ret true
  | None => ret false
  end.

(** *** Orders by number *)

Definition get_order_by_number (order_number : string) : M (option Order.t) :=
  db <- get_working ;;
  ret (List.find (fun o => String.eqb (Order.order_number o) order_number)
         (orders db)).

(** *** Coupons

    The [coupons] and [reviews] tables are only read, by the functions of
    this part and of the next: they are arguments of the functions rather
    than fields of [DB].  The two calls of [datetime.utcnow()] in one query
    are [now1] and [now2], in seconds. *)

Module Coupon.
Record t := {
  code : string;
  minimum_amount : Q;
  usage_limit : option Z;
  usage_count : Z;
  is_active : bool;
  valid_from : Z;
  valid_until : Z
}.
End Coupon.

Definition get_coupon_by_code (coupons : list Coupon.t) (now1 now2 : Z)
    (code : string) : option Coupon.t :=
  List.find (fun c => String.eqb (Coupon.code c) code
                      && Bool.eqb (Coupon.is_active c) true
                      && (Coupon.valid_from c <=? now1)%Z
                      && (now2 <=? Coupon.valid_until c)%Z)
    coupons.

Inductive CouponMessage :=
| Invalid_or_expired_coupon
| Minimum_order_amount_is (minimum_amount : Q)
| Coupon_usage_limit_exceeded.

(** The pair [(coupon, None)] or [(None, message)] that the function
    returns. *)
Definition validate_coupon (coupons : list Coupon.t) (now1 now2 : Z)
    (code : string) (user_id : Z) (order_total : Q)
  : Coupon.t + CouponMessage :=
  match get_coupon_by_code coupons now1 now2 code with
  | None => inr Invalid_or_expired_coupon
  | Some coupon =>
      if Qlt_bool order_total (Coupon.minimum_amount coupon)
      then inr (Minimum_order_amount_is (Coupon.minimum_amount coupon))
      else if match Coupon.usage_limit coupon with
              | Some usage_limit =>
                  negb (usage_limit =? 0)%Z
                  && (usage_limit <=? Coupon.usage_count coupon)%Z
              | None => false
              end
      then inr Coupon_usage_limit_exceeded
      else inl coupon
  end.

(** *** Ratings *)

Module Review.
Record t := { product_id : Z; rating : Z; is_approved : bool }.
End Review.

Module Rating.
Record t := { average_rating : option Q; review_count : Z }.
End Rating.

(** [func.avg] is the exact mean, [NULL] over no row; [float] makes it a
    binary64 number, and [round] rounds the exact value of that number to
    one decimal place. *)
Definition _calculate_product_rating (reviews : list Review.t)
    (product_id : Z) : Rating.t :=
  let rows :=
    List.filter (fun r => (Review.product_id r =? product_id)%Z
                          && Bool.eqb (Review.is_approved r) true) reviews in
  let review_count := Z.of_nat (length rows) in
  let average_rating :=
    match rows with
    | [] => None
    | _ :: _ =>
        Some (inject_Z (fold_left Z.add (map Review.rating rows) 0%Z)
              / inject_Z review_count)
    end in
  {| Rating.average_rating :=
       match average_rating with
       | Some a =>
           if Qeq_bool a 0 then None else Some (round1 (float_of_Q a))
       | None => None
       end;
     Rating.review_count := review_count |}.

(** *** The slug of a category

    What [create_category] stores as the slug, for the name and the slug of
    the request. *)
Definition create_category_slug (name : string) (slug : option string)
  : string :=
  match slug with
  | Some (String c s) => String c s
  | _ =>
      (* Create slug from name: lowercase, replace spaces with hyphens,
         remove special chars *)
      re_sub_not slug_char (replace_char " " "-" (lower name))
  end.

(** *** The name of the customer of a guest order

    What [create_order_from_session_cart] stores as [customer_name], for
    the names of [checkout_data.customer_info]. *)
Definition customer_name (first_name : string) (last_name : option string)
  : string :=
  let parts :=
    List.filter (fun s => negb (String.eqb s ""))
      (first_name :: match last_name with Some l => [l] | None => [] end) in
  match strip (String.concat " " parts) with
  | EmptyString => first_name
  | name => name
  end.

End crud.

(** ** Answers of the handlers

    A handler refuses a request with [raise HTTPException(status_code,
    detail)] and FastAPI answers with that status and message.  For the
    handlers whose messages are not among those of [Detail], the refusal is
    the value of the handler: [Refused] with the status and the message, one
    constructor of [Refusal.t] per message template.  An exception of the
    storage still raises. *)

Module Refusal.
Inductive t :=
| Product_not_found
| Product_is_not_available
| Insufficient_stock
| Cart_item_not_found
| Product_id_not_found (product_id : Z)
| Product_named_is_not_available (name : string)
| Insufficient_stock_for (name : string) (available : Z)
| Order_not_found
| Not_authorized_to_view_this_order
| Not_enough_permissions
| Failed_to_update_order_status.
End Refusal.

Inductive Answer (A : Type) :=
| Accepted (a : A)
| Refused (status_code : Z) (detail : Refusal.t).
Arguments Accepted {A} a.
Arguments Refused {A} status_code detail.

(** [for x in l: body x], where the body may refuse the request: the loop
    ends at the first refusal. *)
Fixpoint for_each_answer {A} (l : list A) (body : A -> M (Answer unit))
  : M (Answer unit) :=
  match l with
  | [] => ret (Accepted tt)
  | x :: l' =>
      a <- body x ;;
      match a with
      | Accepted _ => for_each_answer l' body
      | Refused status_code detail => ret (Refused status_code detail)
      end
  end.

(** ** [app/auth.py]

    The user is the one [get_current_active_user] returned. *)

Module auth.

Definition get_current_admin_user (current_user : User.t) : Answer User.t :=
  if negb (UserRole.eqb (User.role current_user) UserRole.ADMIN)
  then Refused 403 Refusal.Not_enough_permissions
  else Accepted current_user.

End auth.

(** ** [app/routers/cart.py] *)

Module routers_cart.

Definition update_cart_item (cart_item_id : Z) (cart_update : CartItemUpdate.t)
    (current_user : User.t) : M CartItem.t :=
  if (CartItemUpdate.quantity cart_update <=? 0)%Z
  then raise (HTTPException 400 Quantity_must_be_greater_than_0)
  else
    db_item <- crud.update_cart_item cart_item_id (User.id current_user)
                 (CartItemUpdate.quantity cart_update) ;;
    match db_item with
    | None => raise (HTTPException 404 Cart_item_not_found)
    | Some db_item => ret db_item
    end.

Module CartSummary.
Record t := {
  total_items : Z;
  subtotal : Q;
  tax_amount : Q;
  shipping_amount : Q;
  total_amount : Q
}.
End CartSummary.

Definition get_cart_summary (current_user : User.t) : M CartSummary.t :=
  cart_items <- crud.get_user_cart (User.id current_user) ;;
  let total_items := fold_left Z.add (map CartItem.quantity cart_items) 0%Z in
  amounts <- for_list cart_items (fun item =>
    product <- bind (crud.product_of (CartItem.product_id item)) crud.attr ;;
    ret (Product.price product * inject_Z (CartItem.quantity item))) ;;
  let subtotal := py_sum amounts in
  (* Calculate tax (18% GST for India) *)
  let tax_rate := 18 # 100 in
  let tax_amount := subtotal * tax_rate in
  (* Shipping calculation (free shipping over 500, no shipping for empty cart) *)
  let shipping_threshold := 500 in
  let shipping_amount :=
    if Qeq_bool subtotal 0 || Qle_bool shipping_threshold subtotal
    then 0 else 50 in
  let total_amount := subtotal + tax_amount + shipping_amount in
  ret {| CartSummary.total_items := total_items;
         CartSummary.subtotal := round2 subtotal;
         CartSummary.tax_amount := round2 tax_amount;
         CartSummary.shipping_amount := shipping_amount;
         CartSummary.total_amount := round2 total_amount |}.

Definition get_session_cart_summary (session_id : string)
  : M crud.SessionCartData.t :=
  crud.get_session_cart session_id.

Definition update_session_cart_item (session_id : string)
    (cart_item : CartItemUpdate.t) : M unit :=
  result <- crud.update_session_cart_item session_id
              (CartItemUpdate.product_id cart_item)
              (CartItemUpdate.quantity cart_item) ;;
  match result with
  | None => raise (HTTPException 404 Cart_item_not_found)
  | Some _ => ret tt
  end.

Definition add_to_cart (cart_item : CartItemCreate.t) (current_user : User.t)
  : M (Answer CartItem.t) :=
  (* Verify product exists and is available *)
  product <- crud.get_product_by_id (CartItemCreate.product_id cart_item) ;;
  match product with
  | None => ret (Refused 404 Refusal.Product_not_found)
  | Some product =>
      if negb (ProductStatus.eqb (Product.status product)
                 ProductStatus.ACTIVE)
      then ret (Refused 400 Refusal.Product_is_not_available)
      (* Check stock if inventory tracking is enabled *)
      else if Product.track_inventory product
              && (Product.stock_quantity product
                  <? CartItemCreate.quantity cart_item)%Z
      then ret (Refused 400 Refusal.Insufficient_stock)
      else
        db_item <- crud.add_to_cart (User.id current_user) cart_item ;;
        ret (Accepted db_item)
  end.

Definition remove_from_cart (cart_item_id : Z) (current_user : User.t)
  : M (Answer unit) :=
  db_item <- crud.remove_from_cart cart_item_id (User.id current_user) ;;
  match db_item with
  | None => ret (Refused 404 Refusal.Cart_item_not_found)
  | Some _ => ret (Accepted tt)
  end.

Definition clear_cart (current_user : User.t) : M unit :=
  crud.clear_user_cart (User.id current_user).

Definition add_to_session_cart (session_id : string)
    (cart_item : CartItemCreate.t) : M (Answer SessionCart.t) :=
  (* Verify product exists and is available *)
  product <- crud.get_product_by_id (CartItemCreate.product_id cart_item) ;;
  match product with
  | None => ret (Refused 404 Refusal.Product_not_found)
  | Some product =>
      if negb (ProductStatus.eqb (Product.status product)
                 ProductStatus.ACTIVE)
      then ret (Refused 400 Refusal.Product_is_not_available)
      (* Check stock if inventory tracking is enabled *)
      else if Product.track_inventory product
              && (Product.stock_quantity product
                  <? CartItemCreate.quantity cart_item)%Z
      then ret (Refused 400 Refusal.Insufficient_stock)
      else
        db_item <- crud.add_to_session_cart session_id cart_item ;;
        ret (Accepted db_item)
  end.

Definition remove_from_session_cart (session_id : string) (product_id : Z)
  : M (Answer unit) :=
  result <- crud.remove_from_session_cart session_id product_id ;;
  if result then ret (Accepted tt)
  else ret (Refused 404 Refusal.Cart_item_not_found).

Definition clear_session_cart (session_id : string) : M unit :=
  crud.clear_session_cart session_id ;;; ret tt.

End routers_cart.

(** ** [app/routers/orders.py] *)

Module routers_orders.

Definition cancel_order (order_id : Z) (current_user : User.t) : M unit :=
  db_order <- crud.get_order_by_id order_id ;;
  match db_order with
  | None => raise (HTTPException 404 Order_not_found)
  | Some db_order =>
    (* Users can only cancel their own orders *)
    if negb (match Order.user_id db_order with
             | Some u => (u =? User.id current_user)%Z
             | None => false
             end)
       && negb (UserRole.eqb (User.role current_user) UserRole.ADMIN)
    then raise (HTTPException 403 Not_authorized_to_cancel)
    (* Only allow cancellation if order is still pending or confirmed *)
    else if negb (existsb (OrderStatus.eqb (Order.status db_order))
                    [OrderStatus.PENDING; OrderStatus.CONFIRMED])
    then raise (HTTPException 400 Order_cannot_be_cancelled)
    else
      (* Update order status *)
      db_order <- crud.update_order_status order_id OrderStatus.CANCELLED ;;
      db_order <- (match db_order with
                   | Some o => ret o
                   | None => raise AttributeError
                   end) ;;
      (* Restore product stock quantities *)
      items <- crud.order_items_of (Order.id db_order) ;;
      for_each items (fun item =>
        product <- crud.get_product_by_id (OrderItem.product_id item) ;;
        match product with
        | Some product =>
            if Product.track_inventory product
            then
              crud.set_stock_quantity (OrderItem.product_id item)
                (Product.stock_quantity product + OrderItem.quantity item)%Z ;;;
              db_commit
            else ret tt
        | None => ret tt
        end)
  end.

(** The totals computed in the handler itself (lines 175-178) are never
    used: the stored ones are those of [crud.create_order]. *)
Definition create_order_from_cart (env : Env) (current_user : User.t)
  : M Order.t :=
  (* Get user's cart *)
  cart_items <- crud.get_user_cart (User.id current_user) ;;
  match cart_items with
  | [] => raise (HTTPException 400 Cart_is_empty)
  | _ :: _ =>
    (* Validate stock availability *)
    for_each cart_items (fun item =>
      product <- bind (crud.product_of (CartItem.product_id item)) crud.attr ;;
      if Product.track_inventory product
         && (Product.stock_quantity product <? CartItem.quantity item)%Z
      then raise (HTTPException 400
                    (Insufficient_stock_only (Product.name product)
                       (Product.stock_quantity product)))
      else ret tt) ;;;
    (* Create order items data *)
    order_items <- for_list cart_items (fun cart_item =>
      product <- bind (crud.product_of (CartItem.product_id cart_item))
                   crud.attr ;;
      ret {| OrderItemCreate.product_id := CartItem.product_id cart_item;
             OrderItemCreate.variant_id := None;
             OrderItemCreate.quantity := CartItem.quantity cart_item;
             OrderItemCreate.unit_price := Product.price product |}) ;;
    let order_create := {| OrderCreate.items := order_items |} in
    (* Create the order using existing endpoint logic *)
    order <- crud.create_order env order_create (User.id current_user) ;;
    (* Update product stock quantities after order creation *)
    for_each cart_items (fun cart_item =>
      product <- bind (crud.product_of (CartItem.product_id cart_item))
                   crud.attr ;;
      if Product.track_inventory product
      then crud.set_stock_quantity (CartItem.product_id cart_item)
             (Product.stock_quantity product - CartItem.quantity cart_item)%Z
      else ret tt) ;;;
    db_commit ;;;
    (* Clear user's cart after successful order creation *)
    crud.clear_user_cart (User.id current_user) ;;;
    ret order
  end.

Definition create_order_from_session_cart (env : Env) (session_id : string)
  : M Order.t :=
  cart_data <- crud.get_session_cart session_id ;;
  match crud.SessionCartData.items cart_data with
  | [] => raise (HTTPException 400 Cart_is_empty)
  | _ :: _ =>
    order <- except_ValueError
               (crud.create_order_from_session_cart env session_id) ;;
    match order with
    | None => raise (HTTPException 400 Failed_to_create_order)
    | Some order => ret order
    end
  end.

(** [POST /orders] *)
Definition create_order (env : Env) (order : OrderCreate.t)
    (current_user : User.t) : M (Answer Order.t) :=
  (* Validate all products in the order *)
  checked <- for_each_answer (OrderCreate.items order) (fun item =>
    product <- crud.get_product_by_id (OrderItemCreate.product_id item) ;;
    match product with
    | None =>
        ret (Refused 404 (Refusal.Product_id_not_found
                            (OrderItemCreate.product_id item)))
    | Some product =>
        if negb (ProductStatus.eqb (Product.status product)
                   ProductStatus.ACTIVE)
        then ret (Refused 400 (Refusal.Product_named_is_not_available
                                 (Product.name product)))
        (* Check stock *)
        else if Product.track_inventory product
                && (Product.stock_quantity product
                    <? OrderItemCreate.quantity item)%Z
        then ret (Refused 400 (Refusal.Insufficient_stock_for
                                 (Product.name product)
                                 (Product.stock_quantity product)))
        else ret (Accepted tt)
    end) ;;
  match checked with
  | Refused status_code detail => ret (Refused status_code detail)
  | Accepted _ =>
    (* Create the order *)
    db_order <- crud.create_order env order (User.id current_user) ;;
    (* Update product stock quantities *)
    for_each (OrderCreate.items order) (fun item =>
      product <- crud.get_product_by_id (OrderItemCreate.product_id item) ;;
      match product with
      | Some product =>
          if Product.track_inventory product
          then crud.set_stock_quantity (OrderItemCreate.product_id item)
                 (Product.stock_quantity product
                  - OrderItemCreate.quantity item)%Z
          else ret tt
      | None => ret tt
      end) ;;;
    db_commit ;;;
    (* Clear user's cart after successful order *)
    crud.clear_user_cart (User.id current_user) ;;;
    ret (Accepted db_order)
  end.

Definition get_order (order_id : Z) (current_user : User.t)
  : M (Answer Order.t) :=
  db_order <- crud.get_order_by_id order_id ;;
  match db_order with
  | None => ret (Refused 404 Refusal.Order_not_found)
  | Some db_order =>
      (* Users can only see their own orders, unless admin *)
      if negb (UserRole.eqb (User.role current_user) UserRole.ADMIN)
         && negb (match Order.user_id db_order with
                  | Some u => (u =? User.id current_user)%Z
                  | None => false
                  end)
      then ret (Refused 403 Refusal.Not_authorized_to_view_this_order)
      else ret (Accepted db_order)
  end.

Definition get_order_by_number (order_number : string)
    (current_user : User.t) : M (Answer Order.t) :=
  db_order <- crud.get_order_by_number order_number ;;
  match db_order with
  | None => ret (Refused 404 Refusal.Order_not_found)
  | Some db_order =>
      (* Users can only see their own orders, unless admin *)
      if negb (UserRole.eqb (User.role current_user) UserRole.ADMIN)
         && negb (match Order.user_id db_order with
                  | Some u => (u =? User.id current_user)%Z
                  | None => false
                  end)
      then ret (Refused 403 Refusal.Not_authorized_to_view_this_order)
      else ret (Accepted db_order)
  end.

(** [current_user = Depends(auth.get_current_admin_user)]: the dependency
    is resolved before the body runs. *)
Definition update_order_status (order_id : Z) (status : OrderStatus.t)
    (current_user : User.t) : M (Answer Order.t) :=
  match auth.get_current_admin_user current_user with
  | Refused status_code detail => ret (Refused status_code detail)
  | Accepted current_user =>
      db_order <- crud.update_order_status order_id status ;;
      match db_order with
      | None => ret (Refused 404 Refusal.Order_not_found)
      | Some db_order => ret (Accepted db_order)
      end
  end.

End routers_orders.

(** ** [app/routers/admin.py] *)

Module routers_admin.

Definition update_order_status_admin (order_id : Z) (status : OrderStatus.t)
    (current_admin : User.t) : M (Answer Order.t) :=
  match auth.get_current_admin_user current_admin with
  | Refused status_code detail => ret (Refused status_code detail)
  | Accepted current_admin =>
      order <- crud.get_order_by_id order_id ;;
      match order with
      | None => ret (Refused 404 Refusal.Order_not_found)
      | Some order =>
          (* Update the order status *)
          updated_order <- crud.update_order_status order_id status ;;
          match updated_order with
          | None => ret (Refused 500 Refusal.Failed_to_update_order_status)
          | Some updated_order => ret (Accepted updated_order)
          end
      end
  end.

End routers_admin.

(** * Vocabulary of the statements

    Nothing below is translated from the source: these are the notions the
    theorems are stated with, the named bodies of the loops of the handlers,
    and the data of the scenarios. *)

Local Open Scope Z_scope.
Local Open Scope list_scope.

(** ** Sessions and carts *)

(** The session that [get_db] opens on [db]. *)
Definition open_session (db : DB) (f : option nat) : Session :=
  {| committed := db; working := db; new_orders := []; new_items := [];
     fault := f |}.

Definition add_new_items (s : Session) (l : list OrderItem.t) : Session :=
  {| committed := committed s; working := working s;
     new_orders := new_orders s; new_items := new_items s ++ l;
     fault := fault s |}.

Definition with_products (s : Session) (ps : gmap Z Product.t) : Session :=
  {| committed := committed s; working := set_products (working s) ps;
     new_orders := new_orders s; new_items := new_items s;
     fault := fault s |}.

(** [m] leaves the session as it found it, whatever it returns. *)
Definition readonly {A} (m : M A) : Prop :=
  forall s r s', m s = (r, s') -> s' = s.

(** [m] takes sessions that satisfy [I] to sessions that satisfy [I],
    whether it returns or raises. *)
Definition preserves {A} (I : Session -> Prop) (m : M A) : Prop :=
  forall s r s', I s -> m s = (r, s') -> I s'.

(** Nothing is pending and the [orders] table, in the transaction and in
    the durable state alike, is [os]. *)
Definition orders_settled (os : list Order.t) (s : Session) : Prop :=
  new_orders s = [] /\ orders (committed s) = os /\ orders (working s) = os.

Definition user_rows (user_id : Z) (db : DB) : list CartItem.t :=
  List.filter (fun c => CartItem.user_id c =? user_id) (cart_items db).

Definition user_lines (rows : list CartItem.t) : list (Z * Z) :=
  map (fun c => (CartItem.product_id c, CartItem.quantity c)) rows.

Definition session_lines (rows : list SessionCart.t) : list (Z * Z) :=
  map (fun c => (SessionCart.product_id c, SessionCart.quantity c)) rows.

Definition session_line (session_id : string) (product_id : Z)
    (c : SessionCart.t) : bool :=
  String.eqb (SessionCart.session_id c) session_id
  && (SessionCart.product_id c =? product_id).

Definition user_line (cart_item_id user_id : Z) (c : CartItem.t) : bool :=
  (CartItem.id c =? cart_item_id) && (CartItem.user_id c =? user_id).

(** ** Checkout, for either kind of cart *)

Inductive Owner :=
| Registered (u : User.t)
| Guest (session_id : string).

Definition checkout (env : Env) (owner : Owner) : M Order.t :=
  match owner with
  | Registered u => routers_orders.create_order_from_cart env u
  | Guest session_id =>
      routers_orders.create_order_from_session_cart env session_id
  end.

(** The cart rows of an owner, as product and quantity. *)
Definition cart_lines (owner : Owner) (db : DB) : list (Z * Z) :=
  match owner with
  | Registered u =>
      map (fun c => (CartItem.product_id c, CartItem.quantity c))
        (user_rows (User.id u) db)
  | Guest session_id =>
      map (fun c => (SessionCart.product_id c, SessionCart.quantity c))
        (crud.session_rows session_id db)
  end.

(** What the guest checkout finds wrong with a cart line, if anything. *)
Definition line_problem (ps : gmap Z Product.t) (c : SessionCart.t)
  : option Detail :=
  match ps !! SessionCart.product_id c with
  | None => Some Product_not_found
  | Some p =>
      if negb (ProductStatus.eqb (Product.status p) ProductStatus.ACTIVE)
      then Some (Product_is_not_available (Product.name p))
      else if Product.track_inventory p
              && (Product.stock_quantity p <? SessionCart.quantity c)
      then Some (Insufficient_stock (Product.name p)
                   (Product.stock_quantity p) (SessionCart.quantity c))
      else None
  end.

(** A cart line the stock check lets through. *)
Definition in_stock (ps : gmap Z Product.t) (c : CartItem.t) : Prop :=
  exists p, ps !! CartItem.product_id c = Some p
    /\ (Product.track_inventory p = true ->
        CartItem.quantity c <= Product.stock_quantity p).

(** ** Stock *)

(** Units of product [k] on cart lines given as product and quantity. *)
Fixpoint purchased (k : Z) (lines : list (Z * Z)) : Z :=
  match lines with
  | [] => 0
  | (product_id, quantity) :: lines' =>
      (if product_id =? k then quantity else 0) + purchased k lines'
  end.

(** Units of product [product_id] on the given line items. *)
Fixpoint ordered_quantity (product_id : Z) (items : list OrderItem.t) : Z :=
  match items with
  | [] => 0
  | i :: items' =>
      (if OrderItem.product_id i =? product_id then OrderItem.quantity i
       else 0) + ordered_quantity product_id items'
  end.

(** A product after [q] units went back to its stock. *)
Definition restock (q : Z) (p : Product.t) : Product.t :=
  if Product.track_inventory p
  then Product.with_stock p (Product.stock_quantity p + q)
  else p.

(** [product.stock_quantity += n] on product [product_id], if it exists and
    tracks its stock. *)
Definition move_stock (product_id n : Z) (ps : gmap Z Product.t)
  : gmap Z Product.t :=
  match ps !! product_id with
  | Some p =>
      if Product.track_inventory p
      then alter (fun p0 => Product.with_stock p0 (Product.stock_quantity p + n))
             product_id ps
      else ps
  | None => ps
  end.

(** ** Orders and their amounts *)

(** An amount with at most two decimal places. *)
Definition two_decimals (x : Q) : Prop := round2 x == x.

Definition line_amount (item : OrderItemCreate.t) : Q :=
  inject_Z (OrderItemCreate.quantity item) * OrderItemCreate.unit_price item.

(** Shipping as the specification has it: free for a subtotal of zero and
    from the threshold of 500 on, a flat 50 otherwise. *)
Definition shipping_rule (subtotal : Q) : Q :=
  (if Qeq_bool subtotal 0 || Qle_bool 500 subtotal then 0 else 50)%Q.

(** The subtotal a cart summary starts from. *)
Definition summary_subtotal (ps : gmap Z Product.t) (rows : list CartItem.t)
  : Q :=
  py_sum (map (fun c =>
                 match ps !! CartItem.product_id c with
                 | Some p =>
                     (Product.price p * inject_Z (CartItem.quantity c))%Q
                 | None => 0%Q
                 end) rows).

(** The number [crud.create_order] gives the order. *)
Definition registered_order_number (env : Env) : string :=
  ("ORD-" ++ today env ++ "-" ++ upper (prefix 8 (uuid4 env)))%string.

(** The number [crud.create_order_from_session_cart] gives the order. *)
Definition guest_order_number (env : Env) (session_id : string) : string :=
  ("ORD-" ++ pretty (time env) ++ "-" ++ prefix 8 session_id)%string.

(** The row [crud.create_order] builds, with the primary key [id]. *)
Definition registered_order (env : Env) (order : OrderCreate.t) (user_id : Z)
    (id : Z) : Order.t :=
  let subtotal := py_sum (map line_amount (OrderCreate.items order)) in
  let tax_amount := (subtotal * (18 # 100))%Q in
  let shipping_amount := (if Qlt_bool 500 subtotal then 0 else 50)%Q in
  {| Order.id := id;
     Order.order_number := registered_order_number env;
     Order.user_id := Some user_id;
     Order.session_id := None;
     Order.subtotal := subtotal;
     Order.tax_amount := tax_amount;
     Order.shipping_amount := shipping_amount;
     Order.discount_amount := 0%Q;
     Order.total_amount := (subtotal + tax_amount + shipping_amount)%Q;
     Order.status := OrderStatus.PENDING |}.

(** The amount of a cart row at the current price of its product. *)
Definition guest_amount (ps : gmap Z Product.t) (c : SessionCart.t) : Q :=
  match ps !! SessionCart.product_id c with
  | Some p => (inject_Z (SessionCart.quantity c) * Product.price p)%Q
  | None => 0%Q
  end.

(** The row the guest checkout builds for a subtotal, with the primary key
    [id]. *)
Definition guest_order (env : Env) (session_id : string) (subtotal : Q)
    (id : Z) : Order.t :=
  let tax_amount := round2 (subtotal * (18 # 100)) in
  let shipping_amount :=
    (if Qle_bool 500 subtotal || Qeq_bool subtotal 0 then 0 else 50)%Q in
  {| Order.id := id;
     Order.order_number := guest_order_number env session_id;
     Order.user_id := None;
     Order.session_id := Some session_id;
     Order.subtotal := round2 subtotal;
     Order.tax_amount := tax_amount;
     Order.shipping_amount := shipping_amount;
     Order.discount_amount := 0%Q;
     Order.total_amount := round2 (subtotal + tax_amount + shipping_amount);
     Order.status := OrderStatus.PENDING |}.

(** The subtotal of a cart of a registered user at current prices. *)
Definition user_subtotal (ps : gmap Z Product.t) (rows : list CartItem.t) : Q :=
  py_sum (map (fun c =>
                 match ps !! CartItem.product_id c with
                 | Some p =>
                     (inject_Z (CartItem.quantity c) * Product.price p)%Q
                 | None => 0%Q
                 end) rows).

(** The requested line the checkout handler builds for a cart row, at the
    current price of the product. *)
Definition order_line (ps : gmap Z Product.t) (c : CartItem.t)
  : option OrderItemCreate.t :=
  (fun p => {| OrderItemCreate.product_id := CartItem.product_id c;
               OrderItemCreate.variant_id := None;
               OrderItemCreate.quantity := CartItem.quantity c;
               OrderItemCreate.unit_price := Product.price p |})
    <$> ps !! CartItem.product_id c.

(** The line items to expect for the requested lines: one for each line
    whose product is in the catalogue, in the order of the request. *)
Definition lines_of_known_products (ps : gmap Z Product.t) (order_id : Z)
    (items : list OrderItemCreate.t) : list OrderItem.t :=
  omap (fun item =>
          crud.order_item_for order_id item
            <$> ps !! OrderItemCreate.product_id item) items.

(** The line item for a cart row, with the name, SKU and price of [p]. *)
Definition guest_order_item (order_id : Z) (c : SessionCart.t)
    (p : Product.t) : OrderItem.t :=
  {| OrderItem.order_id := order_id;
     OrderItem.product_id := SessionCart.product_id c;
     OrderItem.variant_id := None;
     OrderItem.product_name := Product.name p;
     OrderItem.product_sku := Product.sku p;
     OrderItem.quantity := SessionCart.quantity c;
     OrderItem.unit_price := Product.price p;
     OrderItem.total_price :=
       (Product.price p * inject_Z (SessionCart.quantity c))%Q |}.

(** ** Cancelling *)

Definition has_id (order_id : Z) (o : Order.t) : bool := Order.id o =? order_id.

Definition owns (u : User.t) (o : Order.t) : bool :=
  match Order.user_id o with
  | Some x => x =? User.id u
  | None => false
  end.

Definition is_admin (u : User.t) : bool :=
  UserRole.eqb (User.role u) UserRole.ADMIN.

Definition pending_or_confirmed (o : Order.t) : bool :=
  match Order.status o with
  | OrderStatus.PENDING | OrderStatus.CONFIRMED => true
  | _ => false
  end.

(** ** The loops of the handlers, by name

    Each body is the one written in the handler; the [_unfold] lemmas below
    check it by [reflexivity]. *)

Definition check_stock_body (item : CartItem.t) : M unit :=
  product <- bind (crud.product_of (CartItem.product_id item)) crud.attr ;;
  if Product.track_inventory product
     && (Product.stock_quantity product <? CartItem.quantity item)
  then raise (HTTPException 400
                (Insufficient_stock_only (Product.name product)
                   (Product.stock_quantity product)))
  else ret tt.

Definition order_line_body (cart_item : CartItem.t) : M OrderItemCreate.t :=
  product <- bind (crud.product_of (CartItem.product_id cart_item))
               crud.attr ;;
  ret {| OrderItemCreate.product_id := CartItem.product_id cart_item;
         OrderItemCreate.variant_id := None;
         OrderItemCreate.quantity := CartItem.quantity cart_item;
         OrderItemCreate.unit_price := Product.price product |}.

Definition take_stock_body (cart_item : CartItem.t) : M unit :=
  product <- bind (crud.product_of (CartItem.product_id cart_item))
               crud.attr ;;
  if Product.track_inventory product
  then crud.set_stock_quantity (CartItem.product_id cart_item)
         (Product.stock_quantity product - CartItem.quantity cart_item)
  else ret tt.

Definition guest_check_body (cart_item : SessionCart.t) : M unit :=
  product <- crud.product_of (SessionCart.product_id cart_item) ;;
  match product with
  | None => raise (ValueError Product_not_found)
  | Some product =>
      if negb (ProductStatus.eqb (Product.status product) ProductStatus.ACTIVE)
      then raise (ValueError (Product_is_not_available (Product.name product)))
      else if Product.track_inventory product
              && (Product.stock_quantity product
                  <? SessionCart.quantity cart_item)
      then raise (ValueError
                    (Insufficient_stock (Product.name product)
                       (Product.stock_quantity product)
                       (SessionCart.quantity cart_item)))
      else ret tt
  end.

Definition guest_amount_body (item : SessionCart.t) : M Q :=
  product <- bind (crud.product_of (SessionCart.product_id item)) crud.attr ;;
  ret (inject_Z (SessionCart.quantity item) * Product.price product)%Q.

Definition guest_item_body (order_id : Z) (cart_item : SessionCart.t)
  : M unit :=
  product <- bind (crud.product_of (SessionCart.product_id cart_item))
               crud.attr ;;
  (if Product.track_inventory product
      && (Product.stock_quantity product <? SessionCart.quantity cart_item)
   then
     db_rollback ;;;
     product <- bind (crud.product_of (SessionCart.product_id cart_item))
                  crud.attr ;;
     raise (ValueError (Insufficient_stock_available (Product.name product)
                          (Product.stock_quantity product)))
   else ret tt) ;;;
  db_add_order_item (guest_order_item order_id cart_item product) ;;;
  if Product.track_inventory product
  then crud.set_stock_quantity (SessionCart.product_id cart_item)
         (Product.stock_quantity product - SessionCart.quantity cart_item)
  else ret tt.

Definition summary_amount_body (item : CartItem.t) : M Q :=
  product <- bind (crud.product_of (CartItem.product_id item)) crud.attr ;;
  ret (Product.price product * inject_Z (CartItem.quantity item))%Q.

Definition restore_stock_body (item : OrderItem.t) : M unit :=
  product <- crud.get_product_by_id (OrderItem.product_id item) ;;
  match product with
  | Some product =>
      if Product.track_inventory product
      then
        crud.set_stock_quantity (OrderItem.product_id item)
          (Product.stock_quantity product + OrderItem.quantity item) ;;;
        db_commit
      else ret tt
  | None => ret tt
  end.

(** ** Scenarios *)

Module Scenario.
Local Open Scope string_scope.

Definition product (price : Q) (stock : Z) (st : ProductStatus.t) : Product.t :=
  {| Product.name := "A"; Product.sku := "SKU-A"; Product.price := price;
     Product.stock_quantity := stock; Product.track_inventory := true;
     Product.status := st |}.

Definition alice : User.t := {| User.id := 7; User.role := UserRole.CUSTOMER |}.

Definition guest : string := "3f2a9c1e-guest".

Definition user_row (id : Z) (variant : option Z) (quantity : Z) : CartItem.t :=
  {| CartItem.id := id; CartItem.user_id := 7; CartItem.product_id := 1;
     CartItem.variant_id := variant; CartItem.quantity := quantity |}.

Definition guest_row (id quantity : Z) : SessionCart.t :=
  {| SessionCart.id := id; SessionCart.session_id := guest;
     SessionCart.product_id := 1; SessionCart.quantity := quantity |}.

(** One product with key 1; alice and the guest session each hold the given
    cart rows for it; no orders yet. *)
Definition shop (p : Product.t) (user_rows : list CartItem.t)
    (guest_rows : list SessionCart.t) : DB :=
  {| products := {[ 1 := p ]}; cart_items := user_rows;
     session_cart := guest_rows; orders := []; order_items := [] |}.

Definition env : Env :=
  {| today := "20240115"; uuid4 := "1b9d6bcd-bbfd-4b2d-9b5d-ab8dfbbd4bed";
     time := 1705312800 |}.

(** The concrete scenario of the specification: price 100, stock 5,
    quantity 2. *)
Definition shop_100 : DB :=
  shop (product 100 5 ProductStatus.ACTIVE) [user_row 1 None 2] [guest_row 1 2].

End Scenario.

(** The shop with the product at 500, at 0.25, inactive, and with two cart
    lines for the one product. *)

Definition shop_500 : DB :=
  Scenario.shop (Scenario.product 500 5 ProductStatus.ACTIVE)
    [Scenario.user_row 1 None 1] [Scenario.guest_row 1 1].

Definition shop_quarter : DB :=
  Scenario.shop (Scenario.product (1 # 4) 5 ProductStatus.ACTIVE)
    [Scenario.user_row 1 None 1] [Scenario.guest_row 1 1].

Definition shop_inactive : DB :=
  Scenario.shop (Scenario.product 100 5 ProductStatus.INACTIVE)
    [Scenario.user_row 1 None 2] [Scenario.guest_row 1 2].

(** Two lines of alice's cart for the same product, in two variants, three
    units each, against a stock of five. *)
Definition shop_two_variants : DB :=
  Scenario.shop (Scenario.product 100 5 ProductStatus.ACTIVE)
    [Scenario.user_row 1 (Some 1) 3; Scenario.user_row 2 (Some 2) 3]
    [Scenario.guest_row 1 3; Scenario.guest_row 2 3].

(** Two guest sessions whose ids begin with the same eight characters, each
    with one unit of the product in the cart. *)
Definition session_a : string := "session-4f1a".

Definition session_b : string := "session-9c2e".

Definition shop_two_sessions : DB :=
  Scenario.shop (Scenario.product 100 5 ProductStatus.ACTIVE) []
    [ {| SessionCart.id := 1; SessionCart.session_id := session_a;
         SessionCart.product_id := 1; SessionCart.quantity := 1 |};
      {| SessionCart.id := 2; SessionCart.session_id := session_b;
         SessionCart.product_id := 1; SessionCart.quantity := 1 |} ].

Module Sample.
Import Scenario.

(** A request for two units of product 1 and one unit of a product 99 that
    the catalogue does not have. *)
Definition known_line : OrderItemCreate.t :=
  {| OrderItemCreate.product_id := 1; OrderItemCreate.variant_id := None;
     OrderItemCreate.quantity := 2; OrderItemCreate.unit_price := 100 |}.

Definition unknown_line : OrderItemCreate.t :=
  {| OrderItemCreate.product_id := 99; OrderItemCreate.variant_id := None;
     OrderItemCreate.quantity := 1; OrderItemCreate.unit_price := 30 |}.

Definition request : OrderCreate.t :=
  {| OrderCreate.items := [known_line; unknown_line] |}.

Definition alice_order : Order.t :=
  {| Order.id := 1;
     Order.order_number := "ORD-20240115-1B9D6BCD";
     Order.user_id := Some 7;
     Order.session_id := None;
     Order.subtotal := py_sum [line_amount known_line];
     Order.tax_amount := (py_sum [line_amount known_line] * (18 # 100))%Q;
     Order.shipping_amount := 50%Q;
     Order.discount_amount := 0%Q;
     Order.total_amount :=
       (py_sum [line_amount known_line]
        + py_sum [line_amount known_line] * (18 # 100) + 50)%Q;
     Order.status := OrderStatus.PENDING |}.

(** The shop after alice checked out her cart. *)
Definition shop_ordered : DB :=
  {| products := {[ 1 := product 100 3 ProductStatus.ACTIVE ]};
     cart_items := [];
     session_cart := [guest_row 1 2];
     orders := [alice_order];
     order_items :=
       [crud.order_item_for 1 known_line
          (product 100 5 ProductStatus.ACTIVE)] |}.

End Sample.

(** ** Cart requests *)

(** The cart line [add_to_cart] looks for: of the user, for the product and
    the variant of the request. *)
Definition same_cart_line (user_id : Z) (cart_item : CartItemCreate.t)
    (c : CartItem.t) : bool :=
  (CartItem.user_id c =? user_id)
  && (CartItem.product_id c =? CartItemCreate.product_id cart_item)
  && option_Z_eqb (CartItem.variant_id c) (CartItemCreate.variant_id cart_item).

(** What identifies a line of a cart for [add_to_cart]. *)
Definition cart_key (c : CartItem.t) : Z * Z * option Z :=
  (CartItem.user_id c, CartItem.product_id c, CartItem.variant_id c).

(** No two lines of a cart for the same product and variant. *)
Definition one_line_per_variant (db : DB) : Prop :=
  NoDup (map cart_key (cart_items db)).

(** The requests on the cart of a registered user. *)
Inductive CartRequest :=
| AddToCart (cart_item : CartItemCreate.t)
| UpdateCartItem (cart_item_id : Z) (cart_update : CartItemUpdate.t)
| RemoveFromCart (cart_item_id : Z)
| ClearCart.

Definition cart_request (request : CartRequest) (current_user : User.t)
  : M unit :=
  match request with
  | AddToCart cart_item =>
      routers_cart.add_to_cart cart_item current_user ;;; ret tt
  | UpdateCartItem cart_item_id cart_update =>
      routers_cart.update_cart_item cart_item_id cart_update current_user ;;;
      ret tt
  | RemoveFromCart cart_item_id =>
      routers_cart.remove_from_cart cart_item_id current_user ;;; ret tt
  | ClearCart => routers_cart.clear_cart current_user
  end.

(** The row [add_to_session_cart] looks for. *)
Definition session_key (c : SessionCart.t) : string * Z :=
  (SessionCart.session_id c, SessionCart.product_id c).

(** No two rows of a session cart for the same product. *)
Definition one_row_per_product (db : DB) : Prop :=
  NoDup (map session_key (session_cart db)).

(** The requests on the cart of a guest session. *)
Inductive SessionCartRequest :=
| AddToSessionCart (cart_item : CartItemCreate.t)
| UpdateSessionCartItem (cart_item : CartItemUpdate.t)
| RemoveFromSessionCart (product_id : Z)
| ClearSessionCart.

Definition session_cart_request (request : SessionCartRequest)
    (session_id : string) : M unit :=
  match request with
  | AddToSessionCart cart_item =>
      routers_cart.add_to_session_cart session_id cart_item ;;; ret tt
  | UpdateSessionCartItem cart_item =>
      routers_cart.update_session_cart_item session_id cart_item
  | RemoveFromSessionCart product_id =>
      routers_cart.remove_from_session_cart session_id product_id ;;; ret tt
  | ClearSessionCart => routers_cart.clear_session_cart session_id
  end.

(** The row of a session cart for a product. *)
Definition same_session_row (session_id : string) (product_id : Z)
    (c : SessionCart.t) : bool :=
  String.eqb (SessionCart.session_id c) session_id
  && (SessionCart.product_id c =? product_id).

(** Why [add_to_cart] and [add_to_session_cart] refuse a request, if they
    do. *)
Definition add_problem (ps : gmap Z Product.t) (cart_item : CartItemCreate.t)
  : option (Z * Refusal.t) :=
  match ps !! CartItemCreate.product_id cart_item with
  | None => Some (404, Refusal.Product_not_found)
  | Some p =>
      if negb (ProductStatus.eqb (Product.status p) ProductStatus.ACTIVE)
      then Some (400, Refusal.Product_is_not_available)
      else if Product.track_inventory p
              && (Product.stock_quantity p <? CartItemCreate.quantity cart_item)
      then Some (400, Refusal.Insufficient_stock)
      else None
  end.

(** ** Scenarios of the cart requests *)

Module CartSample.
Import Scenario.

(** Two more units of product 1, in no variant. *)
Definition two_more : CartItemCreate.t :=
  {| CartItemCreate.product_id := 1; CartItemCreate.variant_id := None;
     CartItemCreate.quantity := 2 |}.

(** Six units of product 1: more than the stock of five. *)
Definition six_units : CartItemCreate.t :=
  {| CartItemCreate.product_id := 1; CartItemCreate.variant_id := None;
     CartItemCreate.quantity := 6 |}.

(** The shop with the carts still empty. *)
Definition shop_empty_carts : DB :=
  shop (product 100 5 ProductStatus.ACTIVE) [] [].

Definition bob : User.t := {| User.id := 8; User.role := UserRole.CUSTOMER |}.

Definition admin : User.t := {| User.id := 1; User.role := UserRole.ADMIN |}.

End CartSample.

(** ** Orders placed directly *)

(** Why [POST /orders] refuses a requested line, if it does. *)
Definition order_problem (ps : gmap Z Product.t) (item : OrderItemCreate.t)
  : option (Z * Refusal.t) :=
  match ps !! OrderItemCreate.product_id item with
  | None =>
      Some (404, Refusal.Product_id_not_found (OrderItemCreate.product_id item))
  | Some p =>
      if negb (ProductStatus.eqb (Product.status p) ProductStatus.ACTIVE)
      then Some (400, Refusal.Product_named_is_not_available (Product.name p))
      else if Product.track_inventory p
              && (Product.stock_quantity p <? OrderItemCreate.quantity item)
      then Some (400, Refusal.Insufficient_stock_for (Product.name p)
                        (Product.stock_quantity p))
      else None
  end.

(** The requested lines as product and quantity. *)
Definition requested (items : list OrderItemCreate.t) : list (Z * Z) :=
  map (fun i => (OrderItemCreate.product_id i, OrderItemCreate.quantity i))
    items.

Definition order_check_body (item : OrderItemCreate.t) : M (Answer unit) :=
  product <- crud.get_product_by_id (OrderItemCreate.product_id item) ;;
  match product with
  | None =>
      ret (Refused 404 (Refusal.Product_id_not_found
                          (OrderItemCreate.product_id item)))
  | Some product =>
      if negb (ProductStatus.eqb (Product.status product)
                 ProductStatus.ACTIVE)
      then ret (Refused 400 (Refusal.Product_named_is_not_available
                               (Product.name product)))
      else if Product.track_inventory product
              && (Product.stock_quantity product
                  <? OrderItemCreate.quantity item)
      then ret (Refused 400 (Refusal.Insufficient_stock_for
                               (Product.name product)
                               (Product.stock_quantity product)))
      else ret (Accepted tt)
  end.

Definition sell_stock_body (item : OrderItemCreate.t) : M unit :=
  product <- crud.get_product_by_id (OrderItemCreate.product_id item) ;;
  match product with
  | Some product =>
      if Product.track_inventory product
      then crud.set_stock_quantity (OrderItemCreate.product_id item)
             (Product.stock_quantity product - OrderItemCreate.quantity item)
      else ret tt
  | None => ret tt
  end.

(** The answer to a request with or without a problem. *)
Definition answer_of (problem : option (Z * Refusal.t)) : Answer unit :=
  match problem with
  | Some (status_code, detail) => Refused status_code detail
  | None => Accepted tt
  end.

(** The reader may see the orders of the owner. *)
Definition may_read (reader : User.t) (o : Order.t) : bool :=
  is_admin reader || owns reader o.

(** ** Carts that can be checked out *)

(** The cart of the owner passes the checks of its checkout: it is not
    empty and every line passes; for a guest cart, moreover, no two rows are
    for the same product. *)
Definition ready (owner : Owner) (db : DB) : Prop :=
  match owner with
  | Registered u =>
      user_rows (User.id u) db <> []
      /\ Forall (in_stock (products db)) (user_rows (User.id u) db)
  | Guest session_id =>
      crud.session_rows session_id db <> []
      /\ Forall (fun c => line_problem (products db) c = None)
           (crud.session_rows session_id db)
      /\ NoDup (map SessionCart.product_id (crud.session_rows session_id db))
  end.

(** The number the checkout gives its order. *)
Definition checkout_order_number (env : Env) (owner : Owner) : string :=
  match owner with
  | Registered _ => registered_order_number env
  | Guest session_id => guest_order_number env session_id
  end.

(** ** Scenarios of coupons and reviews *)

Module CouponSample.

(** A coupon valid through 2024, with a usage limit of zero, used three
    times. *)
Definition welcome : crud.Coupon.t :=
  {| crud.Coupon.code := "WELCOME10";
     crud.Coupon.minimum_amount := 200%Q;
     crud.Coupon.usage_limit := Some 0;
     crud.Coupon.usage_count := 3;
     crud.Coupon.is_active := true;
     crud.Coupon.valid_from := 1704067200;
     crud.Coupon.valid_until := 1735689599 |}.

Definition review (product_id rating : Z) (is_approved : bool)
  : crud.Review.t :=
  {| crud.Review.product_id := product_id; crud.Review.rating := rating;
     crud.Review.is_approved := is_approved |}.

(** Three reviews of product 1, one of them not approved, and one of
    product 2. *)
Definition reviews : list crud.Review.t :=
  [review 1 5 true; review 1 1 false; review 2 3 true; review 1 4 true].

(** Seven reviews of five stars and thirteen of four: a mean of 4.35, half
    way between 4.3 and 4.4. *)
Definition tie_reviews : list crud.Review.t :=
  repeat (review 1 5 true) 7 ++ repeat (review 1 4 true) 13.

End CouponSample.

(** ** Strings *)

(** Every character of [s] satisfies [p]. *)
Fixpoint all_chars (p : ascii -> bool) (s : string) : bool :=
  match s with
  | EmptyString => true
  | String c s' => p c && all_chars p s'
  end.

(** ** Whole amounts *)

(** The lines are of products priced in whole units, in quantities and at
    prices that are not negative.  With a subtotal of at most 10^12, the
    floating-point sums, products and comparisons of a cart summary are
    exact, the float nearest to 18% of the subtotal rounds to the exact 18%,
    and so for the total: the summary is the one of the exact amounts. *)
Definition whole_amounts (ps : gmap Z Product.t) (rows : list CartItem.t)
  : Prop :=
  Forall (fun c =>
            0 <= CartItem.quantity c
            /\ forall p,
                ps !! CartItem.product_id c = Some p ->
                exists n : Z, 0 <= n /\ (Product.price p == inject_Z n)%Q)
    rows.

(** * Reasoning about sessions *)

Lemma bind_Ok {A B} (m : M A) (k : A -> M B) s b s' :
  bind m k s = (Ok b, s') ->
  exists a s1, m s = (Ok a, s1) /\ k a s1 = (Ok b, s').
Proof.
  unfold bind. destruct (m s) as [[a|e] s1]; intros H.
  - exists a, s1. split; [reflexivity | exact H].
  - discriminate H.
Qed.

Lemma bind_step {A B} (m : M A) (k : A -> M B) s a s1 :
  m s = (Ok a, s1) -> bind m k s = k a s1.
Proof. unfold bind. intros ->. reflexivity. Qed.

Lemma bind_raise {A B} (m : M A) (k : A -> M B) s e s1 :
  m s = (Raise e, s1) -> bind m k s = (Raise e, s1).
Proof. unfold bind. intros ->. reflexivity. Qed.

Lemma bind_inv {A B} (m : M A) (k : A -> M B) s r s' :
  bind m k s = (r, s') ->
  (exists a s1, m s = (Ok a, s1) /\ k a s1 = (r, s'))
  \/ (exists e, m s = (Raise e, s') /\ r = Raise e).
Proof.
  unfold bind. destruct (m s) as [[a|e] s1]; intros H.
  - left. eauto.
  - right. injection H as <- <-. eauto.
Qed.

Lemma except_ValueError_Ok {A} (m : M A) s a s' :
  except_ValueError m s = (Ok a, s') -> m s = (Ok a, s').
Proof.
  unfold except_ValueError. destruct (m s) as [[x|e] s1]; [auto|].
  destruct e; discriminate.
Qed.

Lemma except_ValueError_raise {A} (m : M A) s d s' :
  m s = (Raise (ValueError d), s') ->
  except_ValueError m s = (Raise (HTTPException 400 d), s').
Proof. unfold except_ValueError. now intros ->. Qed.

Lemma run_raise {A} (m : M A) db f e :
  m (open_session db f) = (Raise e, open_session db f) ->
  run m db f = (Raise e, db).
Proof. unfold run, open_session. now intros ->. Qed.

Lemma for_each_stops {A} (l1 : list A) (x : A) (l2 : list A)
    (body : A -> M unit) s e :
  Forall (fun y => body y s = (Ok tt, s)) l1 ->
  body x s = (Raise e, s) ->
  for_each (l1 ++ x :: l2) body s = (Raise e, s).
Proof.
  intros Hl1 Hx. induction Hl1 as [|y l1 Hy _ IH]; cbn [app for_each].
  - now rewrite (bind_raise _ _ _ _ _ Hx).
  - now rewrite (bind_step _ _ _ _ _ Hy).
Qed.

(** ** Tables *)

(** First matching row of a table: everything before it does not match, and
    the two row operations touch that row only. *)
Lemma find_split {A} (p : A -> bool) (l : list A) (x : A) :
  List.find p l = Some x ->
  exists l1 l2, l = l1 ++ x :: l2 /\ p x = true
    /\ Forall (fun y => p y = false) l1
    /\ delete_first p l = l1 ++ l2
    /\ forall f, update_first p f l = l1 ++ f x :: l2.
Proof.
  induction l as [|y l IH]; simpl; [discriminate|].
  destruct (p y) eqn:Hy.
  - intros [= ->]. exists [], l. repeat split; auto.
  - intros H. destruct (IH H) as (l1 & l2 & -> & Hx & Hl1 & Hd & Hu).
    exists (y :: l1), l2. simpl. repeat split; auto.
    + now rewrite Hd.
    + intros f. now rewrite Hu.
Qed.

Lemma filter_negb_filter {A} (p : A -> bool) (l : list A) :
  List.filter p (List.filter (fun x => negb (p x)) l) = [].
Proof.
  induction l as [|x l IH]; [reflexivity|]. cbn.
  destruct (p x) eqn:E; cbn; [exact IH|]. now rewrite E.
Qed.

Lemma set_orders_items_id (db : DB) :
  set_order_items (set_orders db (orders db)) (order_items db ++ []) = db.
Proof. destruct db. unfold set_order_items, set_orders. simpl. now rewrite app_nil_r. Qed.

Lemma set_products_same db : set_products db (products db) = db.
Proof. now destruct db. Qed.

Lemma add_new_items_nil s : add_new_items s [] = s.
Proof. destruct s. unfold add_new_items. simpl. now rewrite app_nil_r. Qed.

Lemma add_new_items_app s l1 l2 :
  add_new_items (add_new_items s l1) l2 = add_new_items s (l1 ++ l2).
Proof. unfold add_new_items. simpl. now rewrite app_assoc. Qed.

Lemma with_products_same s : with_products s (products (working s)) = s.
Proof.
  destruct s as [c w no ni f]. unfold with_products. cbn.
  now rewrite set_products_same.
Qed.

(** ** Commits *)

(** A commit with nothing pending on a storage that does not fail. *)
Lemma db_commit_clean s :
  new_orders s = [] -> new_items s = [] -> fault s = None ->
  db_commit s = (Ok tt, {| committed := working s; working := working s;
                           new_orders := []; new_items := [];
                           fault := None |}).
Proof.
  intros Ho Hi Hf. unfold db_commit. rewrite Hf, Ho, Hi. simpl.
  now rewrite set_orders_items_id.
Qed.

(** The first commit of an order on its own. *)
Lemma db_commit_order s o :
  new_orders s = [o] -> new_items s = [] -> fault s = None ->
  order_number_taken (orders (working s)) (Order.order_number o) = false ->
  db_commit s
  = (Ok tt,
     let db := set_orders (working s) (orders (working s) ++ [o]) in
     {| committed := db; working := db; new_orders := []; new_items := [];
        fault := None |}).
Proof.
  intros Hno Hni Hf Hfresh. unfold db_commit. rewrite Hf, Hno, Hni.
  cbn [flush_orders]. rewrite Hfresh. cbn [tick]. f_equal.
  destruct s as [c w ? ? ?]; destruct w; cbn.
  unfold set_order_items, set_orders; cbn. now rewrite app_nil_r.
Qed.

(** A commit of pending line items. *)
Lemma db_commit_items s :
  new_orders s = [] -> fault s = None ->
  db_commit s
  = (Ok tt,
     let db := set_order_items (working s)
                 (order_items (working s) ++ new_items s) in
     {| committed := db; working := db; new_orders := []; new_items := [];
        fault := None |}).
Proof.
  intros Hno Hf. unfold db_commit. rewrite Hf, Hno.
  cbn [flush_orders tick]. reflexivity.
Qed.

Lemma db_commit_Ok_eq s s' :
  db_commit s = (Ok tt, s') ->
  exists os,
    flush_orders (orders (working s)) (new_orders s) = Some os
    /\ s' = (let db := set_order_items (set_orders (working s) os)
                         (order_items (working s) ++ new_items s) in
             {| committed := db; working := db; new_orders := [];
                new_items := []; fault := tick (fault s) |}).
Proof.
  unfold db_commit.
  destruct (fault s) as [[|k]|]; [discriminate| |];
    (destruct (flush_orders _ _) as [os|]; [|discriminate]);
    intros [= <-]; exists os; split; reflexivity.
Qed.

(** A successful commit of one pending order: its number was free, and the
    order is now the last row of the table. *)
Lemma db_commit_order_Ok s o s' :
  new_orders s = [o] -> db_commit s = (Ok tt, s') ->
  order_number_taken (orders (working s)) (Order.order_number o) = false
  /\ orders_settled (orders (working s) ++ [o]) s'.
Proof.
  intros Hn. unfold db_commit. rewrite Hn. cbn [flush_orders].
  destruct (order_number_taken _ _).
  - destruct (fault s) as [[|k]|]; discriminate.
  - destruct (fault s) as [[|k]|]; intros [= <-]; repeat split; auto.
Qed.

Lemma db_commit_Raise s e s' : db_commit s = (Raise e, s') -> s' = s.
Proof.
  unfold db_commit.
  destruct (fault s) as [[|k]|]; [now intros [= _ <-]| |];
    (destruct (flush_orders _ _); [discriminate | now intros [= _ <-]]).
Qed.

(** ** Invariants of a session along a handler *)

Create HintDb session discriminated.

Lemma readonly_ret {A} (a : A) : readonly (ret a).
Proof. intros s r s' [= _ <-]. reflexivity. Qed.

Lemma readonly_raise {A} (e : Error) : readonly (@raise A e).
Proof. intros s r s' [= _ <-]. reflexivity. Qed.

Lemma readonly_preserves {A} I (m : M A) : readonly m -> preserves I m.
Proof. intros Hm s r s' HI E. apply Hm in E. now subst. Qed.

Lemma preserves_ret {A} I (a : A) : preserves I (ret a).
Proof. apply readonly_preserves, readonly_ret. Qed.

Lemma preserves_raise {A} I (e : Error) : preserves I (@raise A e).
Proof. apply readonly_preserves, readonly_raise. Qed.

Lemma readonly_bind {A B} (m : M A) (k : A -> M B) :
  readonly m -> (forall a, readonly (k a)) -> readonly (bind m k).
Proof.
  intros Hm Hk s r s'. unfold bind.
  destruct (m s) as [[a|e] s1] eqn:E; apply Hm in E; subst s1.
  - apply Hk.
  - intros [= _ <-]. reflexivity.
Qed.

Lemma readonly_for_each {A} (l : list A) (body : A -> M unit) :
  (forall x, readonly (body x)) -> readonly (for_each l body).
Proof.
  intros Hb. induction l as [|x l IH]; cbn [for_each].
  - apply readonly_ret.
  - apply readonly_bind; auto.
Qed.

Lemma readonly_for_list {A B} (l : list A) (body : A -> M B) :
  (forall x, readonly (body x)) -> readonly (for_list l body).
Proof.
  intros Hb. induction l as [|x l IH]; cbn [for_list].
  - apply readonly_ret.
  - apply readonly_bind; [auto|]. intros y.
    apply readonly_bind; [auto|]. intros ys. apply readonly_ret.
Qed.

Lemma preserves_bind {A B} I (m : M A) (k : A -> M B) :
  preserves I m -> (forall a, preserves I (k a)) -> preserves I (bind m k).
Proof.
  intros Hm Hk s r s' HI. unfold bind.
  destruct (m s) as [[a|e] s1] eqn:E; apply (Hm _ _ _ HI) in E.
  - apply Hk, E.
  - intros [= _ <-]. exact E.
Qed.

Lemma preserves_for_each {A} I (l : list A) (body : A -> M unit) :
  (forall x, preserves I (body x)) -> preserves I (for_each l body).
Proof.
  intros Hb. induction l as [|x l IH]; cbn [for_each].
  - apply preserves_ret.
  - apply preserves_bind; auto.
Qed.

Lemma preserves_except_ValueError {A} I (m : M A) :
  preserves I m -> preserves I (except_ValueError m).
Proof.
  intros Hm s r s' HI. unfold except_ValueError.
  destruct (m s) as [[a|e] s1] eqn:E; apply (Hm _ _ _ HI) in E.
  - intros [= _ <-]. exact E.
  - destruct e; intros [= _ <-]; exact E.
Qed.

Lemma readonly_get_working : readonly get_working.
Proof. intros s r s' [= _ <-]. reflexivity. Qed.

Lemma readonly_get_product_by_id k : readonly (crud.get_product_by_id k).
Proof.
  apply readonly_bind; [apply readonly_get_working|].
  intros db. apply readonly_ret.
Qed.

Lemma readonly_product_of k : readonly (crud.product_of k).
Proof.
  apply readonly_bind; [apply readonly_get_working|].
  intros db. apply readonly_ret.
Qed.

Lemma readonly_attr p : readonly (crud.attr p).
Proof. destruct p; [apply readonly_ret | apply readonly_raise]. Qed.

Lemma readonly_get_user_cart k : readonly (crud.get_user_cart k).
Proof.
  apply readonly_bind; [apply readonly_get_working|].
  intros db. apply readonly_ret.
Qed.

Lemma readonly_get_session_cart k : readonly (crud.get_session_cart k).
Proof.
  apply readonly_bind; [apply readonly_get_working|].
  intros db. apply readonly_ret.
Qed.

#[export] Hint Resolve readonly_ret readonly_raise readonly_get_working
  readonly_get_product_by_id readonly_product_of readonly_attr
  readonly_get_user_cart readonly_get_session_cart : session.

Lemma preserves_modify_working I (f : DB -> DB) :
  (forall s, I s ->
     I {| committed := committed s; working := f (working s);
          new_orders := new_orders s; new_items := new_items s;
          fault := fault s |}) ->
  preserves I (modify_working f).
Proof. intros Hf s r s' HI [= _ <-]. auto. Qed.

Lemma settled_modify_working os (f : DB -> DB) :
  (forall db, orders (f db) = orders db) ->
  preserves (orders_settled os) (modify_working f).
Proof.
  intros Hf. apply preserves_modify_working.
  intros s (Hn & Hc & Hw). repeat split; auto. cbn. now rewrite Hf.
Qed.

Lemma settled_db_add_order_item os i :
  preserves (orders_settled os) (db_add_order_item i).
Proof. intros s r s' (Hn & Hc & Hw) [= _ <-]. repeat split; auto. Qed.

Lemma settled_db_commit os : preserves (orders_settled os) db_commit.
Proof.
  intros s r s' (Hn & Hc & Hw). unfold db_commit. rewrite Hn.
  cbn [flush_orders].
  destruct (fault s) as [[|k]|]; intros [= _ <-]; repeat split; auto.
Qed.

Lemma settled_db_rollback os : preserves (orders_settled os) db_rollback.
Proof. intros s r s' (Hn & Hc & Hw) [= _ <-]. repeat split; auto. Qed.

Lemma settled_set_stock_quantity os k n :
  preserves (orders_settled os) (crud.set_stock_quantity k n).
Proof. apply settled_modify_working. reflexivity. Qed.

Lemma settled_clear_user_cart os k :
  preserves (orders_settled os) (crud.clear_user_cart k).
Proof.
  apply preserves_bind; [apply settled_modify_working; reflexivity|].
  intros _. apply settled_db_commit.
Qed.

Lemma settled_clear_session_cart os k :
  preserves (orders_settled os) (crud.clear_session_cart k).
Proof.
  apply preserves_bind; [apply settled_modify_working; reflexivity|].
  intros _. apply preserves_bind; [apply settled_db_commit|].
  intros _. apply preserves_ret.
Qed.

#[export] Hint Resolve settled_db_add_order_item settled_db_commit
  settled_db_rollback settled_set_stock_quantity settled_clear_user_cart
  settled_clear_session_cart : session.

Ltac solve_readonly :=
  repeat first
    [ apply readonly_ret | apply readonly_raise | apply readonly_get_working
    | apply readonly_product_of | apply readonly_attr
    | apply readonly_get_product_by_id | apply readonly_get_user_cart
    | apply readonly_get_session_cart
    | apply readonly_for_each; intros ?
    | apply readonly_for_list; intros ?
    | apply readonly_bind; [|intros ?]
    | match goal with
      | |- readonly (if ?b then _ else _) => destruct b
      | |- readonly (match ?x with _ => _ end) => destruct x
      end ].

Ltac solve_preserves :=
  repeat first
    [ apply preserves_ret | apply preserves_raise
    | solve [eauto with session]
    | apply preserves_for_each; intros ?
    | apply preserves_except_ValueError
    | apply readonly_preserves; solve [solve_readonly]
    | apply preserves_bind; [|intros ?]
    | match goal with
      | |- preserves _ (if ?b then _ else _) => destruct b
      | |- preserves _ (match ?x with _ => _ end) => destruct x
      end ].

(** Inversion of one step of a successful run. *)
Tactic Notation "step" hyp(E) ident(x) ident(s) :=
  let E1 := fresh "E" x in
  apply bind_Ok in E as (x & s & E1 & E).

(** The step [E : m s = (r, s')] of a read-only [m] did not move the
    session. *)
Ltac unmoved E :=
  match type of E with
  | ?m ?s = (_, ?s') =>
      let R := fresh "R" in
      assert (R : readonly m) by solve_readonly;
      apply R in E; subst s'
  end.

(** The step [E : m s = (r, s')] carries the invariant [HI] over. *)
Ltac carry HI E :=
  match type of E with
  | ?m ?s = (_, ?s') =>
      match type of HI with
      | ?I s =>
          let P := fresh "P" in
          assert (P : preserves I m) by solve_preserves;
          apply (P _ _ _ HI) in E
      end
  end.

(** One step of a run that may have raised: either the step raised and, being
    read-only, left the session where it was, or the run goes on from the
    same session. *)
Ltac step_or_stop E x :=
  let E1 := fresh "E" x in
  let e := fresh "e" in
  let s := fresh "s" in
  apply bind_inv in E as [(x & s & E1 & E) | (e & E1 & _)];
  [ unmoved E1 | unmoved E1; left; reflexivity ].

(** ** Sums, stock and rounding *)

Lemma py_sum_from (l : list Q) (a : Q) :
  fold_left Qplus l a == a + py_sum l.
Proof.
  unfold py_sum. revert a. induction l as [|x l IH]; intros a; simpl.
  - ring.
  - rewrite IH, (IH (0 + x)%Q). ring.
Qed.

Lemma py_sum_app_cons (l1 l2 : list Q) (x : Q) :
  py_sum (l1 ++ x :: l2) == py_sum l1 + x + py_sum l2.
Proof.
  unfold py_sum at 1. rewrite fold_left_app. simpl.
  rewrite py_sum_from. reflexivity.
Qed.

Lemma with_stock_same p : Product.with_stock p (Product.stock_quantity p) = p.
Proof. now destruct p. Qed.

Lemma restock_0 p : restock 0 p = p.
Proof.
  unfold restock. destruct (Product.track_inventory p); [|reflexivity].
  now rewrite Z.add_0_r, with_stock_same.
Qed.

Lemma restock_restock q1 q2 p :
  restock q2 (restock q1 p) = restock (q1 + q2) p.
Proof.
  unfold restock. destruct p as [n k pr st tr stt]; cbn.
  destruct tr; cbn; [|reflexivity].
  unfold Product.with_stock; cbn. now rewrite Z.add_assoc.
Qed.

Lemma restock_eq q1 q2 p : q1 = q2 -> restock q1 p = restock q2 p.
Proof. now intros ->. Qed.

Lemma restock_tracked q p :
  Product.track_inventory p = true ->
  Product.track_inventory (restock q p) = true
  /\ Product.stock_quantity (restock q p) = Product.stock_quantity p + q.
Proof. unfold restock. intros Ht. rewrite Ht. split; [exact Ht | reflexivity]. Qed.

Lemma move_stock_lookup product_id n ps k :
  move_stock product_id n ps !! k
  = restock (if product_id =? k then n else 0) <$> ps !! k.
Proof.
  unfold move_stock.
  destruct (Z.eqb_spec product_id k) as [Heq|Hne].
  - subst k. destruct (ps !! product_id) as [p|] eqn:Hp; [|now rewrite Hp].
    destruct (Product.track_inventory p) eqn:Ht.
    + rewrite lookup_alter_eq, Hp. cbn. unfold restock. now rewrite Ht.
    + rewrite Hp. cbn. unfold restock. now rewrite Ht.
  - assert (H0 : forall m : gmap Z Product.t, m !! k = restock 0 <$> m !! k).
    { intros m. destruct (m !! k); cbn; [now rewrite restock_0 | reflexivity]. }
    destruct (ps !! product_id) as [p|]; [|apply H0].
    destruct (Product.track_inventory p); [|apply H0].
    rewrite lookup_alter_ne by exact Hne. apply H0.
Qed.

Lemma purchased_absent k rows :
  Forall (fun c => SessionCart.product_id c <> k) rows ->
  purchased k (session_lines rows) = 0.
Proof.
  induction 1 as [|c rows Hc _ IH]; [reflexivity|].
  unfold session_lines in *. cbn [map purchased]. rewrite IH.
  destruct (Z.eqb_spec (SessionCart.product_id c) k); [contradiction | lia].
Qed.

Lemma guest_order_item_restock order_id c q p :
  guest_order_item order_id c (restock q p) = guest_order_item order_id c p.
Proof. unfold restock. now destruct (Product.track_inventory p). Qed.

Local Open Scope Q_scope.

Lemma round_half_even_error (y : Q) :
  Qabs (inject_Z (round_half_even y) - y) <= 1 # 2.
Proof.
  unfold round_half_even.
  pose proof (Qfloor_le y) as Hlo. pose proof (Qlt_floor y) as Hhi.
  rewrite inject_Z_plus in Hhi. change (inject_Z 1) with 1 in Hhi.
  apply Qabs_Qle_condition.
  destruct (Qcompare_spec (y - inject_Z (Qfloor y)) (1 # 2)) as [H|H|H].
  - destruct (Z.even (Qfloor y));
      [|rewrite inject_Z_plus; change (inject_Z 1) with 1]; split; lra.
  - split; lra.
  - rewrite inject_Z_plus. change (inject_Z 1) with 1. split; lra.
Qed.

Lemma round_half_even_Z (n : Z) (y : Q) :
  y == inject_Z n -> round_half_even y = n.
Proof.
  intros H. unfold round_half_even.
  assert (Hf : Qfloor y = n) by (rewrite H; apply Qfloor_Z).
  rewrite Hf.
  destruct (Qcompare_spec (y - inject_Z n) (1 # 2)) as [E|E|E]; try lra.
  reflexivity.
Qed.

(** What [round(x, 2)] returns has two decimal places. *)
Lemma round2_two_decimals (x : Q) : two_decimals (round2 x).
Proof.
  unfold two_decimals. unfold round2 at 1.
  rewrite (round_half_even_Z (round_half_even (x * 100))); [reflexivity|].
  unfold round2. field.
Qed.

(** [round(x, 2)] is within half a hundredth of [x]. *)
Lemma round2_error (x : Q) : Qabs (round2 x - x) <= 1 # 200.
Proof.
  pose proof (round_half_even_error (x * 100)) as H.
  apply Qabs_Qle_condition in H. apply Qabs_Qle_condition.
  unfold round2.
  set (n := inject_Z (round_half_even (x * 100))) in *.
  assert (Hn : n / 100 == n * (1 # 100)) by field.
  rewrite Hn. split; lra.
Qed.

Local Open Scope Z_scope.
Local Open Scope list_scope.

(** * Setting the quantity of a cart line *)

Lemma update_session_cart_item_run db session_id product_id quantity c :
  List.find (session_line session_id product_id) (session_cart db) = Some c ->
  run (routers_cart.update_session_cart_item session_id
         {| CartItemUpdate.product_id := product_id;
            CartItemUpdate.quantity := quantity |}) db None
  = (Ok tt,
     set_session_cart db
       (if quantity <=? 0
        then delete_first (session_line session_id product_id) (session_cart db)
        else update_first (session_line session_id product_id)
               (fun c => SessionCart.with_quantity c quantity)
               (session_cart db))).
Proof.
  intros Hfind. unfold run, routers_cart.update_session_cart_item,
    crud.update_session_cart_item, bind, get_working, open_session.
  cbn [working CartItemUpdate.product_id CartItemUpdate.quantity].
  fold (session_line session_id product_id). rewrite Hfind.
  destruct (quantity <=? 0); unfold modify_working, db_commit, ret; cbn;
    destruct db; unfold set_order_items, set_orders, set_session_cart; cbn;
    now rewrite app_nil_r.
Qed.

Lemma update_cart_item_run db cart_item_id (u : User.t) product_id quantity c :
  0 < quantity ->
  List.find (user_line cart_item_id (User.id u)) (cart_items db) = Some c ->
  run (routers_cart.update_cart_item cart_item_id
         {| CartItemUpdate.product_id := product_id;
            CartItemUpdate.quantity := quantity |} u) db None
  = (Ok (CartItem.with_quantity c quantity),
     set_cart_items db
       (update_first (user_line cart_item_id (User.id u))
          (fun c => CartItem.with_quantity c quantity) (cart_items db))).
Proof.
  intros Hq Hfind. unfold run, routers_cart.update_cart_item.
  cbn [CartItemUpdate.quantity].
  destruct (quantity <=? 0) eqn:E; [apply Z.leb_le in E; lia|].
  unfold crud.update_cart_item, bind, get_working, open_session.
  cbn [working]. fold (user_line cart_item_id (User.id u)). rewrite Hfind.
  unfold modify_working, db_commit, ret; cbn.
  destruct db; unfold set_order_items, set_orders, set_cart_items; cbn.
  now rewrite app_nil_r.
Qed.

(** C8, as the code has it.  On the session cart, a quantity of zero or less
    deletes the line of the product and a positive quantity replaces the
    quantity of that line, leaving every other row as it was.  On the cart of
    an authenticated user the line is addressed by its id; a quantity of zero
    or less is refused with HTTP 400 and nothing changes, a positive
    quantity replaces the quantity of the line. *)
Theorem set_item_quantity
    (db : DB) (session_id : string) (product_id quantity : Z)
    (cart_item_id : Z) (u : User.t) :
  let cart_update := {| CartItemUpdate.product_id := product_id;
                        CartItemUpdate.quantity := quantity |} in
  (forall s,
      List.find (session_line session_id product_id) (session_cart db)
      = Some s ->
      exists l1 l2,
        session_cart db = l1 ++ s :: l2
        /\ Forall (fun r => session_line session_id product_id r = false) l1
        /\ run (routers_cart.update_session_cart_item session_id cart_update)
             db None
           = (Ok tt,
              set_session_cart db
                (if quantity <=? 0 then l1 ++ l2
                 else l1 ++ SessionCart.with_quantity s quantity :: l2)))
  /\ (quantity <= 0 ->
      run (routers_cart.update_cart_item cart_item_id cart_update u) db None
      = (Raise (HTTPException 400 Quantity_must_be_greater_than_0), db))
  /\ (0 < quantity ->
      forall c,
        List.find (user_line cart_item_id (User.id u)) (cart_items db)
        = Some c ->
        exists l1 l2,
          cart_items db = l1 ++ c :: l2
          /\ Forall (fun r => user_line cart_item_id (User.id u) r = false) l1
          /\ run (routers_cart.update_cart_item cart_item_id cart_update u)
               db None
             = (Ok (CartItem.with_quantity c quantity),
                set_cart_items db
                  (l1 ++ CartItem.with_quantity c quantity :: l2))).
Proof.
  intros cart_update. split; [|split].
  - intros s Hs.
    destruct (find_split _ _ _ Hs) as (l1 & l2 & Hl & _ & Hl1 & Hd & Hu).
    exists l1, l2. split; [exact Hl|]. split; [exact Hl1|].
    unfold cart_update.
    rewrite (update_session_cart_item_run _ _ _ _ _ Hs), Hd, Hu.
    reflexivity.
  - intros Hq. apply Z.leb_le in Hq.
    unfold run, routers_cart.update_cart_item, cart_update.
    cbn [CartItemUpdate.quantity]. rewrite Hq. reflexivity.
  - intros Hq c Hc.
    destruct (find_split _ _ _ Hc) as (l1 & l2 & Hl & _ & Hl1 & _ & Hu).
    exists l1, l2. split; [exact Hl|]. split; [exact Hl1|].
    unfold cart_update.
    rewrite (update_cart_item_run _ _ _ product_id _ _ Hq Hc), Hu.
    reflexivity.
Qed.

(** C8, the claim as stated fails on the authenticated cart: setting the
    quantity of alice's line to 0 is refused and the line stays. *)
Lemma update_cart_item_zero_keeps_line :
  run (routers_cart.update_cart_item 1
         {| CartItemUpdate.product_id := 1; CartItemUpdate.quantity := 0 |}
         Scenario.alice) Scenario.shop_100 None
  = (Raise (HTTPException 400 Quantity_must_be_greater_than_0),
     Scenario.shop_100)
  /\ In (Scenario.user_row 1 None 2) (cart_items Scenario.shop_100).
Proof. split; [reflexivity | left; reflexivity]. Qed.

(** On the scenario: the guest sets the line to 3 and then to 0, alice sets
    hers to 3. *)
Lemma set_item_quantity_witness :
  run (routers_cart.update_session_cart_item Scenario.guest
         {| CartItemUpdate.product_id := 1; CartItemUpdate.quantity := 3 |})
    Scenario.shop_100 None
  = (Ok tt, set_session_cart Scenario.shop_100 [Scenario.guest_row 1 3])
  /\ run (routers_cart.update_session_cart_item Scenario.guest
            {| CartItemUpdate.product_id := 1; CartItemUpdate.quantity := 0 |})
       Scenario.shop_100 None
     = (Ok tt, set_session_cart Scenario.shop_100 [])
  /\ run (routers_cart.update_cart_item 1
            {| CartItemUpdate.product_id := 1; CartItemUpdate.quantity := 0 |}
            Scenario.alice) Scenario.shop_100 None
     = (Raise (HTTPException 400 Quantity_must_be_greater_than_0),
        Scenario.shop_100)
  /\ run (routers_cart.update_cart_item 1
            {| CartItemUpdate.product_id := 1; CartItemUpdate.quantity := 3 |}
            Scenario.alice) Scenario.shop_100 None
     = (Ok (Scenario.user_row 1 None 3),
        set_cart_items Scenario.shop_100 [Scenario.user_row 1 None 3]).
Proof.
  pose proof (set_item_quantity Scenario.shop_100 Scenario.guest 1 3 1
                Scenario.alice) as (Hguest3 & _ & Halice3).
  pose proof (set_item_quantity Scenario.shop_100 Scenario.guest 1 0 1
                Scenario.alice) as (Hguest0 & Halice0 & _).
  destruct (Hguest3 _ eq_refl) as (l1 & l2 & Hl & _ & Hrun3).
  destruct (Hguest0 _ eq_refl) as (l1' & l2' & Hl' & _ & Hrun0).
  destruct (Halice3 eq_refl _ eq_refl) as (k1 & k2 & Hk & _ & Hrun).
  destruct l1 as [|? l1]; [|destruct l1; discriminate Hl].
  destruct l1' as [|? l1']; [|destruct l1'; discriminate Hl'].
  destruct k1 as [|? k1]; [|destruct k1; discriminate Hk].
  injection Hl as <-. injection Hl' as <-. injection Hk as <-.
  split; [exact Hrun3|]. split; [exact Hrun0|].
  split; [apply Halice0; discriminate | exact Hrun].
Defined.

(** * Order creation for a registered user *)

Lemma create_order_items_loop order_id items s :
  for_each items (fun item_data =>
    product <- crud.get_product_by_id (OrderItemCreate.product_id item_data) ;;
    match product with
    | Some product =>
        db_add_order_item (crud.order_item_for order_id item_data product)
    | None => ret tt
    end) s
  = (Ok tt,
     add_new_items s
       (lines_of_known_products (products (working s)) order_id items)).
Proof.
  revert s. induction items as [|item items IH]; intros s.
  - simpl. unfold ret. now rewrite add_new_items_nil.
  - cbn [for_each]. unfold bind at 1. unfold bind at 1.
    unfold crud.get_product_by_id at 1, bind at 1, get_working, ret at 1.
    cbn [lines_of_known_products omap list_omap].
    destruct (products (working s) !! OrderItemCreate.product_id item)
      as [p|] eqn:Hp; cbn [fmap option_fmap option_map].
    + unfold db_add_order_item. rewrite IH. cbn [working].
      fold (add_new_items s [crud.order_item_for order_id item p]).
      rewrite add_new_items_app. reflexivity.
    + unfold ret at 1. rewrite IH. reflexivity.
Qed.

Lemma create_order_unfold env order user_id :
  crud.create_order env order user_id
  = (db_order <- db_add_order (registered_order env order user_id 0) ;;
     db_commit ;;;
     for_each (OrderCreate.items order) (fun item_data =>
       product <- crud.get_product_by_id
                    (OrderItemCreate.product_id item_data) ;;
       match product with
       | Some product =>
           db_add_order_item
             (crud.order_item_for (Order.id db_order) item_data product)
       | None => ret tt
       end) ;;;
     db_commit ;;;
     ret db_order).
Proof. reflexivity. Qed.

(** What [crud.create_order] does in a session with nothing pending, on a
    storage that does not fail, when the order number is not taken. *)
Lemma create_order_session env order user_id s :
  new_orders s = [] -> new_items s = [] -> fault s = None ->
  order_number_taken (orders (working s)) (registered_order_number env)
  = false ->
  let o := registered_order env order user_id
             (next_order_id (orders (working s))) in
  let db' :=
    set_order_items (set_orders (working s) (orders (working s) ++ [o]))
      (order_items (working s)
       ++ lines_of_known_products (products (working s)) (Order.id o)
            (OrderCreate.items order)) in
  crud.create_order env order user_id s
  = (Ok o, {| committed := db'; working := db'; new_orders := [];
              new_items := []; fault := None |}).
Proof.
  intros Hno Hni Hf Hfresh o db'. rewrite create_order_unfold.
  erewrite bind_step; cycle 1.
  { unfold db_add_order. rewrite Hno, app_nil_r. cbn [app]. reflexivity. }
  fold o.
  erewrite bind_step; cycle 1.
  { apply db_commit_order with (o := o); auto. }
  cbn zeta. erewrite bind_step; cycle 1.
  { apply create_order_items_loop. }
  erewrite bind_step; cycle 1.
  { apply db_commit_items; reflexivity. }
  unfold ret, db'. cbn. reflexivity.
Qed.

Lemma lines_of_known_products_app ps order_id l1 l2 :
  lines_of_known_products ps order_id (l1 ++ l2)
  = lines_of_known_products ps order_id l1
    ++ lines_of_known_products ps order_id l2.
Proof. unfold lines_of_known_products. apply omap_app. Qed.

Lemma lines_of_known_products_known ps order_id items :
  Forall (fun i => is_Some (ps !! OrderItem.product_id i))
    (lines_of_known_products ps order_id items).
Proof.
  induction items as [|item items IH]; cbn; [constructor|].
  destruct (ps !! OrderItemCreate.product_id item) as [p|] eqn:Hp; cbn.
  - constructor; [|exact IH]. cbn. rewrite Hp. eauto.
  - exact IH.
Qed.

(** C10.  When a requested line names a product that is not in the
    catalogue, [crud.create_order] still succeeds (given a storage that works
    and an order number that is free): the order is stored, its line items
    are those of the other lines whose product exists, none of them refers to
    the unknown product, and the stored subtotal and total include the
    amount of the omitted line. *)
Theorem create_order_omits_unknown_product
    (env : Env) (order : OrderCreate.t) (user_id : Z) (db : DB)
    (item : OrderItemCreate.t) (l1 l2 : list OrderItemCreate.t)
    (Hitems : OrderCreate.items order = l1 ++ item :: l2)
    (Hunknown : products db !! OrderItemCreate.product_id item = None)
    (Hfresh : order_number_taken (orders db) (registered_order_number env)
              = false) :
  exists o,
    let lines :=
      lines_of_known_products (products db) (Order.id o) l1
      ++ lines_of_known_products (products db) (Order.id o) l2 in
    run (crud.create_order env order user_id) db None
    = (Ok o, set_order_items (set_orders db (orders db ++ [o]))
               (order_items db ++ lines))
    /\ Forall (fun i => OrderItem.product_id i
                        <> OrderItemCreate.product_id item) lines
    /\ Order.subtotal o
       == py_sum (map line_amount l1) + line_amount item
          + py_sum (map line_amount l2)
    /\ Order.total_amount o
       == Order.subtotal o + Order.subtotal o * (18 # 100)
          + Order.shipping_amount o.
Proof.
  exists (registered_order env order user_id (next_order_id (orders db))).
  cbn zeta. split; [|split; [|split]].
  - unfold run.
    rewrite (create_order_session env order user_id
               {| committed := db; working := db; new_orders := [];
                  new_items := []; fault := None |}); auto.
    cbn [working committed]. rewrite Hitems, lines_of_known_products_app.
    cbn [lines_of_known_products omap list_omap]. rewrite Hunknown.
    reflexivity.
  - rewrite <- lines_of_known_products_app.
    eapply Forall_impl; [apply lines_of_known_products_known|].
    cbn. intros i [p Hp] Heq. rewrite Heq, Hunknown in Hp. discriminate.
  - cbn [registered_order Order.subtotal]. rewrite Hitems, map_app.
    cbn [map]. apply py_sum_app_cons.
  - cbn. reflexivity.
Qed.

Lemma create_order_omits_unknown_product_witness :
  OrderCreate.items Sample.request
  = [Sample.known_line] ++ Sample.unknown_line :: []
  /\ products Scenario.shop_100
     !! OrderItemCreate.product_id Sample.unknown_line = None
  /\ order_number_taken (orders Scenario.shop_100)
       (registered_order_number Scenario.env) = false
  /\ exists o db',
      run (crud.create_order Scenario.env Sample.request 7)
        Scenario.shop_100 None = (Ok o, db')
      /\ orders db' = [o]
      /\ map OrderItem.product_id (order_items db') = [1]
      /\ Order.subtotal o == 230
      /\ Order.total_amount o == 230 + 230 * (18 # 100) + 50.
Proof.
  split; [reflexivity|]. split; [reflexivity|]. split; [reflexivity|].
  destruct (create_order_omits_unknown_product Scenario.env Sample.request 7
              Scenario.shop_100 Sample.unknown_line [Sample.known_line] []
              eq_refl eq_refl eq_refl) as (o & Hrun & _ & Hsub & Htot).
  exists o. eexists. split; [exact Hrun|].
  split; [reflexivity|]. split; [reflexivity|].
  split.
  - rewrite Hsub. reflexivity.
  - rewrite Htot, Hsub.
    assert (Hship : Order.shipping_amount o = 50%Q).
    { injection Hrun as Ho _. revert Ho. vm_compute. now intros [= <-]. }
    rewrite Hship. reflexivity.
Defined.

(** * The checkout of a registered user, in full *)

Lemma check_stock_Ok rows s s' :
  for_each rows check_stock_body s = (Ok tt, s') ->
  Forall (in_stock (products (working s))) rows.
Proof.
  induction rows as [|c rows IH]; cbn [for_each]; [constructor|].
  intros E. step E t s1. assert (Hc := Et). unmoved Et.
  constructor; [|exact (IH E)].
  unfold check_stock_body, crud.product_of, crud.attr, bind, get_working,
    ret, raise in Hc.
  destruct (products (working s) !! CartItem.product_id c) as [p|] eqn:Hp;
    [|discriminate].
  exists p. split; [exact Hp|]. intros Ht. rewrite Ht in Hc. cbn in Hc.
  destruct (Z.ltb_spec (Product.stock_quantity p) (CartItem.quantity c));
    [discriminate | assumption].
Qed.

Lemma order_lines_Ok rows s lines s' :
  for_list rows order_line_body s = (Ok lines, s') ->
  Forall2 (fun c l => order_line (products (working s)) c = Some l)
    rows lines.
Proof.
  revert lines. induction rows as [|c rows IH]; intros lines;
    cbn [for_list].
  - intros [= <- _]. constructor.
  - intros E. step E l s1. assert (Hc := El). unmoved El.
    step E ls s1. assert (Hls := Els). unmoved Els.
    injection E as <- <-. constructor; [|exact (IH _ Hls)].
    unfold order_line_body, crud.product_of, crud.attr, bind, get_working,
      ret, raise in Hc. unfold order_line.
    destruct (products (working s) !! CartItem.product_id c) as [p|];
      [|discriminate].
    now injection Hc as <-.
Qed.

Lemma take_stock_step c s s' :
  take_stock_body c s = (Ok tt, s') ->
  s' = with_products s
         (move_stock (CartItem.product_id c) (- CartItem.quantity c)
            (products (working s))).
Proof.
  unfold take_stock_body, crud.product_of, crud.attr, bind, get_working, ret,
    raise, move_stock.
  destruct (products (working s) !! CartItem.product_id c) as [p|];
    [|discriminate].
  destruct (Product.track_inventory p).
  - unfold crud.set_stock_quantity, modify_working. now intros [= <-].
  - intros [= <-]. symmetry. apply with_products_same.
Qed.

Lemma take_stock_loop rows s s' :
  for_each rows take_stock_body s = (Ok tt, s') ->
  exists ps',
    s' = with_products s ps'
    /\ forall k,
        ps' !! k
        = restock (- purchased k (user_lines rows))
            <$> products (working s) !! k.
Proof.
  revert s s'. induction rows as [|c rows IH]; intros s s'; cbn [for_each].
  - intros [= <-]. exists (products (working s)).
    split; [symmetry; apply with_products_same|].
    intros k. cbn. destruct (products (working s) !! k); cbn; [|reflexivity].
    now rewrite restock_0.
  - intros E. step E t s1. destruct t. apply take_stock_step in Et.
    subst s1. apply IH in E as (ps' & -> & Hps).
    exists ps'. split; [reflexivity|].
    intros k. rewrite Hps. cbn [with_products working products set_products].
    rewrite move_stock_lookup.
    destruct (products (working s) !! k); cbn; [|reflexivity].
    rewrite restock_restock. f_equal. apply restock_eq.
    unfold user_lines. cbn [map purchased].
    destruct (CartItem.product_id c =? k); lia.
Qed.

Lemma create_order_from_cart_unfold env current_user :
  routers_orders.create_order_from_cart env current_user
  = (cart_items <- crud.get_user_cart (User.id current_user) ;;
     match cart_items with
     | [] => raise (HTTPException 400 Cart_is_empty)
     | _ :: _ =>
       for_each cart_items check_stock_body ;;;
       order_items <- for_list cart_items order_line_body ;;
       order <- crud.create_order env {| OrderCreate.items := order_items |}
                  (User.id current_user) ;;
       for_each cart_items take_stock_body ;;;
       db_commit ;;;
       crud.clear_user_cart (User.id current_user) ;;;
       ret order
     end).
Proof. reflexivity. Qed.

(** Everything a successful checkout of a registered user has done. *)
Lemma registered_checkout_result env u db f o db' :
  run (routers_orders.create_order_from_cart env u) db f = (Ok o, db') ->
  let rows := user_rows (User.id u) db in
  exists lines,
    rows <> []
    /\ Forall (in_stock (products db)) rows
    /\ Forall2 (fun c l => order_line (products db) c = Some l) rows lines
    /\ order_number_taken (orders db) (registered_order_number env) = false
    /\ o = registered_order env {| OrderCreate.items := lines |} (User.id u)
             (next_order_id (orders db))
    /\ orders db' = orders db ++ [o]
    /\ order_items db'
       = order_items db
         ++ lines_of_known_products (products db) (Order.id o) lines
    /\ (forall k,
          products db' !! k
          = restock (- purchased k (user_lines rows)) <$> products db !! k)
    /\ cart_items db'
       = List.filter (fun c => negb (CartItem.user_id c =? User.id u))
           (cart_items db)
    /\ session_cart db' = session_cart db.
Proof.
  intros H rows. assert (Hdef : rows = user_rows (User.id u) db) by reflexivity.
  clearbody rows. revert H.
  unfold run. fold (open_session db f).
  destruct (routers_orders.create_order_from_cart env u (open_session db f))
    as [r sf] eqn:E.
  intros [= -> <-]. rewrite create_order_from_cart_unfold in E.
  step E cart s1.
  assert (Hcart : cart = rows).
  { unfold crud.get_user_cart, bind, get_working, ret in Ecart.
    rewrite Hdef. now injection Ecart as <- _. }
  unmoved Ecart. subst cart. clear Hdef.
  destruct rows as [|c rows'] eqn:Hrows; [discriminate E|].
  rewrite <- Hrows in *.
  step E v s1. destruct v.
  pose proof (check_stock_Ok _ _ _ Ev) as Hstock. unmoved Ev.
  step E lines s1.
  pose proof (order_lines_Ok _ _ _ _ Elines) as Hlines. unmoved Elines.
  cbn [open_session working] in Hstock, Hlines.
  exists lines.
  step E order s1. rewrite create_order_unfold in Eorder.
  step Eorder o' s2. unfold db_add_order in Eo'.
  cbn [open_session working new_orders] in Eo'. rewrite app_nil_r in Eo'.
  injection Eo' as <- <-.
  step Eorder t1 s3. destruct t1.
  apply db_commit_Ok_eq in Et1 as (os & Hflush & ->).
  cbn [working new_orders new_items fault flush_orders] in Hflush, Eorder.
  destruct (order_number_taken (orders db) _) eqn:Hfresh;
    [discriminate Hflush|].
  injection Hflush as <-.
  step Eorder t2 s4. rewrite create_order_items_loop in Et2.
  injection Et2 as <- <-.
  step Eorder t3 s5. destruct t3.
  apply db_commit_Ok_eq in Et3 as (os & Hflush & ->).
  cbn [working new_orders new_items fault flush_orders add_new_items]
    in Hflush, Eorder.
  injection Hflush as <-. injection Eorder as <- <-.
  step E t4 s6. destruct t4. apply take_stock_loop in Et4 as (ps' & -> & Hps).
  step E t5 s7. destruct t5.
  apply db_commit_Ok_eq in Et5 as (os & Hflush & ->).
  cbn [working new_orders new_items fault flush_orders with_products]
    in Hflush, E.
  injection Hflush as <-.
  step E t6 s8. destruct t6. unfold crud.clear_user_cart in Et6.
  step Et6 t7 s9. unfold modify_working in Et7. injection Et7 as _ <-.
  apply db_commit_Ok_eq in Et6 as (os & Hflush & ->).
  cbn [working new_orders new_items fault flush_orders] in Hflush.
  injection Hflush as <-. injection E as <- <-.
  cbn [working committed products set_products set_orders set_order_items
       set_cart_items orders order_items cart_items session_cart] in Hps |- *.
  split; [rewrite Hrows; discriminate|].
  repeat (split; [first [ assumption | reflexivity ]|]).
  split.
  - cbn [app Order.id Order.with_id registered_order].
    now rewrite !app_nil_r.
  - split; [exact Hps|]. split; reflexivity.
Qed.

(** * The guest checkout, in full *)

Lemma guest_check_Ok rows s s' :
  for_each rows guest_check_body s = (Ok tt, s') ->
  Forall (fun c => line_problem (products (working s)) c = None) rows.
Proof.
  induction rows as [|c rows IH]; cbn [for_each]; [constructor|].
  intros E. step E t s1. assert (Hc := Et). unmoved Et.
  constructor; [|exact (IH E)].
  unfold guest_check_body, crud.product_of, bind, get_working, ret, raise
    in Hc. unfold line_problem.
  destruct (products (working s) !! SessionCart.product_id c) as [p|];
    [|discriminate].
  destruct (negb _); [discriminate|]. destruct (_ && _); [discriminate|].
  reflexivity.
Qed.

Lemma guest_amounts_Ok rows s amounts s' :
  for_list rows guest_amount_body s = (Ok amounts, s') ->
  amounts = map (guest_amount (products (working s))) rows.
Proof.
  revert amounts s'. induction rows as [|c rows IH]; intros amounts s';
    cbn [for_list].
  - now intros [= <- _].
  - intros E. step E a s1. assert (Hc := Ea). unmoved Ea.
    step E l s1. assert (Hl := El). unmoved El.
    injection E as <- <-. cbn [map]. f_equal; [|exact (IH _ _ Hl)].
    unfold guest_amount_body, crud.product_of, crud.attr, bind, get_working,
      ret, raise in Hc. unfold guest_amount.
    destruct (products (working s) !! SessionCart.product_id c) as [p|];
      [|discriminate].
    now injection Hc as <-.
Qed.

Lemma create_order_from_session_cart_unfold env session_id :
  crud.create_order_from_session_cart env session_id
  = (db <- get_working ;;
     match crud.session_rows session_id db with
     | [] => ret None
     | _ :: _ =>
       let cart_items := crud.session_rows session_id db in
       for_each cart_items guest_check_body ;;;
       amounts <- for_list cart_items guest_amount_body ;;
       db_order <- db_add_order
                     (guest_order env session_id (py_sum amounts) 0) ;;
       db_commit ;;;
       for_each cart_items (guest_item_body (Order.id db_order)) ;;;
       crud.clear_session_cart session_id ;;;
       db_commit ;;;
       ret (Some db_order)
     end).
Proof. reflexivity. Qed.

Lemma guest_item_step order_id c s s' :
  guest_item_body order_id c s = (Ok tt, s') ->
  exists p,
    products (working s) !! SessionCart.product_id c = Some p
    /\ (Product.track_inventory p = true ->
        SessionCart.quantity c <= Product.stock_quantity p)
    /\ s' = add_new_items
              (with_products s
                 (move_stock (SessionCart.product_id c)
                    (- SessionCart.quantity c) (products (working s))))
              [guest_order_item order_id c p].
Proof.
  unfold guest_item_body. intros E. step E p s1.
  assert (Hp : products (working s) !! SessionCart.product_id c = Some p).
  { unfold crud.product_of, crud.attr, bind, get_working, ret, raise in Ep.
    destruct (products (working s) !! SessionCart.product_id c);
      [now injection Ep as -> _ | discriminate]. }
  unmoved Ep. exists p. split; [exact Hp|].
  step E t s1.
  destruct (Product.track_inventory p) eqn:Ht; cbn [andb] in Et.
  - destruct (Z.ltb_spec (Product.stock_quantity p) (SessionCart.quantity c))
      as [Hlt|Hge].
    + step Et t' s2. step Et p' s3. discriminate Et.
    + injection Et as _ <-. split; [intros _; exact Hge|].
      step E t' s2. unfold db_add_order_item in Et'. injection Et' as _ <-.
      unfold crud.set_stock_quantity, modify_working in E.
      injection E as <-. unfold move_stock. rewrite Hp, Ht. reflexivity.
  - injection Et as _ <-. split; [discriminate|].
    step E t' s2. unfold db_add_order_item in Et'. injection Et' as _ <-.
    injection E as <-. unfold move_stock. rewrite Hp, Ht.
    unfold add_new_items, with_products. cbn.
    now rewrite set_products_same.
Qed.

(** The loop that writes the line items and takes the stock: what it has
    done when it got through. *)
Lemma guest_item_loop order_id rows s s' :
  for_each rows (guest_item_body order_id) s = (Ok tt, s') ->
  exists ps' items,
    s' = add_new_items (with_products s ps') items
    /\ (forall k,
          ps' !! k
          = restock (- purchased k (session_lines rows))
              <$> products (working s) !! k)
    /\ Forall2 (fun c i =>
                  exists p,
                    products (working s) !! SessionCart.product_id c = Some p
                    /\ i = guest_order_item order_id c p) rows items
    /\ Forall (fun c =>
                 forall p', ps' !! SessionCart.product_id c = Some p' ->
                            Product.track_inventory p' = true ->
                            0 <= Product.stock_quantity p') rows.
Proof.
  revert s s'. induction rows as [|c rows IH]; intros s s'; cbn [for_each].
  - intros [= <-]. exists (products (working s)), [].
    rewrite with_products_same, add_new_items_nil.
    split; [reflexivity|]. split; [|split; constructor].
    intros k. cbn. destruct (products (working s) !! k); cbn; [|reflexivity].
    now rewrite restock_0.
  - intros E. step E t s1. destruct t.
    apply guest_item_step in Et as (p & Hp & Hstock & ->).
    apply IH in E as (ps' & items & -> & Hps & Hitems & Hnonneg).
    cbn [add_new_items with_products working products set_products]
      in Hps, Hitems.
    assert (Hps' : forall k,
               ps' !! k
               = restock (- purchased k (session_lines (c :: rows)))
                   <$> products (working s) !! k).
    { intros k. rewrite Hps, move_stock_lookup.
      destruct (products (working s) !! k); cbn; [|reflexivity].
      rewrite restock_restock. f_equal. apply restock_eq.
      unfold session_lines. cbn [map purchased].
      destruct (SessionCart.product_id c =? k); lia. }
    exists ps', (guest_order_item order_id c p :: items).
    split; [|split; [exact Hps'|split]].
    + unfold add_new_items, with_products. cbn.
      now rewrite <- app_assoc.
    + constructor; [eauto|].
      eapply Forall2_impl; [exact Hitems|].
      intros c' i (p1 & Hp1 & ->). cbn beta in Hp1.
      rewrite move_stock_lookup in Hp1.
      destruct (products (working s) !! SessionCart.product_id c')
        as [p0|]; [|discriminate].
      injection Hp1 as <-. exists p0. split; [reflexivity|].
      apply guest_order_item_restock.
    + constructor; [|exact Hnonneg].
      intros p' Hp' Ht'.
      destruct (decide (Exists
                          (fun c' => SessionCart.product_id c'
                                     = SessionCart.product_id c) rows))
        as [Hin|Hout].
      * apply Exists_exists in Hin as (c' & Hc' & Heq).
        rewrite Forall_forall in Hnonneg.
        apply (Hnonneg c'); [exact Hc' | now rewrite Heq | exact Ht'].
      * rewrite Hps', Hp in Hp'. cbn in Hp'. injection Hp' as <-.
        assert (Habs : purchased (SessionCart.product_id c)
                         (session_lines rows) = 0).
        { apply purchased_absent. apply Forall_forall. intros c' Hc' Heq.
          apply Hout, Exists_exists. exists c'. split; [exact Hc'|exact Heq]. }
        unfold session_lines in *. cbn [map purchased] in *.
        rewrite Habs, Z.eqb_refl in *.
        unfold restock in *. destruct (Product.track_inventory p) eqn:Ht.
        -- cbn. specialize (Hstock eq_refl). lia.
        -- congruence.
Qed.

(** Everything a successful guest checkout has done. *)
Lemma guest_checkout_result env session_id db f o db' :
  run (routers_orders.create_order_from_session_cart env session_id) db f
  = (Ok o, db') ->
  let rows := crud.session_rows session_id db in
  exists items,
    rows <> []
    /\ Forall (fun c => line_problem (products db) c = None) rows
    /\ order_number_taken (orders db) (guest_order_number env session_id)
       = false
    /\ o = guest_order env session_id
             (py_sum (map (guest_amount (products db)) rows))
             (next_order_id (orders db))
    /\ orders db' = orders db ++ [o]
    /\ order_items db' = order_items db ++ items
    /\ Forall2 (fun c i =>
                  exists p,
                    products db !! SessionCart.product_id c = Some p
                    /\ i = guest_order_item (Order.id o) c p) rows items
    /\ (forall k,
          products db' !! k
          = restock (- purchased k (session_lines rows)) <$> products db !! k)
    /\ Forall (fun c =>
                 forall p', products db' !! SessionCart.product_id c = Some p' ->
                            Product.track_inventory p' = true ->
                            0 <= Product.stock_quantity p') rows
    /\ session_cart db'
       = List.filter
           (fun c => negb (String.eqb (SessionCart.session_id c) session_id))
           (session_cart db)
    /\ cart_items db' = cart_items db.
Proof.
  intros H rows.
  assert (Hdef : rows = crud.session_rows session_id db) by reflexivity.
  clearbody rows. revert H.
  unfold run. fold (open_session db f).
  destruct (routers_orders.create_order_from_session_cart env session_id
              (open_session db f)) as [r sf] eqn:E.
  intros [= -> <-].
  unfold routers_orders.create_order_from_session_cart in E.
  step E cart_data s1. unmoved Ecart_data.
  destruct (crud.SessionCartData.items cart_data); [discriminate E|].
  step E order s1. apply except_ValueError_Ok in Eorder.
  destruct order as [order|]; [|discriminate E].
  injection E as <- <-.
  rewrite create_order_from_session_cart_unfold in Eorder.
  step Eorder w s2. unfold get_working in Ew. injection Ew as <- <-.
  cbn [open_session working] in Eorder. rewrite <- Hdef in Eorder.
  clear Hdef.
  destruct rows as [|c rows'] eqn:Hrows; [discriminate Eorder|].
  rewrite <- Hrows in *. cbn zeta in Eorder.
  step Eorder v s2. destruct v.
  pose proof (guest_check_Ok _ _ _ Ev) as Hcheck. unmoved Ev.
  step Eorder amounts s2.
  pose proof (guest_amounts_Ok _ _ _ _ Eamounts) as Hamounts.
  unmoved Eamounts. subst amounts.
  cbn [working] in Hcheck, Eorder.
  step Eorder o' s2. unfold db_add_order in Eo'.
  cbn [working new_orders] in Eo'. rewrite app_nil_r in Eo'.
  injection Eo' as <- <-.
  step Eorder t1 s3. destruct t1.
  apply db_commit_Ok_eq in Et1 as (os & Hflush & ->).
  cbn [working new_orders new_items fault flush_orders] in Hflush, Eorder.
  destruct (order_number_taken (orders db) _) eqn:Hfresh;
    [discriminate Hflush|].
  injection Hflush as <-.
  step Eorder t2 s4. destruct t2.
  apply guest_item_loop in Et2
    as (ps' & items & -> & Hps & Hitems & Hnonneg).
  cbn [working products set_orders set_order_items] in Hps, Hitems.
  step Eorder t3 s5. unfold crud.clear_session_cart in Et3.
  step Et3 t4 s6. unfold modify_working in Et4. injection Et4 as _ <-.
  step Et3 t5 s7. destruct t5.
  apply db_commit_Ok_eq in Et5 as (os & Hflush & ->).
  cbn [working new_orders new_items fault flush_orders add_new_items
       with_products] in Hflush, Et3.
  injection Hflush as <-. injection Et3 as _ <-.
  step Eorder t6 s8. destruct t6.
  apply db_commit_Ok_eq in Et6 as (os & Hflush & ->).
  cbn [working new_orders new_items fault flush_orders] in Hflush.
  injection Hflush as <-. injection Eorder as <- <-.
  cbn [working committed products set_products set_orders set_order_items
       set_session_cart orders order_items cart_items session_cart app].
  cbn [open_session working] in Hcheck.
  exists items.
  split; [rewrite Hrows; discriminate|].
  split; [exact Hcheck|]. split; [reflexivity|]. split; [reflexivity|].
  split; [reflexivity|]. split; [now rewrite !app_nil_r|].
  split; [exact Hitems|]. split; [exact Hps|]. split; [exact Hnonneg|].
  split; reflexivity.
Qed.

(** * Empty carts and order numbers *)

(** What a successful checkout tells, for either kind of cart. *)
Lemma checkout_Ok env owner db f o db' :
  run (checkout env owner) db f = (Ok o, db') ->
  cart_lines owner db <> []
  /\ order_number_taken (orders db) (Order.order_number o) = false
  /\ orders db' = orders db ++ [o]
  /\ cart_lines owner db' = [].
Proof.
  destruct owner as [u|session_id]; cbn [checkout cart_lines]; intros H.
  - apply registered_checkout_result in H
      as (lines & Hne & _ & _ & Hfresh & -> & Ho & _ & _ & Hcart & _).
    split; [intros E; apply map_eq_nil in E; contradiction|].
    split; [exact Hfresh|]. split; [exact Ho|].
    unfold user_rows. rewrite Hcart.
    now rewrite (filter_negb_filter
                   (fun c => CartItem.user_id c =? User.id u)).
  - apply guest_checkout_result in H
      as (items & Hne & _ & Hfresh & -> & Ho & _ & _ & _ & _ & Hcart & _).
    split; [intros E; apply map_eq_nil in E; contradiction|].
    split; [exact Hfresh|]. split; [exact Ho|].
    unfold crud.session_rows. rewrite Hcart.
    now rewrite (filter_negb_filter
                   (fun c => String.eqb (SessionCart.session_id c)
                               session_id)).
Qed.

Lemma checkout_empty_cart env owner db f :
  cart_lines owner db = [] ->
  run (checkout env owner) db f
  = (Raise (HTTPException 400 Cart_is_empty), db).
Proof.
  destruct owner as [u|session_id]; cbn [checkout cart_lines]; intros H;
    apply map_eq_nil in H.
  - unfold run, routers_orders.create_order_from_cart, crud.get_user_cart,
      bind, get_working, ret. cbn [working].
    fold (user_rows (User.id u) db). rewrite H. reflexivity.
  - unfold run, routers_orders.create_order_from_session_cart,
      crud.get_session_cart, bind, get_working, ret.
    cbn [working crud.SessionCartData.items]. rewrite H. reflexivity.
Qed.

(** C7.  A checkout on an empty cart is refused with "Cart is empty" (HTTP
    400) and changes nothing, so creates no order.  A checkout that succeeds
    adds exactly one order and leaves the cart of its owner empty, so a
    second checkout right after it is refused in the same way and creates no
    second order.  This holds for the cart of a registered user and for a
    session cart. *)
Theorem checkout_empty_cart_refused
    (env env' : Env) (owner : Owner) (db : DB) (f f' : option nat) :
  (cart_lines owner db = [] ->
     run (checkout env owner) db f
     = (Raise (HTTPException 400 Cart_is_empty), db))
  /\ (forall o db',
        run (checkout env owner) db f = (Ok o, db') ->
        orders db' = orders db ++ [o]
        /\ cart_lines owner db' = []
        /\ run (checkout env' owner) db' f'
           = (Raise (HTTPException 400 Cart_is_empty), db')).
Proof.
  split.
  - apply checkout_empty_cart.
  - intros o db' H. apply checkout_Ok in H as (_ & _ & Ho & He).
    split; [exact Ho|]. split; [exact He|].
    apply checkout_empty_cart, He.
Qed.

Lemma checkout_empty_cart_refused_witness :
  exists o db',
    run (checkout Scenario.env (Registered Scenario.alice))
      Scenario.shop_100 None = (Ok o, db')
    /\ orders db' = orders Scenario.shop_100 ++ [o]
    /\ cart_lines (Registered Scenario.alice) db' = []
    /\ run (checkout Scenario.env (Registered Scenario.alice)) db' None
       = (Raise (HTTPException 400 Cart_is_empty), db').
Proof.
  assert (E : exists o db',
             run (checkout Scenario.env (Registered Scenario.alice))
               Scenario.shop_100 None = (Ok o, db'))
    by (do 2 eexists; vm_compute; reflexivity).
  destruct E as (o & db' & E). exists o, db'. split; [exact E|].
  exact (proj2 (checkout_empty_cart_refused Scenario.env Scenario.env
                  (Registered Scenario.alice) Scenario.shop_100 None None)
           o db' E).
Defined.

Lemma order_number_taken_In os n :
  order_number_taken os n = true <-> In n (map Order.order_number os).
Proof.
  unfold order_number_taken. rewrite existsb_exists, in_map_iff.
  split; intros (o & H1 & H2).
  - exists o. split; [now apply String.eqb_eq | exact H1].
  - exists o. split; [exact H2 | now apply String.eqb_eq].
Qed.

(** Two checkouts that both succeed, the second on a database that still
    holds the order numbers the first one left, store orders with different
    numbers: the unique constraint on [order_number] makes a checkout that
    generates a number already in the table fail at its first commit. *)
Lemma order_numbers_differ
    (env1 env2 : Env) (owner1 owner2 : Owner) (db0 db1 db2 db3 : DB)
    (f1 f2 : option nat) (o1 o2 : Order.t)
    (H1 : run (checkout env1 owner1) db0 f1 = (Ok o1, db1))
    (Hkept : forall n, In n (map Order.order_number (orders db1)) ->
                       In n (map Order.order_number (orders db2)))
    (H2 : run (checkout env2 owner2) db2 f2 = (Ok o2, db3)) :
  Order.order_number o1 <> Order.order_number o2
  /\ In o1 (orders db1)
  /\ In o2 (orders db3).
Proof.
  apply checkout_Ok in H1 as (_ & _ & Ho1 & _).
  apply checkout_Ok in H2 as (_ & Hfresh & Ho2 & _).
  split; [|split].
  - intros Heq.
    assert (Hin : In (Order.order_number o2)
                    (map Order.order_number (orders db2))).
    { apply Hkept. rewrite Ho1, map_app, <- Heq. apply in_or_app. right.
      now left. }
    apply order_number_taken_In in Hin. congruence.
  - rewrite Ho1. apply in_or_app. right. now left.
  - rewrite Ho2. apply in_or_app. right. now left.
Qed.

(** C9 fails on the guest checkout.  The number it generates is made of the
    second of the clock and of the first eight characters of the session id,
    so two guest checkouts in one second generate the same number when their
    session ids begin with the same eight characters.  Two sessions
    [session-4f1a] and [session-9c2e], each with a cart that checks out on
    its own, check out in the same second: the first order gets the number
    [ORD-1705312800-session-], the second checkout generates that number
    again and ends in the [IntegrityError] of the unique constraint, which
    the handler does not catch, without an order.  So does a second checkout
    of one session within the second, after the cart was filled again. *)
Theorem guest_order_numbers_collide :
  (forall env session_id1 session_id2,
      prefix 8 session_id1 = prefix 8 session_id2 ->
      guest_order_number env session_id1 = guest_order_number env session_id2)
  /\ (exists o1 db1,
        run (checkout Scenario.env (Guest session_a)) shop_two_sessions None
        = (Ok o1, db1)
        /\ Order.order_number o1 = "ORD-1705312800-session-"
        /\ (exists o2 db2,
              run (checkout Scenario.env (Guest session_b)) shop_two_sessions
                None = (Ok o2, db2))
        /\ guest_order_number Scenario.env session_b = Order.order_number o1
        /\ run (checkout Scenario.env (Guest session_b)) db1 None
           = (Raise IntegrityError, db1))
  /\ (exists o db1,
        run (checkout Scenario.env (Guest Scenario.guest)) Scenario.shop_100
          None = (Ok o, db1)
        /\ let db2 := set_session_cart db1 [Scenario.guest_row 2 1] in
           run (checkout Scenario.env (Guest Scenario.guest)) db2 None
           = (Raise IntegrityError, db2)).
Proof.
  split; [|split].
  - intros env session_id1 session_id2 H. unfold guest_order_number.
    now rewrite H.
  - do 2 eexists. split; [vm_compute; reflexivity|].
    split; [vm_compute; reflexivity|].
    split; [do 2 eexists; vm_compute; reflexivity|].
    split; vm_compute; reflexivity.
  - do 2 eexists. split; [vm_compute; reflexivity|]. vm_compute. reflexivity.
Qed.

(** * Validation before checkout *)

(** The guest checkout refuses a cart with a line whose product is missing,
    not active, or short of stock, with the message for the first such line,
    and changes nothing. *)
Lemma guest_checkout_refuses_bad_line env session_id db f rows1 row rows2 d :
  crud.session_rows session_id db = rows1 ++ row :: rows2 ->
  Forall (fun c => line_problem (products db) c = None) rows1 ->
  line_problem (products db) row = Some d ->
  run (routers_orders.create_order_from_session_cart env session_id) db f
  = (Raise (HTTPException 400 d), db).
Proof.
  intros Hrows Hgood Hbad. apply run_raise.
  unfold routers_orders.create_order_from_session_cart.
  erewrite bind_step; cycle 1.
  { unfold crud.get_session_cart, bind, get_working, ret. reflexivity. }
  cbn [crud.SessionCartData.items open_session working]. rewrite Hrows.
  fold (open_session db f).
  assert (Hne : exists r rs, rows1 ++ row :: rows2 = r :: rs)
    by (destruct rows1; cbn; eauto).
  destruct Hne as (r & rs & Hne). rewrite Hne. cbn [map].
  apply bind_raise, except_ValueError_raise.
  unfold crud.create_order_from_session_cart.
  erewrite bind_step; cycle 1.
  { unfold get_working. reflexivity. }
  cbn [open_session working]. rewrite Hrows, Hne.
  fold (open_session db f). rewrite <- Hne.
  apply bind_raise.
  apply for_each_stops.
  - eapply Forall_impl; [exact Hgood|]. intros c Hc. cbn beta in Hc |- *.
    unfold line_problem in Hc. unfold crud.product_of, bind, get_working, ret.
    cbn [open_session working].
    destruct (products db !! SessionCart.product_id c) as [p|]; [|discriminate].
    destruct (negb _); [discriminate|]. destruct (_ && _); [discriminate|].
    reflexivity.
  - unfold line_problem in Hbad.
    unfold crud.product_of, bind, get_working, ret, raise.
    cbn [open_session working].
    destruct (products db !! SessionCart.product_id row) as [p|].
    + destruct (negb _); [now injection Hbad as <-|].
      destruct (_ && _); [now injection Hbad as <-|discriminate].
    + now injection Hbad as <-.
Qed.

(** The checkout of a registered user refuses a cart with a line that is
    short of stock, and changes nothing.  It is the only thing this pass
    looks at. *)
Lemma registered_checkout_refuses_short_line env u db f rows1 row rows2 p :
  user_rows (User.id u) db = rows1 ++ row :: rows2 ->
  Forall (fun c => exists q,
            products db !! CartItem.product_id c = Some q
            /\ Product.track_inventory q
               && (Product.stock_quantity q <? CartItem.quantity c) = false)
    rows1 ->
  products db !! CartItem.product_id row = Some p ->
  Product.track_inventory p = true ->
  Product.stock_quantity p < CartItem.quantity row ->
  run (routers_orders.create_order_from_cart env u) db f
  = (Raise (HTTPException 400
              (Insufficient_stock_only (Product.name p)
                 (Product.stock_quantity p))), db).
Proof.
  intros Hrows Hgood Hp Ht Hshort. apply run_raise.
  unfold routers_orders.create_order_from_cart.
  erewrite bind_step; cycle 1.
  { unfold crud.get_user_cart, bind, get_working, ret. reflexivity. }
  cbn [open_session working]. fold (user_rows (User.id u) db).
  fold (open_session db f). rewrite Hrows.
  assert (Hne : exists r rs, rows1 ++ row :: rows2 = r :: rs)
    by (destruct rows1; cbn; eauto).
  destruct Hne as (r & rs & Hne). rewrite Hne, <- Hne.
  apply bind_raise.
  apply for_each_stops.
  - eapply Forall_impl; [exact Hgood|]. intros c (q & Hq & Hc).
    unfold crud.product_of, crud.attr, bind, get_working, ret.
    cbn [open_session working]. now rewrite Hq, Hc.
  - unfold crud.product_of, crud.attr, bind, get_working, ret, raise.
    cbn [open_session working]. rewrite Hp, Ht.
    apply Z.ltb_lt in Hshort. now rewrite Hshort.
Qed.

(** C2 fails on the checkout of a registered user: the status of the product
    is not looked at.  With the only product of the cart inactive, the
    checkout goes through, stores the order with its line and takes the
    stock; the guest checkout of the same cart is refused and changes
    nothing. *)
Theorem registered_checkout_accepts_inactive_product :
  exists o i db',
    run (routers_orders.create_order_from_cart Scenario.env Scenario.alice)
      shop_inactive None = (Ok o, db')
    /\ orders db' = [o]
    /\ order_items db' = [i]
    /\ OrderItem.product_id i = 1
    /\ Product.status <$> products db' !! 1 = Some ProductStatus.INACTIVE
    /\ Product.stock_quantity <$> products db' !! 1 = Some 3
    /\ cart_items db' = []
    /\ run (routers_orders.create_order_from_session_cart Scenario.env
              Scenario.guest) shop_inactive None
       = (Raise (HTTPException 400 (Product_is_not_available "A")),
          shop_inactive).
Proof.
  do 3 eexists. split; [vm_compute; reflexivity|].
  repeat split; vm_compute; reflexivity.
Qed.

(** * Amounts of a stored order *)

Local Open Scope Q_scope.

Lemma order_lines_amounts ps rows lines :
  Forall2 (fun c l => order_line ps c = Some l) rows lines ->
  map line_amount lines
  = map (fun c =>
           match ps !! CartItem.product_id c with
           | Some p => inject_Z (CartItem.quantity c) * Product.price p
           | None => 0
           end) rows.
Proof.
  induction 1 as [|c l rows lines Hl _ IH]; [reflexivity|].
  cbn [map]. rewrite IH. f_equal. unfold order_line in Hl.
  destruct (ps !! CartItem.product_id c) as [p|]; [|discriminate].
  cbn in Hl. now injection Hl as <-.
Qed.

(** The order a registered user's checkout stores: the total is the sum of
    its parts and the tax is 18% of the subtotal, exactly; shipping is free
    only above 500; nothing is rounded. *)
Lemma registered_checkout_amounts env u db f o db' :
  run (routers_orders.create_order_from_cart env u) db f = (Ok o, db') ->
  Order.subtotal o = user_subtotal (products db) (user_rows (User.id u) db)
  /\ Order.tax_amount o = Order.subtotal o * (18 # 100)
  /\ Order.shipping_amount o
     = (if Qlt_bool 500 (Order.subtotal o) then 0 else 50)
  /\ Order.discount_amount o = 0
  /\ Order.total_amount o
     = Order.subtotal o + Order.tax_amount o + Order.shipping_amount o
  /\ Order.total_amount o
     == Order.subtotal o + Order.tax_amount o + Order.shipping_amount o
        - Order.discount_amount o.
Proof.
  intros H. apply registered_checkout_result in H
    as (lines & _ & _ & Hlines & _ & -> & _).
  cbn [registered_order Order.subtotal Order.tax_amount Order.shipping_amount
       Order.discount_amount Order.total_amount OrderCreate.items].
  unfold user_subtotal. rewrite (order_lines_amounts _ _ _ Hlines).
  repeat split; try reflexivity. ring.
Qed.

(** The order a guest checkout stores: every amount has two decimal places,
    the tax is 18% of the subtotal rounded, shipping is free from 500 on and
    for a subtotal of zero, and the total is the sum of the stored parts up
    to one hundredth. *)
Lemma guest_checkout_amounts env session_id db f o db' :
  run (routers_orders.create_order_from_session_cart env session_id) db f
  = (Ok o, db') ->
  let subtotal :=
    py_sum (map (guest_amount (products db))
              (crud.session_rows session_id db)) in
  Order.subtotal o = round2 subtotal
  /\ Order.tax_amount o = round2 (subtotal * (18 # 100))
  /\ Order.shipping_amount o
     = (if Qle_bool 500 subtotal || Qeq_bool subtotal 0 then 0 else 50)
  /\ Order.discount_amount o = 0
  /\ two_decimals (Order.subtotal o)
  /\ two_decimals (Order.tax_amount o)
  /\ two_decimals (Order.shipping_amount o)
  /\ two_decimals (Order.total_amount o)
  /\ Qabs (Order.total_amount o
           - (Order.subtotal o + Order.tax_amount o + Order.shipping_amount o
              - Order.discount_amount o)) <= 1 # 100.
Proof.
  intros H subtotal. apply guest_checkout_result in H
    as (items & _ & _ & _ & -> & _).
  fold subtotal.
  cbn [guest_order Order.subtotal Order.tax_amount Order.shipping_amount
       Order.discount_amount Order.total_amount].
  repeat (split; [reflexivity|]).
  split; [apply round2_two_decimals|]. split; [apply round2_two_decimals|].
  split; [destruct (_ || _); vm_compute; reflexivity|].
  split; [apply round2_two_decimals|].
  set (tax := round2 (subtotal * (18 # 100))).
  set (ship := if Qle_bool 500 subtotal || Qeq_bool subtotal 0
               then 0 else 50).
  pose proof (round2_error (subtotal + tax + ship)) as H1.
  pose proof (round2_error subtotal) as H2.
  apply Qabs_Qle_condition in H1, H2. apply Qabs_Qle_condition.
  split; lra.
Qed.

(** The shipping amount of a guest order is the one of the rule. *)
Lemma guest_checkout_shipping env session_id db f o db' :
  run (routers_orders.create_order_from_session_cart env session_id) db f
  = (Ok o, db') ->
  Order.shipping_amount o
  = shipping_rule
      (py_sum (map (guest_amount (products db))
                 (crud.session_rows session_id db))).
Proof.
  intros H. apply guest_checkout_amounts in H as (_ & _ & -> & _).
  unfold shipping_rule. now rewrite orb_comm.
Qed.

Lemma summary_amounts_Ok rows s amounts s' :
  for_list rows summary_amount_body s = (Ok amounts, s') ->
  amounts
  = map (fun c =>
           match products (working s) !! CartItem.product_id c with
           | Some p => Product.price p * inject_Z (CartItem.quantity c)
           | None => 0
           end) rows.
Proof.
  revert amounts s'. induction rows as [|c rows IH]; intros amounts s';
    cbn [for_list].
  - now intros [= <- _].
  - intros E. step E a s1. assert (Hc := Ea). unmoved Ea.
    step E l s1. assert (Hl := El). unmoved El.
    injection E as <- <-. cbn [map]. f_equal; [|exact (IH _ _ Hl)].
    unfold summary_amount_body, crud.product_of, crud.attr, bind,
      get_working, ret, raise in Hc.
    destruct (products (working s) !! CartItem.product_id c); [|discriminate].
    now injection Hc as <-.
Qed.

(** So is the one of the cart summary of a registered user. *)
Lemma get_cart_summary_shipping u db f summary db' :
  run (routers_cart.get_cart_summary u) db f = (Ok summary, db') ->
  let subtotal :=
    summary_subtotal (products db) (user_rows (User.id u) db) in
  db' = db
  /\ routers_cart.CartSummary.subtotal summary = round2 subtotal
  /\ routers_cart.CartSummary.shipping_amount summary
     = shipping_rule subtotal.
Proof.
  intros H subtotal. revert H. unfold run. fold (open_session db f).
  destruct (routers_cart.get_cart_summary u (open_session db f))
    as [r sf] eqn:E.
  intros [= -> <-]. unfold routers_cart.get_cart_summary in E.
  step E cart s1.
  assert (Hcart : cart = user_rows (User.id u) db).
  { unfold crud.get_user_cart, bind, get_working, ret in Ecart.
    now injection Ecart as <- _. }
  unmoved Ecart. subst cart.
  step E amounts s1.
  pose proof (summary_amounts_Ok _ _ _ _ Eamounts) as Hamounts.
  unmoved Eamounts. injection E as <- <-.
  cbn [routers_cart.CartSummary.subtotal
       routers_cart.CartSummary.shipping_amount open_session committed
       working] in Hamounts |- *.
  subst amounts. repeat split.
Qed.

(** And the one of the session cart, which never raises. *)
Lemma get_session_cart_shipping session_id db f :
  exists data,
    run (crud.get_session_cart session_id) db f = (Ok data, db)
    /\ crud.SessionCartData.shipping_amount data
       = shipping_rule
           (py_sum (map crud.SessionCartItemData.subtotal
                      (crud.SessionCartData.items data))).
Proof.
  eexists. split; [reflexivity|].
  cbn [crud.SessionCartData.shipping_amount crud.SessionCartData.items].
  unfold shipping_rule. now rewrite orb_comm.
Qed.

(** The checkout of a registered user charges by another rule, free only
    above 500.  The two agree except on a subtotal of exactly 500 and on a
    subtotal of zero. *)
Lemma registered_shipping_differs (subtotal : Q) :
  (if Qlt_bool 500 subtotal then 0 else 50) = shipping_rule subtotal
  <-> ~ (subtotal == 500 \/ subtotal == 0).
Proof.
  unfold shipping_rule, Qlt_bool.
  pose proof (Qeq_bool_iff subtotal 0) as H0.
  pose proof (Qle_bool_iff 500 subtotal) as H1.
  pose proof (Qle_bool_iff subtotal 500) as H2.
  destruct (Qeq_bool subtotal 0), (Qle_bool 500 subtotal),
    (Qle_bool subtotal 500); cbn [negb orb];
    repeat match goal with
      | H : true = true <-> ?P |- _ =>
          assert P by (apply H; reflexivity); clear H
      | H : false = true <-> ?P |- _ =>
          assert (~ P) by (intros X; apply H in X; discriminate); clear H
      end;
    (split;
     [ intros Heq; try discriminate Heq; intros [X|X]; lra
     | intros Hn; try reflexivity; exfalso; apply Hn;
       first [left; lra | right; lra] ]).
Qed.

Local Open Scope Z_scope.
Local Open Scope list_scope.

(** C3 fails on the checkout of a registered user.  A cart worth exactly 500
    is stored with a shipping amount of 50 and a total of 640, while the cart
    summary of the same cart shows shipping 0 and a total of 590. *)
Theorem registered_checkout_ships_500_at_a_fee :
  exists o db' summary,
    run (routers_orders.create_order_from_cart Scenario.env Scenario.alice)
      shop_500 None = (Ok o, db')
    /\ orders db' = [o]
    /\ Order.subtotal o == 500
    /\ Order.shipping_amount o == 50
    /\ Order.total_amount o == 640
    /\ run (routers_cart.get_cart_summary Scenario.alice) shop_500 None
       = (Ok summary, shop_500)
    /\ routers_cart.CartSummary.subtotal summary == 500
    /\ routers_cart.CartSummary.shipping_amount summary == 0
    /\ routers_cart.CartSummary.total_amount summary == 590.
Proof.
  do 3 eexists. split; [vm_compute; reflexivity|].
  split; [vm_compute; reflexivity|].
  repeat split; vm_compute; reflexivity.
Qed.

(** C4 fails on the checkout of a registered user.  The total is the sum of
    its parts and the tax is 18% of the subtotal, but nothing is rounded: for
    one unit at 0.25 the stored tax is 0.045 and the stored total 50.295.
    The guest checkout of the same cart stores 0.04 and 50.29. *)
Theorem registered_checkout_stores_unrounded_amounts :
  exists o db' g db'',
    run (routers_orders.create_order_from_cart Scenario.env Scenario.alice)
      shop_quarter None = (Ok o, db')
    /\ orders db' = [o]
    /\ Order.total_amount o
       == Order.subtotal o + Order.tax_amount o + Order.shipping_amount o
          - Order.discount_amount o
    /\ Order.tax_amount o == (18 # 100) * Order.subtotal o
    /\ Order.tax_amount o == 45 # 1000
    /\ Order.total_amount o == 50295 # 1000
    /\ ~ two_decimals (Order.tax_amount o)
    /\ ~ two_decimals (Order.total_amount o)
    /\ run (routers_orders.create_order_from_session_cart Scenario.env
              Scenario.guest) shop_quarter None = (Ok g, db'')
    /\ Order.tax_amount g == 4 # 100
    /\ Order.total_amount g == 5029 # 100.
Proof.
  do 4 eexists. split; [vm_compute; reflexivity|].
  split; [vm_compute; reflexivity|].
  do 4 (split; [vm_compute; reflexivity|]).
  split; [vm_compute; discriminate|].
  split; [vm_compute; discriminate|].
  split; [vm_compute; reflexivity|].
  split; vm_compute; reflexivity.
Qed.

(** * Stock after a successful checkout *)

(** After a successful checkout of a registered user, the stock of a tracked
    product is its stock before minus the quantities of the cart lines for
    it.  Nothing here keeps it from being negative. *)
Lemma registered_checkout_stock env u db f o db' k p :
  run (routers_orders.create_order_from_cart env u) db f = (Ok o, db') ->
  products db !! k = Some p ->
  Product.track_inventory p = true ->
  exists p',
    products db' !! k = Some p'
    /\ Product.track_inventory p' = true
    /\ Product.stock_quantity p'
       = Product.stock_quantity p
         - purchased k (user_lines (user_rows (User.id u) db)).
Proof.
  intros H Hp Ht. apply registered_checkout_result in H
    as (lines & _ & _ & _ & _ & _ & _ & _ & Hps & _).
  eexists. rewrite Hps, Hp. split; [reflexivity|].
  destruct (restock_tracked
              (- purchased k (user_lines (user_rows (User.id u) db))) p Ht)
    as [Ht' Hs].
  split; [exact Ht'|]. rewrite Hs. lia.
Qed.

(** After a successful guest checkout, the stock of a tracked product is its
    stock before minus the quantities of the cart rows for it, and it is not
    negative for any product of the cart. *)
Lemma guest_checkout_stock env session_id db f o db' k p :
  run (routers_orders.create_order_from_session_cart env session_id) db f
  = (Ok o, db') ->
  products db !! k = Some p ->
  Product.track_inventory p = true ->
  exists p',
    products db' !! k = Some p'
    /\ Product.track_inventory p' = true
    /\ Product.stock_quantity p'
       = Product.stock_quantity p
         - purchased k (session_lines (crud.session_rows session_id db))
    /\ (In k (map SessionCart.product_id (crud.session_rows session_id db)) ->
        0 <= Product.stock_quantity p').
Proof.
  intros H Hp Ht. apply guest_checkout_result in H
    as (items & _ & _ & _ & _ & _ & _ & _ & Hps & Hnonneg & _).
  destruct (restock_tracked
              (- purchased k
                   (session_lines (crud.session_rows session_id db))) p Ht)
    as [Ht' Hs].
  eexists. rewrite Hps, Hp. split; [reflexivity|].
  split; [exact Ht'|]. split; [rewrite Hs; lia|].
  intros Hin. apply in_map_iff in Hin as (c & <- & Hc).
  rewrite Forall_forall in Hnonneg.
  apply (Hnonneg c); [now apply list_elem_of_In | | exact Ht'].
  rewrite Hps, Hp. reflexivity.
Qed.

(** C5 fails on the checkout of a registered user.  Each line is compared
    with the whole stock, so two lines of three units pass against a stock of
    five, and the checkout leaves a tracked stock of -1. *)
Theorem registered_checkout_drives_stock_negative :
  exists o db',
    run (routers_orders.create_order_from_cart Scenario.env Scenario.alice)
      shop_two_variants None = (Ok o, db')
    /\ orders db' = [o]
    /\ Product.track_inventory <$> products shop_two_variants !! 1 = Some true
    /\ Product.stock_quantity <$> products shop_two_variants !! 1 = Some 5
    /\ Product.track_inventory <$> products db' !! 1 = Some true
    /\ Product.stock_quantity <$> products db' !! 1 = Some (-1).
Proof.
  do 2 eexists. split; [vm_compute; reflexivity|].
  repeat split; vm_compute; reflexivity.
Qed.

(** * Failure while persisting *)

(** Whatever a checkout returns and whichever write fails, the database is
    either exactly as it was, or holds the new order row: no stock is taken
    and no cart is cleared unless the order row is stored. *)
Lemma checkout_writes_order_first env owner db f r db' :
  run (checkout env owner) db f = (r, db') ->
  db' = db \/ exists o, orders db' = orders db ++ [o].
Proof.
  unfold run. fold (open_session db f).
  destruct (checkout env owner (open_session db f)) as [r0 sf] eqn:E.
  intros [= _ <-].
  destruct owner as [u|session_id]; cbn [checkout] in E.
  - unfold routers_orders.create_order_from_cart in E.
    step_or_stop E cart.
    destruct cart as [|c cart]; [injection E as _ <-; now left|].
    step_or_stop E v. step_or_stop E lines.
    rewrite create_order_unfold in E.
    apply bind_inv in E as [(order & s3 & Eorder & E) | (e & Eorder & _)].
    + step Eorder o' s2. unfold db_add_order in Eo'.
      cbn [open_session working new_orders] in Eo'. rewrite app_nil_r in Eo'.
      injection Eo' as <- <-.
      step Eorder t1 s4. destruct t1.
      eapply db_commit_order_Ok in Et1; [|reflexivity].
      destruct Et1 as [_ Hs4]. carry Hs4 Eorder. carry Eorder E.
      right. eexists. apply E.
    + apply bind_inv in Eorder
        as [(o' & s2 & Eo' & Eorder) | (e' & Eo' & _)]; [|discriminate Eo'].
      unfold db_add_order in Eo'.
      cbn [open_session working new_orders] in Eo'. rewrite app_nil_r in Eo'.
      injection Eo' as <- <-.
      apply bind_inv in Eorder
        as [(t1 & s4 & Et1 & Eorder) | (e' & Et1 & _)].
      * destruct t1. eapply db_commit_order_Ok in Et1; [|reflexivity].
        destruct Et1 as [_ Hs4]. carry Hs4 Eorder.
        right. eexists. apply Eorder.
      * apply db_commit_Raise in Et1. subst sf. now left.
  - unfold routers_orders.create_order_from_session_cart in E.
    step_or_stop E cart_data.
    destruct (crud.SessionCartData.items cart_data);
      [injection E as _ <-; now left|].
    assert (Hcrud : exists r1,
               crud.create_order_from_session_cart env session_id
                 (open_session db f) = (r1, sf)).
    { unfold bind, except_ValueError in E.
      destruct (crud.create_order_from_session_cart env session_id
                  (open_session db f)) as [[[order|]|e] s1].
      - injection E as _ <-. eauto.
      - injection E as _ <-. eauto.
      - destruct e; injection E as _ <-; eauto. }
    clear E. destruct Hcrud as [r1 E].
    unfold crud.create_order_from_session_cart in E.
    apply bind_inv in E as [(w & s1 & Ew & E) | (e & Ew & _)];
      [|discriminate Ew].
    unfold get_working in Ew. injection Ew as <- <-.
    cbn [open_session working] in E.
    destruct (crud.session_rows session_id db);
      [injection E as _ <-; now left|].
    fold (open_session db f) in E.
    step_or_stop E v. step_or_stop E amounts.
    apply bind_inv in E as [(o' & s2 & Eo' & E) | (e' & Eo' & _)];
      [|discriminate Eo'].
    unfold db_add_order in Eo'.
    cbn [open_session working new_orders] in Eo'. rewrite app_nil_r in Eo'.
    injection Eo' as <- <-.
    apply bind_inv in E as [(t1 & s4 & Et1 & E) | (e' & Et1 & _)].
    + destruct t1. eapply db_commit_order_Ok in Et1; [|reflexivity].
      destruct Et1 as [_ Hs4]. carry Hs4 E.
      right. eexists. apply E.
    + apply db_commit_Raise in Et1. subst sf. now left.
Qed.

(** C1 fails on both checkouts: the order row is committed on its own, before
    the line items.  When the second commit of the request fails, the order
    row stays in the database without any line item, against a cart of one
    line that is still there. *)
Theorem failed_checkout_leaves_order_without_items :
  (exists o db',
      run (routers_orders.create_order_from_cart Scenario.env Scenario.alice)
        Scenario.shop_100 (Some 1%nat) = (Raise OperationalError, db')
      /\ orders db' = [o]
      /\ order_items db' = []
      /\ cart_items db' = cart_items Scenario.shop_100
      /\ products db' = products Scenario.shop_100)
  /\ (exists o db',
      run (routers_orders.create_order_from_session_cart Scenario.env
             Scenario.guest) Scenario.shop_100 (Some 1%nat)
        = (Raise OperationalError, db')
      /\ orders db' = [o]
      /\ order_items db' = []
      /\ session_cart db' = session_cart Scenario.shop_100
      /\ products db' = products Scenario.shop_100).
Proof.
  split; do 2 eexists; (split; [vm_compute; reflexivity|]);
    repeat split; vm_compute; reflexivity.
Qed.

(** The same without any storage failure: two rows of a session cart for one
    product pass the validation one by one, the second fails the check made
    while the items are written, and the rollback made there cannot undo the
    order row committed before. *)
Lemma guest_rollback_keeps_order_row :
  exists o,
    run (routers_orders.create_order_from_session_cart Scenario.env
           Scenario.guest) shop_two_variants None
    = (Raise (HTTPException 400 (Insufficient_stock_available "A" 5)),
       set_orders shop_two_variants [o]).
Proof. eexists. vm_compute. reflexivity. Qed.

(** A failure of the last commit, the one that clears the cart, leaves the
    order, its line item and the stock taken, and the cart as it was; the
    request has failed, and the same request made again stores a second
    order and takes the stock a second time. *)
Lemma failed_cart_clearing_then_retry :
  exists o1 db1 o2 db2,
    run (routers_orders.create_order_from_cart Scenario.env Scenario.alice)
      Scenario.shop_100 (Some 3%nat) = (Raise OperationalError, db1)
    /\ orders db1 = [o1]
    /\ cart_items db1 = cart_items Scenario.shop_100
    /\ Product.stock_quantity <$> products db1 !! 1 = Some 3
    /\ run (routers_orders.create_order_from_cart
              {| today := "20240115";
                 uuid4 := "7c9e6679-7425-40de-944b-e07fc1f90ae7";
                 time := 1705312860 |} Scenario.alice) db1 None
       = (Ok o2, db2)
    /\ orders db2 = [o1; o2]
    /\ Product.stock_quantity <$> products db2 !! 1 = Some 1.
Proof.
  do 4 eexists. split; [vm_compute; reflexivity|].
  split; [vm_compute; reflexivity|]. split; [vm_compute; reflexivity|].
  split; [vm_compute; reflexivity|]. split; [vm_compute; reflexivity|].
  split; vm_compute; reflexivity.
Qed.

(** * Cancelling an order *)

(** The shop with alice's order in it is the one her checkout leaves. *)
Lemma shop_ordered_by_checkout :
  run (checkout Scenario.env (Registered Scenario.alice)) Scenario.shop_100
    None
  = (Ok Sample.alice_order, Sample.shop_ordered).
Proof. vm_compute. reflexivity. Qed.

Lemma restore_stock_step item db :
  exists ps',
    restore_stock_body item (open_session db None)
    = (Ok tt, open_session (set_products db ps') None)
    /\ forall k,
        ps' !! k
        = restock (if OrderItem.product_id item =? k
                   then OrderItem.quantity item else 0)
            <$> products db !! k.
Proof.
  unfold restore_stock_body, crud.get_product_by_id, get_working.
  unfold bind at 1. unfold bind at 1. cbn [open_session working ret].
  destruct (products db !! OrderItem.product_id item) as [p|] eqn:Hp.
  - destruct (Product.track_inventory p) eqn:Ht.
    + exists (alter (fun p0 => Product.with_stock p0
                       (Product.stock_quantity p + OrderItem.quantity item))
                (OrderItem.product_id item) (products db)).
      split.
      * unfold crud.set_stock_quantity, modify_working, bind.
        cbn [working committed new_orders new_items fault].
        rewrite db_commit_clean by reflexivity. reflexivity.
      * intros k.
        destruct (Z.eqb_spec (OrderItem.product_id item) k) as [Heq|Hne].
        -- subst k. rewrite lookup_alter_eq, Hp. cbn.
           unfold restock. now rewrite Ht.
        -- rewrite lookup_alter_ne by exact Hne.
           destruct (products db !! k); cbn; [|reflexivity].
           now rewrite restock_0.
    + exists (products db). split.
      * unfold ret. now rewrite set_products_same.
      * intros k.
        destruct (Z.eqb_spec (OrderItem.product_id item) k) as [Heq|Hne].
        -- subst k. rewrite Hp. cbn. unfold restock. now rewrite Ht.
        -- destruct (products db !! k); cbn; [|reflexivity].
           now rewrite restock_0.
  - exists (products db). split.
    + unfold ret. now rewrite set_products_same.
    + intros k.
      destruct (Z.eqb_spec (OrderItem.product_id item) k) as [Heq|Hne].
      * subst k. now rewrite Hp.
      * destruct (products db !! k); cbn; [|reflexivity].
        now rewrite restock_0.
Qed.

Lemma restore_stock_loop items db :
  exists ps',
    for_each items restore_stock_body (open_session db None)
    = (Ok tt, open_session (set_products db ps') None)
    /\ forall k,
        ps' !! k = restock (ordered_quantity k items) <$> products db !! k.
Proof.
  revert db. induction items as [|item items IH]; intros db.
  - exists (products db). split.
    + cbn. unfold ret. now rewrite set_products_same.
    + intros k. cbn. destruct (products db !! k); cbn; [|reflexivity].
      now rewrite restock_0.
  - destruct (restore_stock_step item db) as (ps1 & Hstep & Hps1).
    destruct (IH (set_products db ps1)) as (ps2 & Hloop & Hps2).
    exists ps2. split.
    + cbn [for_each]. rewrite (bind_step _ _ _ _ _ Hstep), Hloop.
      reflexivity.
    + intros k. rewrite Hps2. cbn [products set_products]. rewrite Hps1.
      cbn [ordered_quantity].
      destruct (products db !! k); cbn; [|reflexivity].
      now rewrite restock_restock.
Qed.

Lemma update_order_status_clean db order_id st o :
  List.find (has_id order_id) (orders db) = Some o ->
  crud.update_order_status order_id st (open_session db None)
  = (Ok (Some (Order.with_status o st)),
     open_session
       (set_orders db
          (update_first (has_id order_id) (fun o => Order.with_status o st)
             (orders db))) None).
Proof.
  intros Hfind. unfold crud.update_order_status, get_working.
  unfold bind at 1. cbn [open_session working].
  fold (has_id order_id). rewrite Hfind.
  unfold modify_working, bind.
  cbn [working committed new_orders new_items fault].
  rewrite db_commit_clean by reflexivity. reflexivity.
Qed.

Lemma cancel_order_unfold order_id u :
  routers_orders.cancel_order order_id u
  = (db_order <- crud.get_order_by_id order_id ;;
     match db_order with
     | None => raise (HTTPException 404 Order_not_found)
     | Some db_order =>
       if negb (owns u db_order) && negb (is_admin u)
       then raise (HTTPException 403 Not_authorized_to_cancel)
       else if negb (existsb (OrderStatus.eqb (Order.status db_order))
                       [OrderStatus.PENDING; OrderStatus.CONFIRMED])
       then raise (HTTPException 400 Order_cannot_be_cancelled)
       else
         db_order <- crud.update_order_status order_id OrderStatus.CANCELLED ;;
         db_order <- (match db_order with
                      | Some o => ret o
                      | None => raise AttributeError
                      end) ;;
         items <- crud.order_items_of (Order.id db_order) ;;
         for_each items restore_stock_body
     end).
Proof. reflexivity. Qed.

Lemma find_has_id order_id os o :
  List.find (has_id order_id) os = Some o -> Order.id o = order_id.
Proof.
  intros H. apply find_some in H as [_ H]. unfold has_id in H. lia.
Qed.

(** C6.  For an order that exists, [cancel_order] is refused with HTTP 403
    when the requestor neither owns the order nor is an administrator, and
    with HTTP 400 when the order is not pending or confirmed; a refusal
    changes nothing.  Otherwise it succeeds: the order is now [CANCELLED],
    every product that tracks its stock got back exactly the quantities of
    the line items of the order that refer to it, and nothing else
    changed. *)
Theorem cancel_order_correct
    (db : DB) (order_id : Z) (u : User.t) (o : Order.t)
    (Ho : List.find (has_id order_id) (orders db) = Some o) :
  let items :=
    List.filter (fun i => OrderItem.order_id i =? order_id) (order_items db) in
  let cancel := run (routers_orders.cancel_order order_id u) db None in
  (owns u o || is_admin u = false ->
     cancel = (Raise (HTTPException 403 Not_authorized_to_cancel), db))
  /\ (owns u o || is_admin u = true -> pending_or_confirmed o = false ->
     cancel = (Raise (HTTPException 400 Order_cannot_be_cancelled), db))
  /\ (owns u o || is_admin u = true -> pending_or_confirmed o = true ->
     exists db' l1 l2,
       cancel = (Ok tt, db')
       /\ orders db = l1 ++ o :: l2
       /\ Forall (fun r => has_id order_id r = false) l1
       /\ orders db' = l1 ++ Order.with_status o OrderStatus.CANCELLED :: l2
       /\ (forall k,
             products db' !! k
             = restock (ordered_quantity k items) <$> products db !! k)
       /\ order_items db' = order_items db
       /\ cart_items db' = cart_items db
       /\ session_cart db' = session_cart db).
Proof.
  intros items cancel. unfold cancel, run. rewrite cancel_order_unfold.
  fold (open_session db None).
  assert (Hget : crud.get_order_by_id order_id (open_session db None)
                 = (Ok (Some o), open_session db None)).
  { unfold crud.get_order_by_id, get_working, bind, ret.
    cbn [open_session working]. fold (has_id order_id). now rewrite Ho. }
  rewrite (bind_step _ _ _ _ _ Hget).
  assert (Hst : existsb (OrderStatus.eqb (Order.status o))
                  [OrderStatus.PENDING; OrderStatus.CONFIRMED]
                = pending_or_confirmed o).
  { unfold pending_or_confirmed. now destruct (Order.status o). }
  rewrite Hst, <- negb_orb.
  split; [|split].
  - intros ->. reflexivity.
  - intros -> ->. reflexivity.
  - intros -> ->. cbn [negb].
    rewrite (bind_step _ _ _ _ _
               (update_order_status_clean db order_id OrderStatus.CANCELLED o Ho)).
    unfold ret at 1. unfold bind at 1.
    unfold crud.order_items_of at 1, get_working, bind at 1, bind at 1, ret at 1.
    cbn [open_session working order_items set_orders Order.id Order.with_status].
    rewrite (find_has_id _ _ _ Ho). fold items.
    fold (open_session
            (set_orders db
               (update_first (has_id order_id)
                  (fun o => Order.with_status o OrderStatus.CANCELLED)
                  (orders db))) None).
    destruct (restore_stock_loop items
                (set_orders db
                   (update_first (has_id order_id)
                      (fun o => Order.with_status o OrderStatus.CANCELLED)
                      (orders db)))) as (ps' & Hloop & Hps).
    destruct (find_split _ _ _ Ho) as (l1 & l2 & Hl & _ & Hl1 & _ & Hu).
    eexists _, l1, l2. rewrite Hloop. cbn [open_session committed].
    split; [reflexivity|]. split; [exact Hl|]. split; [exact Hl1|].
    split; [cbn; apply Hu|]. split; [exact Hps|].
    repeat split.
Qed.

Lemma cancel_order_correct_witness :
  List.find (has_id 1) (orders Sample.shop_ordered)
  = Some Sample.alice_order
  /\ owns Scenario.alice Sample.alice_order
     || is_admin Scenario.alice = true
  /\ pending_or_confirmed Sample.alice_order = true
  /\ exists db',
      run (routers_orders.cancel_order 1 Scenario.alice)
        Sample.shop_ordered None = (Ok tt, db')
      /\ map Order.status (orders db') = [OrderStatus.CANCELLED]
      /\ Product.stock_quantity <$> products Sample.shop_ordered !! 1
         = Some 3
      /\ Product.stock_quantity <$> products db' !! 1 = Some 5.
Proof.
  split; [reflexivity|]. split; [reflexivity|]. split; [reflexivity|].
  destruct (cancel_order_correct Sample.shop_ordered 1 Scenario.alice
              Sample.alice_order eq_refl) as (_ & _ & H).
  destruct (H eq_refl eq_refl)
    as (db' & l1 & l2 & Hrun & Hl & _ & Hos & Hps & _).
  exists db'. split; [exact Hrun|].
  destruct l1 as [|x l1]; [|destruct l1; discriminate Hl].
  injection Hl as <-.
  split; [rewrite Hos; reflexivity|]. split; [vm_compute; reflexivity|].
  rewrite Hps. vm_compute. reflexivity.
Defined.
(** * The carts *)

Lemma db_commit_write db0 db f :
  db_commit {| committed := db0; working := db; new_orders := [];
               new_items := []; fault := f |}
  = match f with
    | Some O => (Raise OperationalError,
                 {| committed := db0; working := db; new_orders := [];
                    new_items := []; fault := f |})
    | _ => (Ok tt, open_session db (tick f))
    end.
Proof.
  unfold db_commit. cbn [fault working new_orders new_items flush_orders].
  rewrite set_orders_items_id. now destruct f as [[|k]|].
Qed.

Lemma set_cart_items_cart_items db rows :
  set_cart_items db rows = set_cart_items (set_cart_items db rows) rows.
Proof. reflexivity. Qed.

Lemma same_cart_line_key user_id item c :
  same_cart_line user_id item c = true
  <-> cart_key c
      = (user_id, CartItemCreate.product_id item,
         CartItemCreate.variant_id item).
Proof.
  unfold same_cart_line, cart_key. rewrite !andb_true_iff, !Z.eqb_eq.
  split.
  - intros [[-> ->] H]. f_equal.
    destruct (CartItem.variant_id c), (CartItemCreate.variant_id item);
      cbn in H; try discriminate; [apply Z.eqb_eq in H; now subst|reflexivity].
  - intros [= -> -> ->]. repeat split.
    destruct (CartItemCreate.variant_id item); cbn; [apply Z.eqb_refl|reflexivity].
Qed.

Lemma find_none_Forall {A} (p : A -> bool) l :
  List.find p l = None -> Forall (fun x => p x = false) l.
Proof.
  induction l as [|x l IH]; cbn; [constructor|].
  destruct (p x) eqn:Hx; [discriminate|]. intros H. constructor; auto.
Qed.

(** What a request on the cart of a registered user can make of the
    [cart_items] table; it touches nothing else. *)
Lemma cart_request_effect request (u : User.t) db f r db' :
  run (cart_request request u) db f = (r, db') ->
  db' = set_cart_items db (cart_items db')
  /\ (cart_items db' = cart_items db
      \/ (exists l1 c q l2,
             cart_items db = l1 ++ c :: l2 /\ CartItem.user_id c = User.id u
             /\ cart_items db' = l1 ++ CartItem.with_quantity c q :: l2)
      \/ (exists c,
             CartItem.user_id c = User.id u
             /\ ~ In (cart_key c) (map cart_key (cart_items db))
             /\ cart_items db' = cart_items db ++ [c])
      \/ (exists l1 c l2,
             cart_items db = l1 ++ c :: l2 /\ CartItem.user_id c = User.id u
             /\ cart_items db' = l1 ++ l2)
      \/ cart_items db'
         = List.filter (fun c => negb (CartItem.user_id c =? User.id u))
             (cart_items db)).
Proof.
  assert (Hsame : db = set_cart_items db (cart_items db)) by now destruct db.
  destruct request as [item|cart_item_id upd|cart_item_id|]; unfold run, cart_request.
  - (* add *)
    unfold routers_cart.add_to_cart, crud.add_to_cart, crud.get_product_by_id,
      bind, get_working, ret. cbn [working].
    destruct (products db !! _) as [p|];
      [|intros [= <- <-]; cbn; auto].
    destruct (negb _); [intros [= <- <-]; cbn; auto|].
    destruct (Product.track_inventory p && _);
      [intros [= <- <-]; cbn; auto|].
    fold (same_cart_line (User.id u) item).
    destruct (List.find _ _) as [c|] eqn:Hfind.
    + unfold modify_working. cbn [working committed new_orders new_items fault].
      rewrite db_commit_write.
      apply find_split in Hfind as (l1 & l2 & Hrows & Hc & _ & _ & Hupd).
      destruct f as [[|k]|]; intros [= <- <-]; cbn; auto;
        (split; [reflexivity|]); right; left;
        exists l1, c, (CartItem.quantity c + CartItemCreate.quantity item), l2;
        (split; [exact Hrows|]); (split; [|apply Hupd]);
        unfold same_cart_line in Hc; rewrite !andb_true_iff, Z.eqb_eq in Hc;
        tauto.
    + unfold db_add_cart_item.
      cbn [working committed new_orders new_items fault].
      rewrite db_commit_write.
      apply find_none_Forall in Hfind.
      destruct f as [[|k]|]; intros [= <- <-]; cbn; auto;
        (split; [reflexivity|]); right; right; left;
        eexists; (split; [|split; [|reflexivity]]); cbn; try reflexivity;
        rewrite in_map_iff; intros (c & Hkey & Hin);
        rewrite Forall_forall in Hfind;
        apply list_elem_of_In, Hfind in Hin;
        apply (same_cart_line_key (User.id u) item) in Hkey; congruence.
  - (* update *)
    unfold routers_cart.update_cart_item.
    destruct (_ <=? 0); [unfold bind, raise; intros [= <- <-]; cbn; auto|].
    unfold crud.update_cart_item, bind, get_working, ret. cbn [working].
    fold (user_line cart_item_id (User.id u)).
    destruct (List.find _ _) as [c|] eqn:Hfind;
      [|unfold raise; intros [= <- <-]; cbn; auto].
    unfold modify_working. cbn [working committed new_orders new_items fault].
    rewrite db_commit_write.
    apply find_split in Hfind as (l1 & l2 & Hrows & Hc & _ & _ & Hupd).
    destruct f as [[|k]|]; intros [= <- <-]; cbn; auto;
      (split; [reflexivity|]); right; left;
      exists l1, c, (CartItemUpdate.quantity upd), l2;
      (split; [exact Hrows|]); (split; [|apply Hupd]);
      unfold user_line in Hc; rewrite andb_true_iff, !Z.eqb_eq in Hc; tauto.
  - (* remove *)
    unfold routers_cart.remove_from_cart, crud.remove_from_cart, bind,
      get_working, ret. cbn [working].
    fold (user_line cart_item_id (User.id u)).
    destruct (List.find _ _) as [c|] eqn:Hfind;
      [|intros [= <- <-]; cbn; auto].
    unfold modify_working. cbn [working committed new_orders new_items fault].
    rewrite db_commit_write.
    apply find_split in Hfind as (l1 & l2 & Hrows & Hc & _ & Hdel & _).
    destruct f as [[|k]|]; intros [= <- <-]; cbn; auto;
      (split; [reflexivity|]); right; right; right; left;
      exists l1, c, l2;
      (split; [exact Hrows|]); (split; [|apply Hdel]);
      unfold user_line in Hc; rewrite andb_true_iff, !Z.eqb_eq in Hc; tauto.
  - (* clear *)
    unfold routers_cart.clear_cart, crud.clear_user_cart, bind, modify_working.
    cbn [working committed new_orders new_items fault].
    rewrite db_commit_write.
    destruct f as [[|k]|]; intros [= <- <-]; cbn; auto 10.
Qed.

Lemma NoDup_map_filter {A B} (g : A -> B) (p : A -> bool) (l : list A) :
  NoDup (map g l) -> NoDup (map g (List.filter p l)).
Proof.
  induction l as [|x l IH]; cbn; [auto|].
  rewrite NoDup_cons. intros [Hx Hl].
  destruct (p x); cbn; [|auto].
  apply NoDup_cons. split; [|auto].
  rewrite list_elem_of_In, in_map_iff in *.
  intros (y & Hy & Hin). apply Hx. exists y. split; [exact Hy|].
  apply filter_In in Hin. tauto.
Qed.

Lemma NoDup_map_delete {A B} (g : A -> B) (l1 l2 : list A) (x : A) :
  NoDup (map g (l1 ++ x :: l2)) -> NoDup (map g (l1 ++ l2)).
Proof.
  rewrite !map_app. cbn. rewrite !NoDup_app.
  intros (H1 & H2 & H3). apply NoDup_cons in H3 as [_ H3].
  split; [exact H1|]. split; [|exact H3].
  intros y Hy Hin. apply (H2 y Hy). now right.
Qed.

(** X4.  If no two lines of the [cart_items] table are of the
    same user, product and variant, then this is still so after a request to
    add to the cart of a user, to set the quantity of a line, to remove a
    line or to clear the cart, whatever the request answers and whether or
    not the storage fails. *)
Theorem cart_keeps_one_line_per_variant
    (request : CartRequest) (u : User.t) (db : DB) (f : option nat)
    (r : Result unit) (db' : DB) :
  one_line_per_variant db ->
  run (cart_request request u) db f = (r, db') ->
  one_line_per_variant db'.
Proof.
  unfold one_line_per_variant. intros Hdb Hrun.
  apply cart_request_effect in Hrun as [_ H].
  destruct H as [-> |[(l1 & c & q & l2 & Hrows & _ & ->)
    |[(c & _ & Hfresh & ->)|[(l1 & c & l2 & Hrows & _ & ->)| -> ]]]].
  - exact Hdb.
  - rewrite Hrows in Hdb. rewrite map_app in *. exact Hdb.
  - rewrite map_app. cbn. apply NoDup_app. split; [exact Hdb|].
    split; [|apply NoDup_singleton].
    intros k Hk Hin. apply list_elem_of_In in Hk.
    apply list_elem_of_In in Hin as [E|[]]. subst k. contradiction.
  - rewrite Hrows in Hdb. now apply NoDup_map_delete in Hdb.
  - now apply NoDup_map_filter.
Qed.

(** X5.  A request of a user to add to the cart, to set the
    quantity of a line, to remove a line or to clear the cart leaves the
    cart lines of every other user as they were, also when it gives the id
    of a line of another user; and it changes no other table. *)
Theorem cart_of_another_user_untouched
    (request : CartRequest) (u : User.t) (db : DB) (f : option nat)
    (r : Result unit) (db' : DB) (v : Z) :
  run (cart_request request u) db f = (r, db') ->
  v <> User.id u ->
  user_rows v db' = user_rows v db
  /\ products db' = products db
  /\ session_cart db' = session_cart db
  /\ orders db' = orders db
  /\ order_items db' = order_items db.
Proof.
  intros Hrun Hv. apply cart_request_effect in Hrun as [Hdb H].
  split; [|rewrite Hdb; cbn; auto].
  unfold user_rows.
  destruct H as [-> |[(l1 & c & q & l2 & -> & Hc & ->)
    |[(c & Hc & _ & ->)|[(l1 & c & l2 & -> & Hc & ->)| -> ]]]].
  - reflexivity.
  - rewrite !List.filter_app. cbn. rewrite Hc.
    destruct (Z.eqb_spec (User.id u) v); [congruence|reflexivity].
  - rewrite List.filter_app. cbn. rewrite Hc.
    destruct (Z.eqb_spec (User.id u) v); [congruence|apply app_nil_r].
  - rewrite !List.filter_app. cbn. rewrite Hc.
    destruct (Z.eqb_spec (User.id u) v); [congruence|reflexivity].
  - induction (cart_items db) as [|c l IH]; cbn; [reflexivity|].
    destruct (Z.eqb_spec (CartItem.user_id c) (User.id u)) as [E|E]; cbn.
    + destruct (Z.eqb_spec (CartItem.user_id c) v); [congruence|exact IH].
    + destruct (CartItem.user_id c =? v); [f_equal|]; exact IH.
Qed.

Lemma same_session_row_key session_id product_id c :
  same_session_row session_id product_id c = true
  <-> session_key c = (session_id, product_id).
Proof.
  unfold same_session_row, session_key.
  rewrite andb_true_iff, Z.eqb_eq, String.eqb_eq.
  split; [intros [-> ->]; reflexivity|intros [= -> ->]; auto].
Qed.

(** What a request on the cart of a guest session can make of the
    [session_cart] table; it touches nothing else. *)
Lemma session_cart_request_effect request session_id db f r db' :
  run (session_cart_request request session_id) db f = (r, db') ->
  db' = set_session_cart db (session_cart db')
  /\ (session_cart db' = session_cart db
      \/ (exists l1 c q l2,
             session_cart db = l1 ++ c :: l2
             /\ SessionCart.session_id c = session_id
             /\ session_cart db' = l1 ++ SessionCart.with_quantity c q :: l2)
      \/ (exists c,
             SessionCart.session_id c = session_id
             /\ ~ In (session_key c) (map session_key (session_cart db))
             /\ session_cart db' = session_cart db ++ [c])
      \/ (exists l1 c l2,
             session_cart db = l1 ++ c :: l2
             /\ SessionCart.session_id c = session_id
             /\ session_cart db' = l1 ++ l2)
      \/ session_cart db'
         = List.filter
             (fun c => negb (String.eqb (SessionCart.session_id c) session_id))
             (session_cart db)).
Proof.
  assert (Hsame : db = set_session_cart db (session_cart db))
    by now destruct db.
  destruct request as [item|upd|product_id|];
    unfold run, session_cart_request.
  - (* add *)
    unfold routers_cart.add_to_session_cart, crud.add_to_session_cart,
      crud.get_product_by_id, bind, get_working, ret. cbn [working].
    destruct (products db !! _) as [p|];
      [|intros [= <- <-]; cbn; auto].
    destruct (negb _); [intros [= <- <-]; cbn; auto|].
    destruct (Product.track_inventory p && _);
      [intros [= <- <-]; cbn; auto|].
    fold (same_session_row session_id (CartItemCreate.product_id item)).
    destruct (List.find _ _) as [c|] eqn:Hfind.
    + unfold modify_working. cbn [working committed new_orders new_items fault].
      rewrite db_commit_write.
      apply find_split in Hfind as (l1 & l2 & Hrows & Hc & _ & _ & Hupd).
      destruct f as [[|k]|]; intros [= <- <-]; cbn; auto;
        (split; [reflexivity|]); right; left;
        exists l1, c, (SessionCart.quantity c + CartItemCreate.quantity item),
          l2;
        (split; [exact Hrows|]); (split; [|apply Hupd]);
        unfold same_session_row in Hc;
        rewrite andb_true_iff, String.eqb_eq in Hc; tauto.
    + unfold db_add_session_cart.
      cbn [working committed new_orders new_items fault].
      rewrite db_commit_write.
      apply find_none_Forall in Hfind.
      destruct f as [[|k]|]; intros [= <- <-]; cbn; auto;
        (split; [reflexivity|]); right; right; left;
        eexists; (split; [|split; [|reflexivity]]); cbn; try reflexivity;
        rewrite in_map_iff; intros (c & Hkey & Hin);
        rewrite Forall_forall in Hfind;
        apply list_elem_of_In, Hfind in Hin;
        apply (same_session_row_key session_id
                 (CartItemCreate.product_id item)) in Hkey; congruence.
  - (* update *)
    unfold routers_cart.update_session_cart_item,
      crud.update_session_cart_item, bind, get_working, ret. cbn [working].
    fold (same_session_row session_id (CartItemUpdate.product_id upd)).
    destruct (List.find _ _) as [c|] eqn:Hfind;
      [|unfold raise; intros [= <- <-]; cbn; auto].
    apply find_split in Hfind as (l1 & l2 & Hrows & Hc & _ & Hdel & Hupd).
    unfold same_session_row in Hc. rewrite andb_true_iff, String.eqb_eq in Hc.
    destruct (CartItemUpdate.quantity upd <=? 0);
      unfold modify_working; cbn [working committed new_orders new_items fault];
      rewrite db_commit_write;
      destruct f as [[|k]|]; intros [= <- <-]; cbn; auto;
      (split; [reflexivity|]); right.
    1-2: right; right; left; exists l1, c, l2;
         (split; [exact Hrows|]); (split; [tauto|apply Hdel]).
    1-2: left; exists l1, c, (CartItemUpdate.quantity upd), l2;
         (split; [exact Hrows|]); (split; [tauto|apply Hupd]).
  - (* remove *)
    unfold routers_cart.remove_from_session_cart,
      crud.remove_from_session_cart, bind, get_working, ret. cbn [working].
    fold (same_session_row session_id product_id).
    destruct (List.find _ _) as [c|] eqn:Hfind;
      [|intros [= <- <-]; cbn; auto].
    unfold modify_working. cbn [working committed new_orders new_items fault].
    rewrite db_commit_write.
    apply find_split in Hfind as (l1 & l2 & Hrows & Hc & _ & Hdel & _).
    unfold same_session_row in Hc. rewrite andb_true_iff, String.eqb_eq in Hc.
    destruct f as [[|k]|]; intros [= <- <-]; cbn; auto;
      (split; [reflexivity|]); right; right; right; left;
      exists l1, c, l2;
      (split; [exact Hrows|]); (split; [tauto|apply Hdel]).
  - (* clear *)
    unfold routers_cart.clear_session_cart, crud.clear_session_cart, bind,
      modify_working, ret.
    cbn [working committed new_orders new_items fault].
    rewrite db_commit_write.
    destruct f as [[|k]|]; intros [= <- <-]; cbn; auto 10.
Qed.

(** X6.  If no two rows of the [session_cart] table are
    of the same session and product, then this is still so after a request
    to add to the cart of a session, to set the quantity of a product, to
    remove a product or to clear the cart, whatever the request answers and
    whether or not the storage fails. *)
Theorem session_cart_keeps_one_row_per_product
    (request : SessionCartRequest) (session_id : string) (db : DB)
    (f : option nat) (r : Result unit) (db' : DB) :
  one_row_per_product db ->
  run (session_cart_request request session_id) db f = (r, db') ->
  one_row_per_product db'.
Proof.
  unfold one_row_per_product. intros Hdb Hrun.
  apply session_cart_request_effect in Hrun as [_ H].
  destruct H as [-> |[(l1 & c & q & l2 & Hrows & _ & ->)
    |[(c & _ & Hfresh & ->)|[(l1 & c & l2 & Hrows & _ & ->)| -> ]]]].
  - exact Hdb.
  - rewrite Hrows in Hdb. rewrite map_app in *. exact Hdb.
  - rewrite map_app. cbn. apply NoDup_app. split; [exact Hdb|].
    split; [|apply NoDup_singleton].
    intros k Hk Hin. apply list_elem_of_In in Hk.
    apply list_elem_of_In in Hin as [E|[]]. subst k. contradiction.
  - rewrite Hrows in Hdb. now apply NoDup_map_delete in Hdb.
  - now apply NoDup_map_filter.
Qed.

(** X7.  A request on the cart of one session leaves the
    rows of every other session as they were, and it changes no other
    table. *)
Theorem cart_of_another_session_untouched
    (request : SessionCartRequest) (session_id : string) (db : DB)
    (f : option nat) (r : Result unit) (db' : DB) (other : string) :
  run (session_cart_request request session_id) db f = (r, db') ->
  other <> session_id ->
  crud.session_rows other db' = crud.session_rows other db
  /\ products db' = products db
  /\ cart_items db' = cart_items db
  /\ orders db' = orders db
  /\ order_items db' = order_items db.
Proof.
  intros Hrun Hv. apply session_cart_request_effect in Hrun as [Hdb H].
  split; [|rewrite Hdb; cbn; auto].
  unfold crud.session_rows.
  destruct H as [-> |[(l1 & c & q & l2 & -> & Hc & ->)
    |[(c & Hc & _ & ->)|[(l1 & c & l2 & -> & Hc & ->)| -> ]]]].
  - reflexivity.
  - rewrite !List.filter_app. cbn. rewrite Hc.
    destruct (String.eqb_spec session_id other); [congruence|reflexivity].
  - rewrite List.filter_app. cbn. rewrite Hc.
    destruct (String.eqb_spec session_id other); [congruence|apply app_nil_r].
  - rewrite !List.filter_app. cbn. rewrite Hc.
    destruct (String.eqb_spec session_id other); [congruence|reflexivity].
  - induction (session_cart db) as [|c l IH]; cbn; [reflexivity|].
    destruct (String.eqb_spec (SessionCart.session_id c) session_id) as [E|E];
      cbn.
    + destruct (String.eqb_spec (SessionCart.session_id c) other);
        [congruence|exact IH].
    + destruct (String.eqb (SessionCart.session_id c) other); [f_equal|];
        exact IH.
Qed.

Lemma next_id_above ids x : In x ids -> x < next_id ids.
Proof.
  unfold next_id. induction ids as [|y ids IH]; cbn; [tauto|].
  intros [->|H]; [lia|]. apply IH in H. lia.
Qed.

Lemma find_app_last {A} (p : A -> bool) (l : list A) (x : A) :
  Forall (fun y => p y = false) l -> p x = true ->
  List.find p (l ++ [x]) = Some x /\ delete_first p (l ++ [x]) = l.
Proof.
  intros Hl Hx. induction Hl as [|y l Hy _ IH]; cbn.
  - now rewrite Hx.
  - rewrite Hy. destruct IH as [-> ->]. auto.
Qed.

(** X3.  [add_to_cart] and [add_to_session_cart] refuse the
    same requests: with 404 when the product does not exist, with 400 when
    it is not active, and with 400 when it tracks its stock and the stock is
    below the quantity of the request.  A refused request changes nothing,
    and no other request is refused. *)
Theorem add_to_cart_refusal
    (cart_item : CartItemCreate.t) (u : User.t) (session_id : string)
    (db : DB) (f : option nat) :
  (forall code detail,
      add_problem (products db) cart_item = Some (code, detail) ->
      run (routers_cart.add_to_cart cart_item u) db f
      = (Ok (Refused code detail), db)
      /\ run (routers_cart.add_to_session_cart session_id cart_item) db f
         = (Ok (Refused code detail), db))
  /\ (add_problem (products db) cart_item = None ->
      forall code detail db',
        run (routers_cart.add_to_cart cart_item u) db f
        <> (Ok (Refused code detail), db')
        /\ run (routers_cart.add_to_session_cart session_id cart_item) db f
           <> (Ok (Refused code detail), db')).
Proof.
  unfold add_problem, run, routers_cart.add_to_cart,
    routers_cart.add_to_session_cart, crud.get_product_by_id, bind,
    get_working, ret.
  cbn [working].
  destruct (products db !! _) as [p|];
    [|split; [intros ? ? [= <- <-]; auto|discriminate]].
  destruct (negb _); [split; [intros ? ? [= <- <-]; auto|discriminate]|].
  destruct (Product.track_inventory p && _);
    [split; [intros ? ? [= <- <-]; auto|discriminate]|].
  split; [discriminate|]. intros _ code detail db'. split.
  - destruct (crud.add_to_cart _ _ _) as [[a|e] s]; discriminate.
  - destruct (crud.add_to_session_cart _ _ _) as [[a|e] s]; discriminate.
Qed.

(** What an accepted [add_to_cart] has done. *)
Lemma add_to_cart_accepted
    (cart_item : CartItemCreate.t) (u : User.t) (db : DB) (f : option nat)
    (line : CartItem.t) (db' : DB) :
  run (routers_cart.add_to_cart cart_item u) db f
  = (Ok (Accepted line), db') ->
  add_problem (products db) cart_item = None
  /\ db' = set_cart_items db (cart_items db')
  /\ match List.find (same_cart_line (User.id u) cart_item) (cart_items db)
     with
     | Some c =>
         line = CartItem.with_quantity c
                  (CartItem.quantity c + CartItemCreate.quantity cart_item)
         /\ exists l1 l2,
             cart_items db = l1 ++ c :: l2
             /\ Forall (fun r => same_cart_line (User.id u) cart_item r
                                 = false) l1
             /\ cart_items db' = l1 ++ line :: l2
     | None =>
         line = {| CartItem.id := next_id (map CartItem.id (cart_items db));
                   CartItem.user_id := User.id u;
                   CartItem.product_id := CartItemCreate.product_id cart_item;
                   CartItem.variant_id := CartItemCreate.variant_id cart_item;
                   CartItem.quantity := CartItemCreate.quantity cart_item |}
         /\ ~ In (CartItem.id line) (map CartItem.id (cart_items db))
         /\ cart_items db' = cart_items db ++ [line]
     end.
Proof.
  unfold add_problem, run, routers_cart.add_to_cart, crud.add_to_cart,
    crud.get_product_by_id, bind, get_working, ret.
  cbn [working].
  destruct (products db !! _) as [p|]; [|discriminate].
  destruct (negb _); [discriminate|].
  destruct (Product.track_inventory p && _); [discriminate|].
  fold (same_cart_line (User.id u) cart_item).
  destruct (List.find _ _) as [c|] eqn:Hfind.
  - unfold modify_working. cbn [working committed new_orders new_items fault].
    rewrite db_commit_write.
    apply find_split in Hfind as (l1 & l2 & Hrows & _ & Hl1 & _ & Hupd).
    destruct f as [[|k]|]; intros [= <- <-]; cbn;
      (split; [reflexivity|]); (split; [reflexivity|]);
      (split; [reflexivity|]); exists l1, l2; rewrite Hupd; auto.
  - unfold db_add_cart_item.
    cbn [working committed new_orders new_items fault].
    rewrite db_commit_write.
    destruct f as [[|k]|]; intros [= <- <-]; cbn;
      (split; [reflexivity|]); (split; [reflexivity|]);
      (split; [reflexivity|]); (split; [|reflexivity]);
      intros Hin; apply next_id_above in Hin; lia.
Qed.

(** What an accepted [add_to_session_cart] has done. *)
Lemma add_to_session_cart_accepted
    (cart_item : CartItemCreate.t) (session_id : string) (db : DB)
    (f : option nat) (row : SessionCart.t) (db' : DB) :
  run (routers_cart.add_to_session_cart session_id cart_item) db f
  = (Ok (Accepted row), db') ->
  let product_id := CartItemCreate.product_id cart_item in
  add_problem (products db) cart_item = None
  /\ db' = set_session_cart db (session_cart db')
  /\ match List.find (same_session_row session_id product_id)
             (session_cart db)
     with
     | Some c =>
         row = SessionCart.with_quantity c
                 (SessionCart.quantity c + CartItemCreate.quantity cart_item)
         /\ exists l1 l2,
             session_cart db = l1 ++ c :: l2
             /\ Forall (fun r => same_session_row session_id product_id r
                                 = false) l1
             /\ session_cart db' = l1 ++ row :: l2
     | None =>
         row = {| SessionCart.id :=
                    next_id (map SessionCart.id (session_cart db));
                  SessionCart.session_id := session_id;
                  SessionCart.product_id := product_id;
                  SessionCart.quantity := CartItemCreate.quantity cart_item |}
         /\ ~ In (SessionCart.id row) (map SessionCart.id (session_cart db))
         /\ session_cart db' = session_cart db ++ [row]
     end.
Proof.
  intros H product_id. revert H.
  unfold add_problem, run, routers_cart.add_to_session_cart,
    crud.add_to_session_cart, crud.get_product_by_id, bind, get_working, ret.
  cbn [working].
  destruct (products db !! _) as [p|]; [|discriminate].
  destruct (negb _); [discriminate|].
  destruct (Product.track_inventory p && _); [discriminate|].
  fold product_id. fold (same_session_row session_id product_id).
  destruct (List.find _ _) as [c|] eqn:Hfind.
  - unfold modify_working. cbn [working committed new_orders new_items fault].
    rewrite db_commit_write.
    apply find_split in Hfind as (l1 & l2 & Hrows & _ & Hl1 & _ & Hupd).
    destruct f as [[|k]|]; intros [= <- <-]; cbn;
      (split; [reflexivity|]); (split; [reflexivity|]);
      (split; [reflexivity|]); exists l1, l2; rewrite Hupd; auto.
  - unfold db_add_session_cart.
    cbn [working committed new_orders new_items fault].
    rewrite db_commit_write.
    destruct f as [[|k]|]; intros [= <- <-]; cbn;
      (split; [reflexivity|]); (split; [reflexivity|]);
      (split; [reflexivity|]); (split; [|reflexivity]);
      intros Hin; apply next_id_above in Hin; lia.
Qed.

(** X8.  When [add_to_cart] was accepted for a product and
    variant the user had no line of, removing the line it returned gives the
    database back as it was before the two requests. *)
Theorem remove_from_cart_undoes_add
    (cart_item : CartItemCreate.t) (u : User.t) (db : DB) (f : option nat)
    (line : CartItem.t) (db1 : DB) :
  run (routers_cart.add_to_cart cart_item u) db f
  = (Ok (Accepted line), db1) ->
  List.find (same_cart_line (User.id u) cart_item) (cart_items db) = None ->
  run (routers_cart.remove_from_cart (CartItem.id line) u) db1 None
  = (Ok (Accepted tt), db).
Proof.
  intros Hadd Hnew.
  apply add_to_cart_accepted in Hadd as (_ & Hdb1 & Hline).
  rewrite Hnew in Hline. destruct Hline as (Hl & Hfresh & Hrows).
  unfold run, routers_cart.remove_from_cart, crud.remove_from_cart, bind,
    get_working, ret.
  cbn [working]. rewrite Hrows.
  fold (user_line (CartItem.id line) (User.id u)).
  destruct (find_app_last (user_line (CartItem.id line) (User.id u))
              (cart_items db) line) as [Hf Hd].
  { apply Forall_forall. intros c Hc. apply list_elem_of_In in Hc.
    unfold user_line. apply andb_false_iff. left. apply Z.eqb_neq.
    intros E. apply Hfresh. rewrite <- E. now apply in_map. }
  { unfold user_line. rewrite Z.eqb_refl. rewrite Hl. cbn. apply Z.eqb_refl. }
  rewrite Hf. unfold modify_working.
  cbn [working committed new_orders new_items fault].
  rewrite db_commit_write. cbn. rewrite Hrows, Hd. f_equal.
  rewrite Hdb1. now destruct db.
Qed.

(** X1.  An accepted [add_to_cart] has found the product
    available, and it has either added the quantity of the request to the
    first line of the user for that product and variant, or appended a line
    with a fresh id and the quantity of the request; no other row of any
    table changes. *)
Theorem add_to_cart_adds_to_the_line
    (cart_item : CartItemCreate.t) (u : User.t) (db : DB) (f : option nat)
    (line : CartItem.t) (db' : DB) :
  run (routers_cart.add_to_cart cart_item u) db f
  = (Ok (Accepted line), db') ->
  add_problem (products db) cart_item = None
  /\ db' = set_cart_items db (cart_items db')
  /\ match List.find (same_cart_line (User.id u) cart_item) (cart_items db)
     with
     | Some c =>
         line = CartItem.with_quantity c
                  (CartItem.quantity c + CartItemCreate.quantity cart_item)
         /\ exists l1 l2,
             cart_items db = l1 ++ c :: l2
             /\ Forall (fun r => same_cart_line (User.id u) cart_item r
                                 = false) l1
             /\ cart_items db' = l1 ++ line :: l2
     | None =>
         line = {| CartItem.id := next_id (map CartItem.id (cart_items db));
                   CartItem.user_id := User.id u;
                   CartItem.product_id := CartItemCreate.product_id cart_item;
                   CartItem.variant_id := CartItemCreate.variant_id cart_item;
                   CartItem.quantity := CartItemCreate.quantity cart_item |}
         /\ ~ In (CartItem.id line) (map CartItem.id (cart_items db))
         /\ cart_items db' = cart_items db ++ [line]
     end.
Proof. apply add_to_cart_accepted. Qed.

Lemma add_to_cart_adds_to_the_line_witness :
  exists line db',
    run (routers_cart.add_to_cart CartSample.two_more Scenario.alice)
      Scenario.shop_100 None = (Ok (Accepted line), db')
    /\ line = Scenario.user_row 1 None 4
    /\ cart_items db' = [line].
Proof.
  assert (E : exists line db',
             run (routers_cart.add_to_cart CartSample.two_more Scenario.alice)
               Scenario.shop_100 None = (Ok (Accepted line), db'))
    by (do 2 eexists; vm_compute; reflexivity).
  destruct E as (line & db' & E). exists line, db'. split; [exact E|].
  destruct (add_to_cart_adds_to_the_line _ _ _ _ _ _ E) as (_ & _ & H).
  cbn in H. destruct H as (Hline & l1 & l2 & Hrows & _ & Hrows').
  split; [exact Hline|].
  destruct l1 as [|x l1]; [|destruct l1; discriminate Hrows].
  injection Hrows as <-. exact Hrows'.
Defined.

(** X2.  An accepted [add_to_session_cart] has found the
    product available, and it has either added the quantity of the request
    to the first row of the session for that product, or appended a row with
    a fresh id and the quantity of the request; no other row of any table
    changes. *)
Theorem add_to_session_cart_adds_to_the_row
    (cart_item : CartItemCreate.t) (session_id : string) (db : DB)
    (f : option nat) (row : SessionCart.t) (db' : DB) :
  run (routers_cart.add_to_session_cart session_id cart_item) db f
  = (Ok (Accepted row), db') ->
  let product_id := CartItemCreate.product_id cart_item in
  add_problem (products db) cart_item = None
  /\ db' = set_session_cart db (session_cart db')
  /\ match List.find (same_session_row session_id product_id)
             (session_cart db)
     with
     | Some c =>
         row = SessionCart.with_quantity c
                 (SessionCart.quantity c + CartItemCreate.quantity cart_item)
         /\ exists l1 l2,
             session_cart db = l1 ++ c :: l2
             /\ Forall (fun r => same_session_row session_id product_id r
                                 = false) l1
             /\ session_cart db' = l1 ++ row :: l2
     | None =>
         row = {| SessionCart.id :=
                    next_id (map SessionCart.id (session_cart db));
                  SessionCart.session_id := session_id;
                  SessionCart.product_id := product_id;
                  SessionCart.quantity := CartItemCreate.quantity cart_item |}
         /\ ~ In (SessionCart.id row) (map SessionCart.id (session_cart db))
         /\ session_cart db' = session_cart db ++ [row]
     end.
Proof. apply add_to_session_cart_accepted. Qed.

Lemma add_to_session_cart_adds_to_the_row_witness :
  exists row db',
    run (routers_cart.add_to_session_cart Scenario.guest CartSample.two_more)
      CartSample.shop_empty_carts None = (Ok (Accepted row), db')
    /\ row = Scenario.guest_row 1 2
    /\ session_cart db' = [row].
Proof.
  assert (E : exists row db',
             run (routers_cart.add_to_session_cart Scenario.guest
                    CartSample.two_more)
               CartSample.shop_empty_carts None = (Ok (Accepted row), db'))
    by (do 2 eexists; vm_compute; reflexivity).
  destruct E as (row & db' & E). exists row, db'. split; [exact E|].
  destruct (add_to_session_cart_adds_to_the_row _ _ _ _ _ _ E)
    as (_ & _ & H).
  cbn in H. destruct H as (Hrow & _ & Hrows). split; assumption.
Defined.

Lemma add_to_cart_refusal_witness :
  run (routers_cart.add_to_cart CartSample.six_units Scenario.alice)
    Scenario.shop_100 None
  = (Ok (Refused 400 Refusal.Insufficient_stock), Scenario.shop_100)
  /\ run (routers_cart.add_to_session_cart Scenario.guest
            CartSample.six_units) Scenario.shop_100 None
     = (Ok (Refused 400 Refusal.Insufficient_stock), Scenario.shop_100).
Proof.
  apply (proj1 (add_to_cart_refusal CartSample.six_units Scenario.alice
                  Scenario.guest Scenario.shop_100 None)).
  vm_compute. reflexivity.
Defined.

Lemma cart_keeps_one_line_per_variant_witness :
  exists r db',
    run (cart_request (AddToCart CartSample.two_more) Scenario.alice)
      Scenario.shop_100 None = (r, db')
    /\ one_line_per_variant Scenario.shop_100
    /\ one_line_per_variant db'.
Proof.
  assert (E : exists r db',
             run (cart_request (AddToCart CartSample.two_more) Scenario.alice)
               Scenario.shop_100 None = (r, db'))
    by (do 2 eexists; vm_compute; reflexivity).
  destruct E as (r & db' & E). exists r, db'.
  assert (H : one_line_per_variant Scenario.shop_100)
    by apply NoDup_singleton.
  split; [exact E|]. split; [exact H|].
  exact (cart_keeps_one_line_per_variant _ _ _ _ _ _ H E).
Defined.

Lemma cart_of_another_user_untouched_witness :
  exists r db',
    run (cart_request ClearCart CartSample.bob) Scenario.shop_100 None
    = (r, db')
    /\ user_rows 7 db' = [Scenario.user_row 1 None 2].
Proof.
  assert (E : exists r db',
             run (cart_request ClearCart CartSample.bob) Scenario.shop_100
               None = (r, db'))
    by (do 2 eexists; vm_compute; reflexivity).
  destruct E as (r & db' & E). exists r, db'. split; [exact E|].
  assert (Hv : 7 <> User.id CartSample.bob) by discriminate.
  destruct (cart_of_another_user_untouched _ _ _ _ _ _ 7 E Hv) as [H _].
  exact H.
Defined.

Lemma session_cart_keeps_one_row_per_product_witness :
  exists r db',
    run (session_cart_request (AddToSessionCart CartSample.two_more)
           Scenario.guest) Scenario.shop_100 None = (r, db')
    /\ one_row_per_product Scenario.shop_100
    /\ one_row_per_product db'.
Proof.
  assert (E : exists r db',
             run (session_cart_request (AddToSessionCart CartSample.two_more)
                    Scenario.guest) Scenario.shop_100 None = (r, db'))
    by (do 2 eexists; vm_compute; reflexivity).
  destruct E as (r & db' & E). exists r, db'.
  assert (H : one_row_per_product Scenario.shop_100)
    by apply NoDup_singleton.
  split; [exact E|]. split; [exact H|].
  exact (session_cart_keeps_one_row_per_product _ _ _ _ _ _ H E).
Defined.

Lemma cart_of_another_session_untouched_witness :
  exists r db',
    run (session_cart_request ClearSessionCart "9d1c44aa-other")
      Scenario.shop_100 None = (r, db')
    /\ crud.session_rows Scenario.guest db' = [Scenario.guest_row 1 2].
Proof.
  assert (E : exists r db',
             run (session_cart_request ClearSessionCart "9d1c44aa-other")
               Scenario.shop_100 None = (r, db'))
    by (do 2 eexists; vm_compute; reflexivity).
  destruct E as (r & db' & E). exists r, db'. split; [exact E|].
  assert (Hv : Scenario.guest <> "9d1c44aa-other") by discriminate.
  destruct (cart_of_another_session_untouched _ _ _ _ _ _ _ E Hv) as [H _].
  exact H.
Defined.

Lemma remove_from_cart_undoes_add_witness :
  exists line db1,
    run (routers_cart.add_to_cart CartSample.two_more Scenario.alice)
      CartSample.shop_empty_carts None = (Ok (Accepted line), db1)
    /\ cart_items db1 <> []
    /\ run (routers_cart.remove_from_cart (CartItem.id line) Scenario.alice)
         db1 None
       = (Ok (Accepted tt), CartSample.shop_empty_carts).
Proof.
  assert (E : exists line db1,
             run (routers_cart.add_to_cart CartSample.two_more Scenario.alice)
               CartSample.shop_empty_carts None
             = (Ok (Accepted line), db1) /\ cart_items db1 <> [])
    by (do 2 eexists; split; [vm_compute; reflexivity|discriminate]).
  destruct E as (line & db1 & E & Hne). exists line, db1.
  split; [exact E|]. split; [exact Hne|].
  exact (remove_from_cart_undoes_add _ _ _ _ _ _ E eq_refl).
Defined.
(** * Orders placed directly *)

Lemma create_order_direct_unfold env order current_user :
  routers_orders.create_order env order current_user
  = (checked <- for_each_answer (OrderCreate.items order) order_check_body ;;
     match checked with
     | Refused status_code detail => ret (Refused status_code detail)
     | Accepted _ =>
       db_order <- crud.create_order env order (User.id current_user) ;;
       for_each (OrderCreate.items order) sell_stock_body ;;;
       db_commit ;;;
       crud.clear_user_cart (User.id current_user) ;;;
       ret (Accepted db_order)
     end).
Proof. reflexivity. Qed.

Lemma order_check_body_eq item s :
  order_check_body item s
  = (Ok (answer_of (order_problem (products (working s)) item)), s).
Proof.
  unfold order_check_body, order_problem, crud.get_product_by_id, bind,
    get_working, ret.
  destruct (products (working s) !! _) as [p|]; [|reflexivity].
  destruct (negb _); [reflexivity|].
  now destruct (Product.track_inventory p && _).
Qed.

(** The validation loop stops at the first line with a problem; it never
    moves the session. *)
Lemma order_check_loop items s r s' :
  for_each_answer items order_check_body s = (r, s') ->
  s' = s
  /\ ((r = Ok (Accepted tt)
       /\ Forall (fun i => order_problem (products (working s)) i = None)
            items)
      \/ exists l1 item l2 code detail,
           items = l1 ++ item :: l2
           /\ Forall (fun i => order_problem (products (working s)) i = None)
                l1
           /\ order_problem (products (working s)) item = Some (code, detail)
           /\ r = Ok (Refused code detail)).
Proof.
  revert r s'. induction items as [|item items IH]; intros r s'; cbn.
  - unfold ret. intros [= <- <-]. split; [reflexivity|]. left. auto.
  - unfold bind at 1. rewrite order_check_body_eq.
    destruct (order_problem _ item) as [[code detail]|] eqn:Hp; cbn.
    + unfold ret. intros [= <- <-]. split; [reflexivity|]. right.
      exists [], item, items, code, detail. auto.
    + intros H. apply IH in H as [-> H]. split; [reflexivity|].
      destruct H as [[-> H]|(l1 & x & l2 & code & detail & -> & H1 & H2 & ->)].
      * left. auto.
      * right. exists (item :: l1), x, l2, code, detail. auto.
Qed.

Lemma sell_stock_step item s :
  sell_stock_body item s
  = (Ok tt, with_products s
              (move_stock (OrderItemCreate.product_id item)
                 (- OrderItemCreate.quantity item) (products (working s)))).
Proof.
  unfold sell_stock_body, crud.get_product_by_id, move_stock, bind,
    get_working, ret.
  destruct (products (working s) !! _) as [p|];
    [|now rewrite with_products_same].
  destruct (Product.track_inventory p); [|now rewrite with_products_same].
  reflexivity.
Qed.

Lemma sell_stock_loop items s :
  exists ps',
    for_each items sell_stock_body s = (Ok tt, with_products s ps')
    /\ forall k,
        ps' !! k
        = restock (- purchased k (requested items))
            <$> products (working s) !! k.
Proof.
  revert s. induction items as [|item items IH]; intros s; cbn [for_each].
  - exists (products (working s)).
    split; [unfold ret; now rewrite with_products_same|].
    intros k. cbn. destruct (products (working s) !! k); cbn; [|reflexivity].
    now rewrite restock_0.
  - destruct (IH (with_products s
                    (move_stock (OrderItemCreate.product_id item)
                       (- OrderItemCreate.quantity item)
                       (products (working s))))) as (ps' & Hloop & Hps).
    exists ps'. split.
    + rewrite (bind_step _ _ _ _ _ (sell_stock_step item s)). exact Hloop.
    + intros k. rewrite Hps.
      cbn [with_products working products set_products].
      rewrite move_stock_lookup.
      destruct (products (working s) !! k); cbn; [|reflexivity].
      rewrite restock_restock. f_equal. apply restock_eq.
      unfold requested. cbn [map purchased].
      destruct (OrderItemCreate.product_id item =? k); lia.
Qed.

Lemma lines_of_known_products_all ps order_id items :
  Forall (fun i => is_Some (ps !! OrderItemCreate.product_id i)) items ->
  Forall2 (fun i row =>
             exists p, ps !! OrderItemCreate.product_id i = Some p
                       /\ row = crud.order_item_for order_id i p)
    items (lines_of_known_products ps order_id items).
Proof.
  unfold lines_of_known_products.
  induction 1 as [|i items [p Hp] _ IH]; cbn; [constructor|].
  rewrite Hp. cbn. constructor; [exists p; auto|exact IH].
Qed.

Lemma order_problem_None ps item :
  order_problem ps item = None ->
  exists p, ps !! OrderItemCreate.product_id item = Some p
    /\ Product.status p = ProductStatus.ACTIVE
    /\ (Product.track_inventory p = true ->
        OrderItemCreate.quantity item <= Product.stock_quantity p).
Proof.
  unfold order_problem.
  destruct (ps !! _) as [p|]; [|discriminate].
  destruct (ProductStatus.eqb _ _) eqn:Hst; [|discriminate]. cbn [negb].
  destruct (Product.track_inventory p && _) eqn:Hq; [discriminate|].
  intros _. exists p. split; [reflexivity|]. split.
  - now destruct (Product.status p).
  - intros Ht. rewrite Ht in Hq. cbn in Hq. lia.
Qed.

(** Everything an accepted [POST /orders] has done, and what a refused one
    has found. *)
Lemma create_order_direct_result env order (u : User.t) db f a db' :
  run (routers_orders.create_order env order u) db f = (Ok a, db') ->
  let items := OrderCreate.items order in
  match a with
  | Refused code detail =>
      db' = db
      /\ exists l1 item l2,
          items = l1 ++ item :: l2
          /\ Forall (fun i => order_problem (products db) i = None) l1
          /\ order_problem (products db) item = Some (code, detail)
  | Accepted o =>
      Forall (fun i => order_problem (products db) i = None) items
      /\ order_number_taken (orders db) (registered_order_number env) = false
      /\ o = registered_order env order (User.id u) (next_order_id (orders db))
      /\ orders db' = orders db ++ [o]
      /\ order_items db'
         = order_items db
           ++ lines_of_known_products (products db) (Order.id o) items
      /\ (forall k,
            products db' !! k
            = restock (- purchased k (requested items)) <$> products db !! k)
      /\ cart_items db'
         = List.filter (fun c => negb (CartItem.user_id c =? User.id u))
             (cart_items db)
      /\ session_cart db' = session_cart db
  end.
Proof.
  intros H items. assert (Hdef : items = OrderCreate.items order)
    by reflexivity.
  clearbody items. revert H.
  unfold run. fold (open_session db f).
  destruct (routers_orders.create_order env order u (open_session db f))
    as [r sf] eqn:E.
  intros [= -> <-]. rewrite create_order_direct_unfold in E.
  step E checked s1. rewrite <- Hdef in *.
  apply order_check_loop in Echecked as [-> Hchecked].
  cbn [open_session working] in Hchecked.
  destruct Hchecked as [[[= ->] Hok]
    |(l1 & item & l2 & code & detail & Hl & H1 & H2 & [= ->])].
  2:{ injection E as <- <-. cbn [open_session committed].
      split; [reflexivity|]. exists l1, item, l2. auto. }
  step E order' s1. rewrite create_order_unfold in Eorder'.
  step Eorder' o' s2. unfold db_add_order in Eo'.
  cbn [open_session working new_orders] in Eo'. rewrite app_nil_r in Eo'.
  injection Eo' as <- <-.
  step Eorder' t1 s3. destruct t1.
  apply db_commit_Ok_eq in Et1 as (os & Hflush & ->).
  cbn [working new_orders new_items fault flush_orders] in Hflush, Eorder'.
  destruct (order_number_taken (orders db) _) eqn:Hfresh;
    [discriminate Hflush|].
  injection Hflush as <-.
  step Eorder' t2 s4. rewrite create_order_items_loop in Et2.
  injection Et2 as <- <-.
  step Eorder' t3 s5. destruct t3.
  apply db_commit_Ok_eq in Et3 as (os & Hflush & ->).
  cbn [working new_orders new_items fault flush_orders add_new_items]
    in Hflush, Eorder'.
  injection Hflush as <-. injection Eorder' as <- <-.
  step E t4 s6. destruct t4.
  match type of Et4 with
  | for_each _ _ ?s = _ =>
      destruct (sell_stock_loop items s) as (ps' & Hloop & Hps)
  end.
  rewrite Hloop in Et4. injection Et4 as <-.
  step E t5 s7. destruct t5.
  apply db_commit_Ok_eq in Et5 as (os & Hflush & ->).
  cbn [working new_orders new_items fault flush_orders with_products]
    in Hflush, E.
  injection Hflush as <-.
  step E t6 s8. destruct t6. unfold crud.clear_user_cart in Et6.
  step Et6 t7 s9. unfold modify_working in Et7. injection Et7 as _ <-.
  apply db_commit_Ok_eq in Et6 as (os & Hflush & ->).
  cbn [working new_orders new_items fault flush_orders] in Hflush.
  injection Hflush as <-. injection E as <- <-.
  cbn [working committed products set_products set_orders set_order_items
       set_cart_items orders order_items cart_items session_cart] in Hps |- *.
  repeat (split; [first [ assumption | reflexivity ]|]).
  split.
  - cbn [app Order.id Order.with_id registered_order].
    rewrite !app_nil_r. now rewrite Hdef.
  - split; [exact Hps|]. split; reflexivity.
Qed.

(** X9.  When [POST /orders] refuses a request, the database
    is as it was, and the answer is that of the first requested line with a
    problem: 404 for a product that does not exist, 400 for one that is not
    active, 400 for one that tracks its stock and has less of it than the
    line asks for. *)
Theorem direct_order_refused_changes_nothing
    (env : Env) (order : OrderCreate.t) (u : User.t) (db : DB)
    (f : option nat) (code : Z) (detail : Refusal.t) (db' : DB) :
  run (routers_orders.create_order env order u) db f
  = (Ok (Refused code detail), db') ->
  db' = db
  /\ exists l1 item l2,
      OrderCreate.items order = l1 ++ item :: l2
      /\ Forall (fun i => order_problem (products db) i = None) l1
      /\ order_problem (products db) item = Some (code, detail).
Proof. intros H. exact (create_order_direct_result _ _ _ _ _ _ _ H). Qed.

Lemma direct_order_refused_changes_nothing_witness :
  exists code detail db',
    run (routers_orders.create_order Scenario.env Sample.request
           Scenario.alice) Scenario.shop_100 None
    = (Ok (Refused code detail), db')
    /\ db' = Scenario.shop_100
    /\ code = 404
    /\ detail = Refusal.Product_id_not_found 99.
Proof.
  exists 404, (Refusal.Product_id_not_found 99), Scenario.shop_100.
  assert (E : run (routers_orders.create_order Scenario.env Sample.request
                     Scenario.alice) Scenario.shop_100 None
              = (Ok (Refused 404 (Refusal.Product_id_not_found 99)),
                 Scenario.shop_100))
    by (vm_compute; reflexivity).
  split; [exact E|].
  destruct (direct_order_refused_changes_nothing _ _ _ _ _ _ _ _ E) as [H _].
  auto.
Defined.

(** X10.  An accepted [POST /orders] has stored one order and
    one line item for every requested line, each for a product that exists,
    is active and had the stock, at the unit price of the request; the
    subtotal is the sum over the requested lines; the stock of a tracked
    product went down by the units requested of it; and the cart of the user
    is empty. *)
Theorem direct_order_stores_every_line
    (env : Env) (order : OrderCreate.t) (u : User.t) (db : DB)
    (f : option nat) (o : Order.t) (db' : DB) :
  run (routers_orders.create_order env order u) db f
  = (Ok (Accepted o), db') ->
  let items := OrderCreate.items order in
  exists rows,
    orders db' = orders db ++ [o]
    /\ order_items db' = order_items db ++ rows
    /\ Forall2 (fun i row =>
                  exists p,
                    products db !! OrderItemCreate.product_id i = Some p
                    /\ Product.status p = ProductStatus.ACTIVE
                    /\ (Product.track_inventory p = true ->
                        OrderItemCreate.quantity i <= Product.stock_quantity p)
                    /\ row = crud.order_item_for (Order.id o) i p)
         items rows
    /\ Order.user_id o = Some (User.id u)
    /\ Order.subtotal o = py_sum (map line_amount items)
    /\ (forall k p,
          products db !! k = Some p ->
          Product.track_inventory p = true ->
          exists p',
            products db' !! k = Some p'
            /\ Product.stock_quantity p'
               = Product.stock_quantity p - purchased k (requested items))
    /\ user_rows (User.id u) db' = [].
Proof.
  intros H items.
  pose proof (create_order_direct_result _ _ _ _ _ _ _ H) as R.
  cbn beta iota zeta in R. fold items in R.
  destruct R as (Hok & _ & Ho & Hos & Hitems & Hps & Hcart & _).
  exists (lines_of_known_products (products db) (Order.id o) items).
  split; [exact Hos|]. split; [exact Hitems|]. split.
  { clear -Hok. unfold lines_of_known_products.
    induction Hok as [|i l Hi _ IH]; cbn; [constructor|].
    apply order_problem_None in Hi as (p & Hp & Hst & Hq).
    rewrite Hp. cbn. constructor; [|exact IH]. exists p. auto. }
  split; [now rewrite Ho|]. split; [now rewrite Ho|]. split.
  - intros k p Hp Ht. rewrite Hps, Hp. cbn.
    eexists. split; [reflexivity|].
    destruct (restock_tracked (- purchased k (requested items)) p Ht)
      as [_ ->]. lia.
  - unfold user_rows. rewrite Hcart.
    apply (filter_negb_filter (fun c => CartItem.user_id c =? User.id u)).
Qed.

Lemma direct_order_stores_every_line_witness :
  exists o db',
    run (routers_orders.create_order Scenario.env
           {| OrderCreate.items := [Sample.known_line] |} Scenario.alice)
      Scenario.shop_100 None = (Ok (Accepted o), db')
    /\ map OrderItem.quantity (order_items db') = [2]
    /\ Order.subtotal o == 200
    /\ Product.stock_quantity <$> products db' !! 1 = Some 3
    /\ user_rows 7 db' = [].
Proof.
  assert (E : exists o db',
             run (routers_orders.create_order Scenario.env
                    {| OrderCreate.items := [Sample.known_line] |}
                    Scenario.alice) Scenario.shop_100 None
             = (Ok (Accepted o), db'))
    by (do 2 eexists; vm_compute; reflexivity).
  destruct E as (o & db' & E). exists o, db'. split; [exact E|].
  destruct (direct_order_stores_every_line _ _ _ _ _ _ _ E)
    as (rows & _ & Hitems & Hrows & _ & Hsub & Hstock & Hcart).
  cbn in Hrows. apply Forall2_cons_inv_l in Hrows
    as (row & rows' & (p & _ & _ & _ & ->) & Hnil & ->).
  apply Forall2_nil_inv_l in Hnil as ->.
  split; [rewrite Hitems; reflexivity|].
  split; [rewrite Hsub; vm_compute; reflexivity|].
  split; [|exact Hcart].
  destruct (Hstock 1 (Scenario.product 100 5 ProductStatus.ACTIVE)
              eq_refl eq_refl) as (p' & -> & Hq).
  cbn. f_equal. rewrite Hq. reflexivity.
Defined.

(** * Reading an order *)

Lemma view_guard (u : User.t) (o : Order.t) :
  negb (UserRole.eqb (User.role u) UserRole.ADMIN)
  && negb match Order.user_id o with
          | Some x => x =? User.id u
          | None => false
          end
  = negb (may_read u o).
Proof. unfold may_read, is_admin, owns. now rewrite negb_orb. Qed.

(** X11.  [get_order] and [get_order_by_number] change nothing and
    raise nothing.  They answer with an order of the table only to an admin
    or to the user the order belongs to: an order of a guest session, which
    belongs to no user, only to an admin.  Otherwise they answer 404 or
    403. *)
Theorem order_is_read_by_owner_or_admin
    (order_id : Z) (order_number : string) (u : User.t) (db : DB)
    (f : option nat) (r : Result (Answer Order.t)) (db' : DB) :
  run (routers_orders.get_order order_id u) db f = (r, db')
  \/ run (routers_orders.get_order_by_number order_number u) db f = (r, db') ->
  db' = db
  /\ match r with
     | Ok (Accepted o) =>
         In o (orders db) /\ may_read u o = true
         /\ (Order.id o = order_id \/ Order.order_number o = order_number)
     | Ok (Refused code detail) =>
         (code, detail) = (404, Refusal.Order_not_found)
         \/ (code, detail) = (403, Refusal.Not_authorized_to_view_this_order)
     | Raise _ => False
     end.
Proof.
  unfold run, routers_orders.get_order, routers_orders.get_order_by_number,
    crud.get_order_by_id, crud.get_order_by_number, bind, get_working, ret.
  cbn [working].
  intros [H|H]; revert H;
    (destruct (List.find _ _) as [o|] eqn:Hfind;
     [|intros [= <- <-]; cbn; auto]);
    apply find_some in Hfind as [Hin Ho];
    rewrite view_guard; destruct (may_read u o) eqn:Hr; cbn [negb];
    intros [= <- <-]; cbn; auto.
  - apply Z.eqb_eq in Ho. auto.
  - apply String.eqb_eq in Ho. auto.
Qed.

Lemma order_is_read_by_owner_or_admin_witness :
  run (routers_orders.get_order 1 CartSample.bob) Sample.shop_ordered None
  = (Ok (Refused 403 Refusal.Not_authorized_to_view_this_order),
     Sample.shop_ordered)
  /\ run (routers_orders.get_order_by_number "ORD-20240115-1B9D6BCD"
            Scenario.alice) Sample.shop_ordered None
     = (Ok (Accepted Sample.alice_order), Sample.shop_ordered)
  /\ may_read Scenario.alice Sample.alice_order = true.
Proof.
  assert (E1 : run (routers_orders.get_order 1 CartSample.bob)
                 Sample.shop_ordered None
               = (Ok (Refused 403 Refusal.Not_authorized_to_view_this_order),
                  Sample.shop_ordered))
    by (vm_compute; reflexivity).
  assert (E2 : run (routers_orders.get_order_by_number
                      "ORD-20240115-1B9D6BCD" Scenario.alice)
                 Sample.shop_ordered None
               = (Ok (Accepted Sample.alice_order), Sample.shop_ordered))
    by (vm_compute; reflexivity).
  split; [exact E1|]. split; [exact E2|].
  destruct (order_is_read_by_owner_or_admin 1 "ORD-20240115-1B9D6BCD"
              Scenario.alice Sample.shop_ordered None _ _ (or_intror E2))
    as (_ & _ & H & _).
  exact H.
Defined.

(** ** The order a checkout leaves *)

Lemma next_order_id_above os o : In o os -> Order.id o < next_order_id os.
Proof.
  intros H. apply (next_id_above (map Order.id os)). now apply in_map.
Qed.

Lemma find_middle {A} (p : A -> bool) (l1 l2 : list A) (x : A) :
  Forall (fun y => p y = false) l1 -> p x = true ->
  List.find p (l1 ++ x :: l2) = Some x.
Proof.
  intros Hl Hx. induction Hl as [|y l Hy _ IH]; cbn.
  - now rewrite Hx.
  - now rewrite Hy.
Qed.

Lemma ordered_quantity_app k l1 l2 :
  ordered_quantity k (l1 ++ l2)
  = ordered_quantity k l1 + ordered_quantity k l2.
Proof. induction l1 as [|i l1 IH]; cbn; [reflexivity|]. rewrite IH. lia. Qed.

(** The row and the line items a successful checkout leaves, for either
    kind of cart. *)
Lemma checkout_leaves env owner db f o db' :
  run (checkout env owner) db f = (Ok o, db') ->
  exists items,
    orders db' = orders db ++ [o]
    /\ Order.id o = next_order_id (orders db)
    /\ order_number_taken (orders db) (Order.order_number o) = false
    /\ Order.status o = OrderStatus.PENDING
    /\ Order.user_id o = match owner with
                         | Registered u => Some (User.id u)
                         | Guest _ => None
                         end
    /\ order_items db' = order_items db ++ items
    /\ Forall (fun i => OrderItem.order_id i = Order.id o) items
    /\ (forall k, ordered_quantity k items = purchased k (cart_lines owner db))
    /\ (forall k,
          products db' !! k
          = restock (- purchased k (cart_lines owner db)) <$> products db !! k)
    /\ cart_lines owner db' = [].
Proof.
  intros H. pose proof (checkout_Ok _ _ _ _ _ _ H) as (_ & _ & _ & Hempty).
  destruct owner as [u|session_id]; cbn [checkout] in H.
  - apply registered_checkout_result in H.
    cbn zeta in H.
    destruct H as (lines & _ & _ & Hlines & Hfresh & Ho & Hos & Hitems & Hps
                   & _ & _).
    exists (lines_of_known_products (products db) (Order.id o) lines).
    split; [exact Hos|]. split; [now rewrite Ho|].
    split; [now rewrite Ho|]. split; [now rewrite Ho|].
    split; [now rewrite Ho|]. split; [exact Hitems|].
    split; [|split; [|split; [exact Hps|exact Hempty]]].
    + clear. unfold lines_of_known_products.
      induction lines as [|l lines IH]; cbn; [constructor|].
      destruct (products db !! _); cbn; [constructor|]; auto.
    + intros k. cbn [cart_lines]. clear -Hlines.
      unfold lines_of_known_products.
      induction Hlines as [|c l rows lines Hc _ IH]; cbn; [reflexivity|].
      unfold order_line in Hc.
      destruct (products db !! CartItem.product_id c) as [p|] eqn:Hp;
        [|discriminate].
      injection Hc as <-. cbn. rewrite Hp. cbn. now rewrite IH.
  - apply guest_checkout_result in H.
    cbn zeta in H.
    destruct H as (items & _ & _ & Hfresh & Ho & Hos & Hitems & Hrows & Hps
                   & _ & _ & _).
    exists items.
    split; [exact Hos|]. split; [now rewrite Ho|].
    split; [now rewrite Ho|]. split; [now rewrite Ho|].
    split; [now rewrite Ho|]. split; [exact Hitems|].
    split; [|split; [|split; [exact Hps|exact Hempty]]].
    + clear -Hrows.
      induction Hrows as [|c i rows items (p & _ & ->) _ IH];
        constructor; auto.
    + intros k. cbn [cart_lines]. clear -Hrows.
      induction Hrows as [|c i rows items (p & _ & ->) _ IH]; cbn;
        [reflexivity|].
      now rewrite IH.
Qed.

Lemma checkout_order_found env owner db f o db' :
  run (checkout env owner) db f = (Ok o, db') ->
  List.find (has_id (Order.id o)) (orders db') = Some o
  /\ List.find (fun x => String.eqb (Order.order_number x)
                           (Order.order_number o)) (orders db') = Some o.
Proof.
  intros H.
  apply checkout_leaves in H as (_ & -> & Hid & Hfresh & _).
  split; apply find_middle.
  - apply Forall_forall. intros x Hx. apply list_elem_of_In in Hx.
    apply next_order_id_above in Hx. unfold has_id. lia.
  - unfold has_id. apply Z.eqb_refl.
  - apply Forall_forall. intros x Hx. apply list_elem_of_In in Hx.
    destruct (String.eqb_spec (Order.order_number x) (Order.order_number o))
      as [E|]; [|reflexivity].
    assert (Ht : order_number_taken (orders db) (Order.order_number o) = true).
    { apply order_number_taken_In. rewrite <- E. now apply in_map. }
    congruence.
  - apply String.eqb_refl.
Qed.

(** X12.  The order a checkout returns can be read back
    from the database the checkout leaves, by its id and by its number, by
    the user who checked out and by an admin: both requests answer with the
    order itself. *)
Theorem checkout_order_can_be_read
    (env : Env) (owner : Owner) (reader : User.t) (db : DB)
    (f f' : option nat) (o : Order.t) (db' : DB) :
  run (checkout env owner) db f = (Ok o, db') ->
  is_admin reader = true \/ owner = Registered reader ->
  run (routers_orders.get_order (Order.id o) reader) db' f'
  = (Ok (Accepted o), db')
  /\ run (routers_orders.get_order_by_number (Order.order_number o) reader)
       db' f'
     = (Ok (Accepted o), db').
Proof.
  intros H Hreader.
  destruct (checkout_order_found _ _ _ _ _ _ H) as [Hid Hnumber].
  apply checkout_leaves in H as (_ & _ & _ & _ & _ & Huser & _).
  unfold run, routers_orders.get_order, routers_orders.get_order_by_number,
    crud.get_order_by_id, crud.get_order_by_number, bind, get_working, ret.
  cbn [working]. fold (has_id (Order.id o)). rewrite Hid, Hnumber.
  rewrite view_guard.
  assert (Hmay : may_read reader o = true).
  { unfold may_read, owns. destruct Hreader as [-> | ->]; [reflexivity|].
    rewrite Huser, Z.eqb_refl. apply orb_true_r. }
  rewrite Hmay. auto.
Qed.

Lemma checkout_order_can_be_read_witness :
  exists o db',
    run (checkout Scenario.env (Registered Scenario.alice))
      Scenario.shop_100 None = (Ok o, db')
    /\ run (routers_orders.get_order (Order.id o) Scenario.alice) db' None
       = (Ok (Accepted o), db')
    /\ run (routers_orders.get_order_by_number (Order.order_number o)
              Scenario.alice) db' None
       = (Ok (Accepted o), db').
Proof.
  assert (E : exists o db',
             run (checkout Scenario.env (Registered Scenario.alice))
               Scenario.shop_100 None = (Ok o, db'))
    by (do 2 eexists; vm_compute; reflexivity).
  destruct E as (o & db' & E). exists o, db'. split; [exact E|].
  exact (checkout_order_can_be_read _ _ Scenario.alice _ _ None _ _ E
           (or_intror eq_refl)).
Defined.

(** * Cancelling, again *)

Lemma pending_or_confirmed_existsb o :
  existsb (OrderStatus.eqb (Order.status o))
    [OrderStatus.PENDING; OrderStatus.CONFIRMED]
  = pending_or_confirmed o.
Proof. unfold pending_or_confirmed. now destruct (Order.status o). Qed.

(** The refusals of [cancel_order] come before any write. *)
Lemma cancel_order_refused db order_id (u : User.t) f :
  let cancel := run (routers_orders.cancel_order order_id u) db f in
  match List.find (has_id order_id) (orders db) with
  | None => cancel = (Raise (HTTPException 404 Order_not_found), db)
  | Some o =>
      (owns u o || is_admin u = false ->
       cancel = (Raise (HTTPException 403 Not_authorized_to_cancel), db))
      /\ (owns u o || is_admin u = true -> pending_or_confirmed o = false ->
          cancel = (Raise (HTTPException 400 Order_cannot_be_cancelled), db))
  end.
Proof.
  intros cancel. unfold cancel, run. rewrite cancel_order_unfold.
  fold (open_session db f).
  assert (Hget : crud.get_order_by_id order_id (open_session db f)
                 = (Ok (List.find (has_id order_id) (orders db)),
                    open_session db f)) by reflexivity.
  rewrite (bind_step _ _ _ _ _ Hget).
  destruct (List.find _ _) as [o|]; [|reflexivity].
  rewrite pending_or_confirmed_existsb, <- negb_orb.
  split.
  - intros ->. reflexivity.
  - intros -> ->. reflexivity.
Qed.

(** What a cancellation does, on a storage that does not fail. *)
Lemma cancel_order_done db order_id (u : User.t) o :
  List.find (has_id order_id) (orders db) = Some o ->
  owns u o || is_admin u = true ->
  pending_or_confirmed o = true ->
  exists db' l1 l2,
    run (routers_orders.cancel_order order_id u) db None = (Ok tt, db')
    /\ orders db = l1 ++ o :: l2
    /\ Forall (fun r => has_id order_id r = false) l1
    /\ orders db' = l1 ++ Order.with_status o OrderStatus.CANCELLED :: l2
    /\ (forall k,
          products db' !! k
          = restock (ordered_quantity k
                       (List.filter
                          (fun i => OrderItem.order_id i =? order_id)
                          (order_items db)))
              <$> products db !! k)
    /\ order_items db' = order_items db
    /\ cart_items db' = cart_items db
    /\ session_cart db' = session_cart db.
Proof.
  intros Ho Hmay Hst. unfold run. rewrite cancel_order_unfold.
  fold (open_session db None).
  assert (Hget : crud.get_order_by_id order_id (open_session db None)
                 = (Ok (Some o), open_session db None)).
  { unfold crud.get_order_by_id, get_working, bind, ret.
    cbn [open_session working]. fold (has_id order_id). now rewrite Ho. }
  rewrite (bind_step _ _ _ _ _ Hget).
  rewrite pending_or_confirmed_existsb, <- negb_orb, Hmay, Hst. cbn [negb].
  rewrite (bind_step _ _ _ _ _
             (update_order_status_clean db order_id OrderStatus.CANCELLED o Ho)).
  unfold ret at 1. unfold bind at 1.
  unfold crud.order_items_of at 1, get_working, bind at 1, bind at 1, ret at 1.
  cbn [open_session working order_items set_orders Order.id Order.with_status].
  rewrite (find_has_id _ _ _ Ho).
  fold (open_session
          (set_orders db
             (update_first (has_id order_id)
                (fun o => Order.with_status o OrderStatus.CANCELLED)
                (orders db))) None).
  destruct (restore_stock_loop
              (List.filter (fun i => OrderItem.order_id i =? order_id)
                 (order_items db))
              (set_orders db
                 (update_first (has_id order_id)
                    (fun o => Order.with_status o OrderStatus.CANCELLED)
                    (orders db)))) as (ps' & Hloop & Hps).
  destruct (find_split _ _ _ Ho) as (l1 & l2 & Hl & _ & Hl1 & _ & Hu).
  eexists _, l1, l2. rewrite Hloop. cbn [open_session committed].
  split; [reflexivity|]. split; [exact Hl|]. split; [exact Hl1|].
  split; [cbn; apply Hu|]. split; [exact Hps|].
  repeat split.
Qed.

(** What [update_order_status] does for an admin, on a storage that does
    not fail. *)
Lemma update_order_status_done db order_id st (admin : User.t) o :
  List.find (has_id order_id) (orders db) = Some o ->
  is_admin admin = true ->
  run (routers_orders.update_order_status order_id st admin) db None
  = (Ok (Accepted (Order.with_status o st)),
     set_orders db
       (update_first (has_id order_id) (fun o => Order.with_status o st)
          (orders db))).
Proof.
  intros Ho Hadmin. unfold run, routers_orders.update_order_status,
    auth.get_current_admin_user.
  unfold is_admin in Hadmin. rewrite Hadmin. cbn [negb].
  fold (open_session db None).
  rewrite (bind_step _ _ _ _ _ (update_order_status_clean db order_id st o Ho)).
  reflexivity.
Qed.

(** X13.  Right after a successful [cancel_order], the same
    request, of any user and on any storage, is refused with 403 or 400 and
    changes nothing.  It is the status of the order alone that stops it:
    once an admin has set the order back to PENDING or CONFIRMED with
    [update_order_status], which moves no stock, the user who cancelled
    cancels again with success, and the quantities of the order are added to
    the stock a second time. *)
Theorem cancel_again_is_stopped_by_the_status_alone
    (order_id : Z) (u u' : User.t) (db db1 : DB) (f' : option nat) :
  run (routers_orders.cancel_order order_id u) db None = (Ok tt, db1) ->
  (exists code detail,
      run (routers_orders.cancel_order order_id u') db1 f'
      = (Raise (HTTPException code detail), db1)
      /\ ((code, detail) = (403, Not_authorized_to_cancel)
          \/ (code, detail) = (400, Order_cannot_be_cancelled)))
  /\ forall (admin : User.t) (status : OrderStatus.t),
      is_admin admin = true ->
      status = OrderStatus.PENDING \/ status = OrderStatus.CONFIRMED ->
      exists o' db2 db3,
        run (routers_orders.update_order_status order_id status admin) db1
          None = (Ok (Accepted o'), db2)
        /\ products db2 = products db1
        /\ run (routers_orders.cancel_order order_id u) db2 None
           = (Ok tt, db3)
        /\ forall k,
            products db3 !! k
            = restock (ordered_quantity k
                         (List.filter
                            (fun i => OrderItem.order_id i =? order_id)
                            (order_items db1)))
                <$> products db1 !! k.
Proof.
  intros H.
  pose proof (cancel_order_refused db order_id u None) as R.
  cbn zeta in R.
  destruct (List.find (has_id order_id) (orders db)) as [o|] eqn:Ho;
    [|congruence].
  destruct R as [R1 R2].
  destruct (owns u o || is_admin u) eqn:Hmay;
    [|rewrite (R1 eq_refl) in H; discriminate].
  destruct (pending_or_confirmed o) eqn:Hst;
    [|rewrite (R2 eq_refl eq_refl) in H; discriminate].
  destruct (cancel_order_done db order_id u o Ho Hmay Hst)
    as (db' & l1 & l2 & Hrun & _ & Hl1 & Hos & _).
  rewrite Hrun in H. injection H as ->.
  assert (Hid : has_id order_id o = true)
    by (apply find_some in Ho as [_ Ho]; exact Ho).
  set (c := Order.with_status o OrderStatus.CANCELLED) in *.
  assert (Hc : List.find (has_id order_id) (orders db1) = Some c)
    by (rewrite Hos; now apply find_middle).
  split.
  - pose proof (cancel_order_refused db1 order_id u' f') as R'.
    cbn zeta in R'. rewrite Hc in R'. destruct R' as [R1' R2'].
    destruct (owns u' c || is_admin u') eqn:Hmay'.
    + exists 400, Order_cannot_be_cancelled. split; [|auto].
      apply R2'; reflexivity.
    + exists 403, Not_authorized_to_cancel. split; [|auto].
      apply R1'; reflexivity.
  - intros admin status Hadmin Hstatus.
    set (db2 := set_orders db1
                  (update_first (has_id order_id)
                     (fun o => Order.with_status o status) (orders db1))).
    set (o2 := Order.with_status c status).
    assert (Ho2 : List.find (has_id order_id) (orders db2) = Some o2).
    { destruct (find_split _ _ _ Hc) as (m1 & m2 & _ & _ & Hm1 & _ & Hu).
      unfold db2. cbn [orders set_orders]. rewrite Hu.
      now apply find_middle. }
    assert (Hmay2 : owns u o2 || is_admin u = true) by exact Hmay.
    assert (Hst2 : pending_or_confirmed o2 = true)
      by (destruct Hstatus as [-> | ->]; reflexivity).
    destruct (cancel_order_done db2 order_id u o2 Ho2 Hmay2 Hst2)
      as (db3 & _ & _ & Hrun3 & _ & _ & _ & Hps & _).
    exists o2, db2, db3.
    split; [now apply update_order_status_done|].
    split; [reflexivity|]. split; [exact Hrun3|exact Hps].
Qed.

Lemma cancel_again_is_stopped_by_the_status_alone_witness :
  exists db1,
    run (routers_orders.cancel_order 1 Scenario.alice) Sample.shop_ordered
      None = (Ok tt, db1)
    /\ Product.stock_quantity <$> products db1 !! 1 = Some 5
    /\ (exists code detail,
          run (routers_orders.cancel_order 1 Scenario.alice) db1 None
          = (Raise (HTTPException code detail), db1))
    /\ exists o' db2 db3,
        run (routers_orders.update_order_status 1 OrderStatus.PENDING
               CartSample.admin) db1 None = (Ok (Accepted o'), db2)
        /\ run (routers_orders.cancel_order 1 Scenario.alice) db2 None
           = (Ok tt, db3)
        /\ Product.stock_quantity <$> products db3 !! 1 = Some 7.
Proof.
  assert (E : exists db1,
             run (routers_orders.cancel_order 1 Scenario.alice)
               Sample.shop_ordered None = (Ok tt, db1)
             /\ Product.stock_quantity <$> products db1 !! 1 = Some 5
             /\ Product.stock_quantity
                <$> (restock (ordered_quantity 1
                                (List.filter
                                   (fun i => OrderItem.order_id i =? 1)
                                   (order_items db1)))
                       <$> products db1 !! 1) = Some 7)
    by (eexists; split; [|split]; vm_compute; reflexivity).
  destruct E as (db1 & E & Hstock & Hstock'). exists db1.
  split; [exact E|]. split; [exact Hstock|].
  destruct (cancel_again_is_stopped_by_the_status_alone 1 Scenario.alice
              Scenario.alice _ _ None E) as [(code & detail & H & _) Hagain].
  split; [exists code, detail; exact H|].
  destruct (Hagain CartSample.admin OrderStatus.PENDING eq_refl
              (or_introl eq_refl)) as (o' & db2 & db3 & H2 & _ & H3 & Hps).
  exists o', db2, db3. split; [exact H2|]. split; [exact H3|].
  rewrite Hps. exact Hstock'.
Defined.

Lemma first_split_unique {A} (p : A -> bool) (l1 l1' : list A) (x x' : A)
    (l2 l2' : list A) :
  Forall (fun y => p y = false) l1 -> Forall (fun y => p y = false) l1' ->
  p x = true -> p x' = true ->
  l1 ++ x :: l2 = l1' ++ x' :: l2' ->
  l1 = l1' /\ x = x' /\ l2 = l2'.
Proof.
  intros H1 H1' Hx Hx'. revert l1' H1'.
  induction H1 as [|y l1 Hy _ IH]; intros l1' H1' E.
  - destruct l1' as [|y' l1']; [now injection E as <- <-|].
    injection E as <- _. apply Forall_cons in H1' as [Hy' _]. congruence.
  - destruct l1' as [|y' l1'].
    + injection E as <- _. congruence.
    + injection E as <- E. apply Forall_cons in H1' as [_ H1'].
      destruct (IH l1' H1' E) as (-> & -> & ->). auto.
Qed.

Lemma restock_back q p : restock q (restock (- q) p) = p.
Proof.
  rewrite restock_restock. replace (- q + q) with 0 by lia. apply restock_0.
Qed.

(** X14.  Cancelling the order that a checkout has just
    stored, by the user who checked out or by an admin, succeeds on a
    storage that does not fail and gives every product the stock it had
    before the checkout; the order stays in the table as cancelled, with its
    line items, and the cart stays empty.  It is assumed that every line
    item in the table belongs to an order of the table. *)
Theorem cancel_after_checkout_restores_stock
    (env : Env) (owner : Owner) (canceller : User.t) (db : DB)
    (f : option nat) (o : Order.t) (db1 : DB) :
  run (checkout env owner) db f = (Ok o, db1) ->
  Forall (fun i => In (OrderItem.order_id i) (map Order.id (orders db)))
    (order_items db) ->
  is_admin canceller = true \/ owner = Registered canceller ->
  exists db2,
    run (routers_orders.cancel_order (Order.id o) canceller) db1 None
    = (Ok tt, db2)
    /\ products db2 = products db
    /\ orders db2 = orders db ++ [Order.with_status o OrderStatus.CANCELLED]
    /\ order_items db2 = order_items db1
    /\ cart_lines owner db2 = [].
Proof.
  intros H Hfk Hmay.
  destruct (checkout_order_found _ _ _ _ _ _ H) as [Hfind _].
  apply checkout_leaves in H
    as (items & Hos & Hid & _ & Hst & Huser & Hitems & Hown & Hq & Hps
        & Hempty).
  assert (Hmay' : owns canceller o || is_admin canceller = true).
  { unfold owns. destruct Hmay as [-> | ->]; [apply orb_true_r|].
    now rewrite Huser, Z.eqb_refl. }
  assert (Hst' : pending_or_confirmed o = true).
  { unfold pending_or_confirmed. now rewrite Hst. }
  destruct (cancel_order_done db1 (Order.id o) canceller o Hfind Hmay' Hst')
    as (db2 & l1 & l2 & Hrun & Hl & Hl1 & Hos2 & Hps2 & Hitems2 & Hcart2
        & Hsession2).
  exists db2. split; [exact Hrun|].
  assert (Hsplit : l1 = orders db /\ l2 = []).
  { rewrite Hos in Hl.
    destruct (first_split_unique (has_id (Order.id o)) (orders db) l1 o o
                [] l2) as (-> & _ & ->); auto.
    - apply Forall_forall. intros x Hx. apply list_elem_of_In in Hx.
      apply next_order_id_above in Hx. unfold has_id. lia.
    - apply Z.eqb_refl.
    - apply Z.eqb_refl. }
  destruct Hsplit as [-> ->].
  split; [|split; [exact Hos2|split; [exact Hitems2|]]].
  - apply map_eq. intros k. rewrite Hps2, Hps.
    assert (Hmine :
      List.filter (fun i => OrderItem.order_id i =? Order.id o)
        (order_items db1) = items).
    { rewrite Hitems, List.filter_app.
      replace (List.filter _ (order_items db)) with (@nil OrderItem.t).
      - cbn. clear -Hown. induction Hown as [|i l Hi _ IH]; cbn;
          [reflexivity|].
        rewrite Hi, Z.eqb_refl. now f_equal.
      - symmetry. clear -Hfk Hid.
        induction Hfk as [|i l Hi _ IH]; cbn; [reflexivity|].
        apply in_map_iff in Hi as (x & Hx & Hin).
        apply next_order_id_above in Hin.
        destruct (Z.eqb_spec (OrderItem.order_id i) (Order.id o)); [lia|].
        exact IH. }
    rewrite Hmine, Hq.
    destruct (products db !! k) as [p|]; cbn; [|reflexivity].
    now rewrite restock_back.
  - destruct owner as [u|session_id]; cbn [cart_lines] in *.
    + unfold user_rows in *. now rewrite Hcart2.
    + unfold crud.session_rows in *. now rewrite Hsession2.
Qed.

Lemma cancel_after_checkout_restores_stock_witness :
  exists o db1 db2,
    run (checkout Scenario.env (Registered Scenario.alice))
      Scenario.shop_100 None = (Ok o, db1)
    /\ Product.stock_quantity <$> products db1 !! 1 = Some 3
    /\ run (routers_orders.cancel_order (Order.id o) Scenario.alice) db1 None
       = (Ok tt, db2)
    /\ products db2 = products Scenario.shop_100.
Proof.
  assert (E : exists o db1,
             run (checkout Scenario.env (Registered Scenario.alice))
               Scenario.shop_100 None = (Ok o, db1)
             /\ Product.stock_quantity <$> products db1 !! 1 = Some 3)
    by (do 2 eexists; split; vm_compute; reflexivity).
  destruct E as (o & db1 & E & Hstock).
  destruct (cancel_after_checkout_restores_stock _ _ Scenario.alice _ _ _ _ E
              (List.Forall_nil _) (or_intror eq_refl))
    as (db2 & Hrun & Hps & _).
  exists o, db1, db2. auto.
Defined.

(** * Setting the status of an order *)

(** X15.  When the new status is SHIPPED or DELIVERED,
    [crud.update_order_status] also stamps [shipped_at] or [delivered_at];
    the statement is about every other status, where it writes the status
    alone.  There [PUT /orders/{id}/status] and the admin override
    [PUT /admin/orders/{id}/status] do the same for every request.  A user
    who is not an admin is refused with 403 and an order id that is not in
    the table with 404, both without any change; otherwise the first order
    with that id gets the status of the request and nothing else changes:
    no order is added or removed and no stock is moved, also when the new
    status is CANCELLED.  The admin override never answers 500. *)
Theorem order_status_is_set_by_admin_only
    (order_id : Z) (status : OrderStatus.t) (u : User.t) (db : DB)
    (f : option nat) (r : Result (Answer Order.t)) (db' : DB) :
  status <> OrderStatus.SHIPPED ->
  status <> OrderStatus.DELIVERED ->
  run (routers_orders.update_order_status order_id status u) db f = (r, db') ->
  run (routers_admin.update_order_status_admin order_id status u) db f
  = (r, db')
  /\ db' = set_orders db (orders db')
  /\ map Order.id (orders db') = map Order.id (orders db)
  /\ match r with
     | Ok (Accepted o') =>
         is_admin u = true
         /\ exists l1 o l2,
             orders db = l1 ++ o :: l2
             /\ Forall (fun x => has_id order_id x = false) l1
             /\ Order.id o = order_id
             /\ o' = Order.with_status o status
             /\ orders db' = l1 ++ o' :: l2
     | Ok (Refused code detail) =>
         db' = db
         /\ ((is_admin u = false
              /\ (code, detail) = (403, Refusal.Not_enough_permissions))
             \/ (is_admin u = true
                 /\ List.find (has_id order_id) (orders db) = None
                 /\ (code, detail) = (404, Refusal.Order_not_found)))
     | Raise e => db' = db
     end.
Proof.
  intros _ _.
  assert (Hsame : db = set_orders db (orders db)) by now destruct db.
  unfold run, routers_orders.update_order_status,
    routers_admin.update_order_status_admin, auth.get_current_admin_user,
    is_admin.
  destruct (UserRole.eqb _ _); cbn [negb];
    [|unfold ret; intros [= <- <-]; cbn; auto 10].
  unfold crud.update_order_status, crud.get_order_by_id, bind, get_working,
    ret.
  cbn [working]. fold (has_id order_id).
  destruct (List.find _ _) as [o|] eqn:Hfind;
    [|intros [= <- <-]; cbn; auto 10].
  unfold modify_working. cbn [working committed new_orders new_items fault].
  rewrite ?Hfind. cbn [working committed new_orders new_items fault].
  rewrite !db_commit_write.
  destruct (find_split _ _ _ Hfind) as (l1 & l2 & Hl & Ho & Hl1 & _ & Hu).
  destruct f as [[|k]|]; intros [= <- <-]; cbn; auto.
  all: split; [reflexivity|]; split; [reflexivity|]; rewrite Hu; split;
    [rewrite Hl, !map_app; reflexivity|].
  all: split; [reflexivity|]; exists l1, o, l2; repeat split; auto;
    now apply Z.eqb_eq.
Qed.

Lemma order_status_is_set_by_admin_only_witness :
  exists o' db',
    run (routers_orders.update_order_status 1 OrderStatus.PROCESSING
           CartSample.admin) Sample.shop_ordered None = (Ok (Accepted o'), db')
    /\ run (routers_admin.update_order_status_admin 1 OrderStatus.PROCESSING
              CartSample.admin) Sample.shop_ordered None
       = (Ok (Accepted o'), db')
    /\ map Order.status (orders db') = [OrderStatus.PROCESSING].
Proof.
  assert (E : exists o' db',
             run (routers_orders.update_order_status 1 OrderStatus.PROCESSING
                    CartSample.admin) Sample.shop_ordered None
             = (Ok (Accepted o'), db')
             /\ map Order.status (orders db') = [OrderStatus.PROCESSING])
    by (do 2 eexists; split; vm_compute; reflexivity).
  destruct E as (o' & db' & E & Hst). exists o', db'.
  split; [exact E|]. split; [|exact Hst].
  refine (proj1 (order_status_is_set_by_admin_only _ _ _ _ _ _ _ _ _ E));
    discriminate.
Defined.

(** * Checkouts on a storage that does not fail *)

Lemma check_stock_runs rows s :
  Forall (in_stock (products (working s))) rows ->
  for_each rows check_stock_body s = (Ok tt, s).
Proof.
  induction 1 as [|c rows (p & Hp & Hq) _ IH]; cbn [for_each];
    [reflexivity|].
  assert (Hc : check_stock_body c s = (Ok tt, s)).
  { unfold check_stock_body, crud.product_of, crud.attr, bind, get_working,
      ret.
    rewrite Hp. destruct (Product.track_inventory p); [|reflexivity].
    cbn [andb]. specialize (Hq eq_refl).
    destruct (Z.ltb_spec (Product.stock_quantity p) (CartItem.quantity c));
      [lia|reflexivity]. }
  now rewrite (bind_step _ _ _ _ _ Hc).
Qed.

Lemma in_stock_known ps c :
  in_stock ps c -> is_Some (ps !! CartItem.product_id c).
Proof. intros (p & Hp & _). now exists p. Qed.

Lemma order_lines_run rows s :
  Forall (fun c => is_Some (products (working s) !! CartItem.product_id c))
    rows ->
  exists lines, for_list rows order_line_body s = (Ok lines, s).
Proof.
  induction 1 as [|c rows [p Hp] _ (lines & IH)]; cbn [for_list].
  - now exists [].
  - assert (Hc : exists l, order_line_body c s = (Ok l, s)).
    { unfold order_line_body, crud.product_of, crud.attr, bind, get_working,
        ret.
      rewrite Hp. eauto. }
    destruct Hc as (l & Hc). exists (l :: lines).
    rewrite (bind_step _ _ _ _ _ Hc), (bind_step _ _ _ _ _ IH). reflexivity.
Qed.

Lemma take_stock_runs rows s :
  Forall (fun c => is_Some (products (working s) !! CartItem.product_id c))
    rows ->
  exists ps', for_each rows take_stock_body s = (Ok tt, with_products s ps').
Proof.
  revert s. induction rows as [|c rows IH]; intros s Hrows; cbn [for_each].
  - exists (products (working s)). unfold ret.
    now rewrite with_products_same.
  - apply Forall_cons in Hrows as [[p Hp] Hrows].
    assert (Hc : exists ps1,
               take_stock_body c s = (Ok tt, with_products s ps1)
               /\ forall k, is_Some (products (working s) !! k) ->
                            is_Some (ps1 !! k)).
    { unfold take_stock_body, crud.product_of, crud.attr, bind, get_working,
        ret.
      rewrite Hp. destruct (Product.track_inventory p).
      - eexists. split; [reflexivity|].
        intros k [q Hq].
        destruct (decide (CartItem.product_id c = k)) as [->|Hne].
        + rewrite lookup_alter_eq, Hq. now eexists.
        + rewrite lookup_alter_ne by exact Hne. now exists q.
      - exists (products (working s)).
        split; [now rewrite with_products_same|auto]. }
    destruct Hc as (ps1 & Hc & Hdom).
    destruct (IH (with_products s ps1)) as (ps' & Hloop).
    { eapply Forall_impl; [exact Hrows|]. intros x Hx. apply Hdom, Hx. }
    exists ps'. rewrite (bind_step _ _ _ _ _ Hc), Hloop. reflexivity.
Qed.

Lemma registered_checkout_runs env (u : User.t) db :
  user_rows (User.id u) db <> [] ->
  Forall (in_stock (products db)) (user_rows (User.id u) db) ->
  order_number_taken (orders db) (registered_order_number env) = false ->
  exists o db',
    run (routers_orders.create_order_from_cart env u) db None = (Ok o, db').
Proof.
  intros Hne Hstock Hfresh. unfold run. fold (open_session db None).
  rewrite create_order_from_cart_unfold.
  assert (Hcart : crud.get_user_cart (User.id u) (open_session db None)
                  = (Ok (user_rows (User.id u) db), open_session db None))
    by reflexivity.
  rewrite (bind_step _ _ _ _ _ Hcart).
  destruct (user_rows (User.id u) db) as [|c rows'] eqn:Hrows;
    [contradiction|].
  rewrite <- Hrows in *. clear Hne.
  rewrite (bind_step _ _ _ _ _
             (check_stock_runs _ (open_session db None) Hstock)).
  assert (Hknown : Forall (fun c => is_Some (products db
                                              !! CartItem.product_id c))
                     (user_rows (User.id u) db)).
  { eapply Forall_impl; [exact Hstock|]. intros x. apply in_stock_known. }
  destruct (order_lines_run _ (open_session db None) Hknown) as (lines & Hl).
  rewrite (bind_step _ _ _ _ _ Hl).
  rewrite (bind_step _ _ _ _ _
             (create_order_session env {| OrderCreate.items := lines |}
                (User.id u) (open_session db None) eq_refl eq_refl eq_refl
                Hfresh)).
  cbn zeta.
  match goal with
  | |- context [bind (for_each _ take_stock_body) _ ?s] =>
      destruct (take_stock_runs (user_rows (User.id u) db) s) as (ps' & Ht)
  end.
  { exact Hknown. }
  rewrite (bind_step _ _ _ _ _ Ht).
  erewrite bind_step; cycle 1.
  { apply db_commit_clean; reflexivity. }
  unfold crud.clear_user_cart.
  erewrite bind_step; cycle 1.
  { erewrite bind_step; cycle 1.
    { unfold modify_working. reflexivity. }
    apply db_commit_clean; reflexivity. }
  unfold ret. cbn [committed]. eauto.
Qed.

Lemma line_problem_None ps c :
  line_problem ps c = None ->
  exists p, ps !! SessionCart.product_id c = Some p
    /\ Product.status p = ProductStatus.ACTIVE
    /\ (Product.track_inventory p = true ->
        SessionCart.quantity c <= Product.stock_quantity p).
Proof.
  unfold line_problem.
  destruct (ps !! _) as [p|]; [|discriminate].
  destruct (ProductStatus.eqb _ _) eqn:Hst; [|discriminate]. cbn [negb].
  destruct (Product.track_inventory p && _) eqn:Hq; [discriminate|].
  intros _. exists p. split; [reflexivity|]. split.
  - now destruct (Product.status p).
  - intros Ht. rewrite Ht in Hq. cbn in Hq. lia.
Qed.

Lemma guest_check_body_eq c s :
  guest_check_body c s
  = (match line_problem (products (working s)) c with
     | Some d => Raise (ValueError d)
     | None => Ok tt
     end, s).
Proof.
  unfold guest_check_body, line_problem, crud.product_of, bind, get_working,
    ret, raise.
  destruct (products (working s) !! _) as [p|]; [|reflexivity].
  destruct (negb _); [reflexivity|].
  now destruct (Product.track_inventory p && _).
Qed.

Lemma guest_check_runs rows s :
  Forall (fun c => line_problem (products (working s)) c = None) rows ->
  for_each rows guest_check_body s = (Ok tt, s).
Proof.
  induction 1 as [|c rows Hc _ IH]; cbn [for_each]; [reflexivity|].
  unfold bind. now rewrite guest_check_body_eq, Hc.
Qed.

Lemma guest_amounts_run rows s :
  Forall (fun c => line_problem (products (working s)) c = None) rows ->
  for_list rows guest_amount_body s
  = (Ok (map (guest_amount (products (working s))) rows), s).
Proof.
  induction 1 as [|c rows Hc _ IH]; cbn [for_list map]; [reflexivity|].
  apply line_problem_None in Hc as (p & Hp & _).
  assert (Hb : guest_amount_body c s
               = (Ok (guest_amount (products (working s)) c), s)).
  { unfold guest_amount_body, guest_amount, crud.product_of, crud.attr, bind,
      get_working, ret.
    now rewrite Hp. }
  now rewrite (bind_step _ _ _ _ _ Hb), (bind_step _ _ _ _ _ IH).
Qed.

Lemma guest_item_runs order_id c s p :
  products (working s) !! SessionCart.product_id c = Some p ->
  (Product.track_inventory p = true ->
   SessionCart.quantity c <= Product.stock_quantity p) ->
  guest_item_body order_id c s
  = (Ok tt,
     add_new_items
       (with_products s
          (move_stock (SessionCart.product_id c) (- SessionCart.quantity c)
             (products (working s))))
       [guest_order_item order_id c p]).
Proof.
  intros Hp Hq.
  unfold guest_item_body, move_stock, crud.product_of, crud.attr, bind,
    get_working, ret.
  rewrite Hp. destruct (Product.track_inventory p) eqn:Ht; cbn [andb].
  - destruct (Z.ltb_spec (Product.stock_quantity p) (SessionCart.quantity c))
      as [Hlt|_]; [specialize (Hq eq_refl); lia|].
    reflexivity.
  - unfold db_add_order_item, add_new_items, with_products. cbn.
    now rewrite set_products_same.
Qed.

Lemma line_problem_elsewhere ps product_id n c :
  SessionCart.product_id c <> product_id ->
  line_problem (move_stock product_id n ps) c = line_problem ps c.
Proof.
  intros Hne. unfold line_problem. rewrite move_stock_lookup.
  destruct (Z.eqb_spec product_id (SessionCart.product_id c)) as [E|_];
    [congruence|].
  destruct (ps !! _) as [p|]; cbn; [|reflexivity]. now rewrite restock_0.
Qed.

(** With one row per product, the second stock check of the guest checkout
    passes whenever the first one did. *)
Lemma guest_items_run order_id rows s :
  NoDup (map SessionCart.product_id rows) ->
  Forall (fun c => line_problem (products (working s)) c = None) rows ->
  exists ps' items,
    for_each rows (guest_item_body order_id) s
    = (Ok tt, add_new_items (with_products s ps') items).
Proof.
  revert s. induction rows as [|c rows IH]; intros s Hnd Hrows;
    cbn [for_each].
  - exists (products (working s)), []. unfold ret.
    now rewrite with_products_same, add_new_items_nil.
  - cbn [map] in Hnd. apply NoDup_cons in Hnd as [Hc Hnd].
    apply Forall_cons in Hrows as [Hp Hrows].
    apply line_problem_None in Hp as (p & Hp & _ & Hq).
    rewrite (bind_step _ _ _ _ _ (guest_item_runs order_id c s p Hp Hq)).
    match goal with
    | |- context [for_each rows _ ?s1] =>
        destruct (IH s1 Hnd) as (ps' & items & Hloop)
    end.
    { cbn [add_new_items with_products working products set_products].
      apply Forall_forall. intros x Hx.
      rewrite line_problem_elsewhere.
      - rewrite Forall_forall in Hrows. now apply Hrows.
      - intros E. apply Hc. rewrite <- E. apply list_elem_of_In.
        apply in_map. now apply list_elem_of_In. }
    rewrite Hloop. eexists _, _.
    unfold add_new_items, with_products. cbn. rewrite <- app_assoc.
    reflexivity.
Qed.

Lemma get_session_cart_items session_id s :
  exists data,
    crud.get_session_cart session_id s = (Ok data, s)
    /\ crud.SessionCartData.items data
       = map (crud._serialize_session_cart_item (products (working s)))
           (crud.session_rows session_id (working s)).
Proof. eexists. split; reflexivity. Qed.

Lemma guest_checkout_runs env session_id db :
  crud.session_rows session_id db <> [] ->
  Forall (fun c => line_problem (products db) c = None)
    (crud.session_rows session_id db) ->
  NoDup (map SessionCart.product_id (crud.session_rows session_id db)) ->
  order_number_taken (orders db) (guest_order_number env session_id) = false ->
  exists o db',
    run (routers_orders.create_order_from_session_cart env session_id) db None
    = (Ok o, db').
Proof.
  intros Hne Hok Hnd Hfresh. unfold run. fold (open_session db None).
  unfold routers_orders.create_order_from_session_cart.
  destruct (get_session_cart_items session_id (open_session db None))
    as (data & Hdata & Hitems).
  rewrite (bind_step _ _ _ _ _ Hdata), Hitems.
  cbn [open_session working].
  destruct (crud.session_rows session_id db) as [|c rows'] eqn:Hrows;
    [contradiction|].
  cbn [map]. rewrite <- Hrows in *. clear Hne.
  assert (Hcrud : exists o s',
             crud.create_order_from_session_cart env session_id
               (open_session db None) = (Ok (Some o), s')).
  { rewrite create_order_from_session_cart_unfold.
    unfold get_working at 1, bind at 1. cbn [open_session working].
    rewrite Hrows. rewrite <- Hrows. fold (open_session db None).
    rewrite (bind_step _ _ _ _ _
               (guest_check_runs _ (open_session db None) Hok)).
    rewrite (bind_step _ _ _ _ _
               (guest_amounts_run _ (open_session db None) Hok)).
    erewrite bind_step; cycle 1.
    { unfold db_add_order. cbn [open_session working new_orders app].
      rewrite app_nil_r. reflexivity. }
    erewrite bind_step; cycle 1.
    { eapply db_commit_order; reflexivity || exact Hfresh. }
    cbn zeta.
    match goal with
    | |- context [bind (for_each _ (guest_item_body ?i)) _ ?s] =>
        destruct (guest_items_run i (crud.session_rows session_id db) s Hnd)
          as (ps' & items & Hloop)
    end.
    { exact Hok. }
    rewrite (bind_step _ _ _ _ _ Hloop).
    unfold crud.clear_session_cart.
    erewrite bind_step; cycle 1.
    { erewrite bind_step; cycle 1.
      { unfold modify_working. reflexivity. }
      erewrite bind_step; cycle 1.
      { apply db_commit_items; reflexivity. }
      reflexivity. }
    erewrite bind_step; cycle 1.
    { apply db_commit_clean; reflexivity. }
    unfold ret. eauto. }
  destruct Hcrud as (o & s' & Hcrud).
  assert (Hexcept : except_ValueError
                      (crud.create_order_from_session_cart env session_id)
                      (open_session db None) = (Ok (Some o), s')).
  { unfold except_ValueError. now rewrite Hcrud. }
  rewrite (bind_step _ _ _ _ _ Hexcept). unfold ret. eauto.
Qed.

(** X16.  On a storage that does not fail, a checkout
    succeeds whenever the cart is not empty, every line passes the checks of
    the handler (for a registered user: the product exists and, if it tracks
    its stock, has the quantity of the line; for a guest: the product
    exists, is active and has the quantity), the order number the handler
    generates is not in the table yet and, for a guest, no two rows of the
    cart are for the same product. *)
Theorem checkout_succeeds (env : Env) (owner : Owner) (db : DB) :
  ready owner db ->
  order_number_taken (orders db) (checkout_order_number env owner) = false ->
  exists o db', run (checkout env owner) db None = (Ok o, db').
Proof.
  destruct owner as [u|session_id]; cbn [ready checkout checkout_order_number].
  - intros [Hne Hstock]. now apply registered_checkout_runs.
  - intros (Hne & Hok & Hnd). now apply guest_checkout_runs.
Qed.

Lemma checkout_succeeds_witness :
  ready (Guest Scenario.guest) Scenario.shop_100
  /\ order_number_taken (orders Scenario.shop_100)
       (checkout_order_number Scenario.env (Guest Scenario.guest)) = false
  /\ exists o db',
      run (checkout Scenario.env (Guest Scenario.guest)) Scenario.shop_100
        None = (Ok o, db').
Proof.
  assert (H : ready (Guest Scenario.guest) Scenario.shop_100).
  { split; [discriminate|]. split.
    - repeat constructor.
    - apply NoDup_singleton. }
  split; [exact H|]. split; [reflexivity|].
  exact (checkout_succeeds Scenario.env (Guest Scenario.guest)
           Scenario.shop_100 H eq_refl).
Defined.

(** X17.  On a storage that does not fail, a checkout that
    raises has changed nothing: no order, no line item, no stock and no cart
    row.  For a guest cart this holds when no two rows of the cart are for
    the same product, which is what the cart requests keep. *)
Theorem refused_checkout_changes_nothing
    (env : Env) (owner : Owner) (db : DB) (e : Error) (db' : DB) :
  run (checkout env owner) db None = (Raise e, db') ->
  (forall session_id,
      owner = Guest session_id ->
      NoDup (map SessionCart.product_id (crud.session_rows session_id db))) ->
  db' = db.
Proof.
  intros H Hnd.
  assert (Hnot : ~ (ready owner db
                    /\ order_number_taken (orders db)
                         (checkout_order_number env owner) = false)).
  { intros [Hready Hfresh].
    destruct (checkout_succeeds env owner db Hready Hfresh) as (o & d & Hrun).
    congruence. }
  revert H. unfold run. fold (open_session db None).
  destruct (checkout env owner (open_session db None)) as [r0 sf] eqn:E.
  intros [= -> <-].
  destruct owner as [u|session_id]; cbn [checkout ready checkout_order_number]
    in E, Hnot.
  - rewrite create_order_from_cart_unfold in E.
    apply bind_inv in E as [(cart & s1 & Ecart & E) | (e1 & Ecart & _)];
      [|discriminate Ecart].
    assert (Hcart : cart = user_rows (User.id u) db).
    { unfold crud.get_user_cart, bind, get_working, ret in Ecart.
      now injection Ecart as <- _. }
    unmoved Ecart. subst cart.
    destruct (user_rows (User.id u) db) as [|c rows'] eqn:Hrows;
      [now injection E as _ <-|].
    rewrite <- Hrows in *.
    apply bind_inv in E as [(v & s1 & Ev & E) | (e1 & Ev & _)];
      [|now unmoved Ev].
    destruct v. pose proof (check_stock_Ok _ _ _ Ev) as Hstock. unmoved Ev.
    apply bind_inv in E as [(lines & s1 & El & E) | (e1 & El & _)];
      [|now unmoved El].
    unmoved El.
    apply bind_inv in E as [(order & s3 & Eorder & E) | (e1 & Eorder & _)].
    + exfalso. apply Hnot. split; [split; [rewrite Hrows; discriminate|]|].
      * exact Hstock.
      * rewrite create_order_unfold in Eorder.
        step Eorder o' s2. unfold db_add_order in Eo'.
        cbn [open_session working new_orders] in Eo'.
        rewrite app_nil_r in Eo'. injection Eo' as <- <-.
        step Eorder t1 s4. destruct t1.
        eapply db_commit_order_Ok in Et1; [|reflexivity].
        exact (proj1 Et1).
    + rewrite create_order_unfold in Eorder.
      apply bind_inv in Eorder
        as [(o' & s2 & Eo' & Eorder) | (e' & Eo' & _)]; [|discriminate Eo'].
      unfold db_add_order in Eo'.
      cbn [open_session working new_orders] in Eo'. rewrite app_nil_r in Eo'.
      injection Eo' as <- <-.
      apply bind_inv in Eorder
        as [(t1 & s4 & Et1 & Eorder) | (e' & Et1 & _)].
      * exfalso. apply Hnot. split; [split; [rewrite Hrows; discriminate|]|].
        -- exact Hstock.
        -- destruct t1. eapply db_commit_order_Ok in Et1; [|reflexivity].
           exact (proj1 Et1).
      * apply db_commit_Raise in Et1. now subst sf.
  - unfold routers_orders.create_order_from_session_cart in E.
    destruct (get_session_cart_items session_id (open_session db None))
      as (data & Hdata & Hitems).
    rewrite (bind_step _ _ _ _ _ Hdata), Hitems in E.
    cbn [open_session working] in E.
    destruct (crud.session_rows session_id db) as [|c rows'] eqn:Hrows;
      [now injection E as _ <-|].
    cbn [map] in E. rewrite <- Hrows in *.
    fold (open_session db None) in E.
    assert (Hcrud : exists r,
               crud.create_order_from_session_cart env session_id
                 (open_session db None) = (r, sf)
               /\ forall o, r <> Ok (Some o)).
    { unfold bind, except_ValueError in E.
      destruct (crud.create_order_from_session_cart env session_id
                  (open_session db None)) as [[[order|]|e1] s1].
      - discriminate E.
      - injection E as _ <-. eexists. split; [reflexivity|discriminate].
      - exists (Raise e1). destruct e1; injection E as _ <-;
          (split; [reflexivity|discriminate]). }
    clear E. destruct Hcrud as (r & E & Hr).
    rewrite create_order_from_session_cart_unfold in E.
    apply bind_inv in E as [(w & s1 & Ew & E) | (e1 & Ew & _)];
      [|discriminate Ew].
    unfold get_working in Ew. injection Ew as <- <-.
    cbn [open_session working] in E. rewrite Hrows in E.
    rewrite <- Hrows in E. cbn zeta in E.
    fold (open_session db None) in E.
    apply bind_inv in E as [(v & s1 & Ev & E) | (e1 & Ev & _)];
      [|now unmoved Ev].
    destruct v. pose proof (guest_check_Ok _ _ _ Ev) as Hok. unmoved Ev.
    cbn [open_session working] in Hok.
    apply bind_inv in E as [(amounts & s1 & Ea & E) | (e1 & Ea & _)];
      [|now unmoved Ea].
    unmoved Ea.
    apply bind_inv in E as [(o' & s2 & Eo' & E) | (e' & Eo' & _)];
      [|discriminate Eo'].
    unfold db_add_order in Eo'.
    cbn [open_session working new_orders] in Eo'. rewrite app_nil_r in Eo'.
    injection Eo' as <- <-.
    apply bind_inv in E as [(t1 & s4 & Et1 & E) | (e' & Et1 & _)].
    + exfalso. apply Hnot. destruct t1.
      eapply db_commit_order_Ok in Et1; [|reflexivity].
      split; [split; [rewrite Hrows; discriminate|split]|].
      * exact Hok.
      * now apply (Hnd session_id).
      * exact (proj1 Et1).
    + apply db_commit_Raise in Et1. now subst sf.
Qed.

Lemma refused_checkout_changes_nothing_witness :
  exists e db',
    run (checkout Scenario.env (Guest Scenario.guest)) shop_inactive None
    = (Raise e, db')
    /\ db' = shop_inactive.
Proof.
  assert (E : exists e db',
             run (checkout Scenario.env (Guest Scenario.guest)) shop_inactive
               None = (Raise e, db'))
    by (do 2 eexists; vm_compute; reflexivity).
  destruct E as (e & db' & E). exists e, db'. split; [exact E|].
  apply (refused_checkout_changes_nothing _ _ _ _ _ E).
  intros session_id [= <-]. apply NoDup_singleton.
Defined.

(** * The amounts a guest is shown *)

Lemma Qmult_comm_eq (x y : Q) : (x * y)%Q = (y * x)%Q.
Proof.
  unfold Qmult. f_equal; [apply Z.mul_comm|apply Pos.mul_comm].
Qed.

Lemma serialized_subtotals ps rows :
  Forall (fun c => line_problem ps c = None) rows ->
  map crud.SessionCartItemData.subtotal
    (map (crud._serialize_session_cart_item ps) rows)
  = map (guest_amount ps) rows.
Proof.
  induction 1 as [|c rows Hc _ IH]; cbn [map]; [reflexivity|].
  rewrite IH. f_equal.
  apply line_problem_None in Hc as (p & Hp & _).
  unfold crud._serialize_session_cart_item, guest_amount. cbn. rewrite Hp.
  apply Qmult_comm_eq.
Qed.

(** X18.  The amounts of the session cart summary are the
    amounts the guest checkout stores: when the checkout of a session cart
    succeeds, the subtotal, the tax, the shipping and the total of the order
    are those that [GET /cart/session/{id}/summary] answers for the cart
    before the checkout. *)
Theorem guest_order_amounts_are_those_of_the_summary
    (env : Env) (session_id : string) (db : DB) (f f' : option nat)
    (o : Order.t) (db' : DB) :
  run (checkout env (Guest session_id)) db f = (Ok o, db') ->
  exists data,
    run (routers_cart.get_session_cart_summary session_id) db f'
    = (Ok data, db)
    /\ crud.SessionCartData.subtotal data = Order.subtotal o
    /\ crud.SessionCartData.tax_amount data = Order.tax_amount o
    /\ crud.SessionCartData.shipping_amount data = Order.shipping_amount o
    /\ crud.SessionCartData.total_amount data = Order.total_amount o.
Proof.
  intros H. cbn [checkout] in H. apply guest_checkout_result in H.
  cbn zeta in H. destruct H as (items & _ & Hok & _ & -> & _).
  eexists. split; [reflexivity|].
  cbn [crud.SessionCartData.subtotal crud.SessionCartData.tax_amount
       crud.SessionCartData.shipping_amount crud.SessionCartData.total_amount
       guest_order Order.subtotal Order.tax_amount Order.shipping_amount
       Order.total_amount working].
  fold (crud.session_rows session_id db).
  rewrite (serialized_subtotals _ _ Hok). auto.
Qed.

Lemma guest_order_amounts_are_those_of_the_summary_witness :
  exists o db' data,
    run (checkout Scenario.env (Guest Scenario.guest)) shop_quarter None
    = (Ok o, db')
    /\ run (routers_cart.get_session_cart_summary Scenario.guest)
         shop_quarter None = (Ok data, shop_quarter)
    /\ crud.SessionCartData.total_amount data = Order.total_amount o
    /\ Order.total_amount o == 5029 # 100.
Proof.
  assert (E : exists o db',
             run (checkout Scenario.env (Guest Scenario.guest)) shop_quarter
               None = (Ok o, db')
             /\ Order.total_amount o == 5029 # 100)
    by (do 2 eexists; split; vm_compute; reflexivity).
  destruct E as (o & db' & E & Htotal).
  destruct (guest_order_amounts_are_those_of_the_summary _ _ _ _ None _ _ E)
    as (data & Hdata & _ & _ & _ & Ht).
  exists o, db', data. auto.
Defined.

(** * Coupons, ratings and slugs *)

Lemma NoDup_map_inj {A B} (g : A -> B) (l : list A) (a b : A) :
  NoDup (map g l) -> In a l -> In b l -> g a = g b -> a = b.
Proof.
  induction l as [|x l IH]; cbn; [tauto|].
  rewrite NoDup_cons, list_elem_of_In, in_map_iff.
  intros [Hx Hl] [->|Ha] [->|Hb] E; auto.
  - exfalso. apply Hx. exists b. auto.
  - exfalso. apply Hx. exists a. auto.
Qed.

Lemma find_first_In {A} (p : A -> bool) (l : list A) (a : A) :
  In a l -> p a = true -> exists b, List.find p l = Some b.
Proof.
  induction l as [|x l IH]; cbn; [tauto|].
  intros [->|Ha] Hp.
  - rewrite Hp. eauto.
  - destruct (p x); eauto.
Qed.

(** X19.  With the codes of the table all different, [validate_coupon]
    accepts a coupon exactly when it is the row of the table with the code
    of the request, is active, is valid at the time of the request, asks for
    no more than the order total, and is not used up; a usage limit of zero
    is no limit, like no usage limit at all.  Whose request it is makes no
    difference. *)
Theorem validate_coupon_accepts
    (coupons : list crud.Coupon.t) (now1 now2 : Z) (code : string)
    (user_id : Z) (order_total : Q) (coupon : crud.Coupon.t) :
  NoDup (map crud.Coupon.code coupons) ->
  crud.validate_coupon coupons now1 now2 code user_id order_total = inl coupon
  <-> In coupon coupons
      /\ crud.Coupon.code coupon = code
      /\ crud.Coupon.is_active coupon = true
      /\ crud.Coupon.valid_from coupon <= now1
      /\ now2 <= crud.Coupon.valid_until coupon
      /\ (crud.Coupon.minimum_amount coupon <= order_total)%Q
      /\ match crud.Coupon.usage_limit coupon with
         | Some usage_limit =>
             usage_limit = 0 \/ crud.Coupon.usage_count coupon < usage_limit
         | None => True
         end.
Proof.
  intros Hcodes.
  set (sel := fun c : crud.Coupon.t =>
                String.eqb (crud.Coupon.code c) code
                && Bool.eqb (crud.Coupon.is_active c) true
                && (crud.Coupon.valid_from c <=? now1)
                && (now2 <=? crud.Coupon.valid_until c)).
  assert (Hsel : forall c,
             sel c = true
             <-> crud.Coupon.code c = code /\ crud.Coupon.is_active c = true
                 /\ crud.Coupon.valid_from c <= now1
                 /\ now2 <= crud.Coupon.valid_until c).
  { intros c. unfold sel.
    rewrite !andb_true_iff, String.eqb_eq, Bool.eqb_true_iff, !Z.leb_le.
    tauto. }
  assert (Hrest : forall c,
             (if Qlt_bool order_total (crud.Coupon.minimum_amount c)
              then inr (crud.Minimum_order_amount_is
                          (crud.Coupon.minimum_amount c))
              else if match crud.Coupon.usage_limit c with
                      | Some usage_limit =>
                          negb (usage_limit =? 0)
                          && (usage_limit <=? crud.Coupon.usage_count c)
                      | None => false
                      end
              then inr crud.Coupon_usage_limit_exceeded
              else inl c) = inl coupon
             <-> c = coupon
                 /\ (crud.Coupon.minimum_amount c <= order_total)%Q
                 /\ match crud.Coupon.usage_limit c with
                    | Some usage_limit =>
                        usage_limit = 0
                        \/ crud.Coupon.usage_count c < usage_limit
                    | None => True
                    end).
  { intros c. unfold Qlt_bool.
    destruct (Qle_bool (crud.Coupon.minimum_amount c) order_total) eqn:Hmin;
      cbn [negb].
    - apply Qle_bool_iff in Hmin.
      destruct (crud.Coupon.usage_limit c) as [n|].
      + destruct (Z.eqb_spec n 0) as [Hn|Hn]; cbn [negb andb].
        * split; [intros [= ->]; auto|intros (-> & _); reflexivity].
        * destruct (Z.leb_spec n (crud.Coupon.usage_count c)).
          -- split; [discriminate|intros (_ & _ & [?|?]); lia].
          -- split; [intros [= ->]; auto|intros (-> & _); reflexivity].
      + split; [intros [= ->]; auto|intros (-> & _); reflexivity].
    - split; [discriminate|]. intros (_ & Hle & _).
      apply Qle_bool_iff in Hle. congruence. }
  unfold crud.validate_coupon, crud.get_coupon_by_code. fold sel.
  destruct (List.find sel coupons) as [c|] eqn:Hfind.
  - apply find_some in Hfind as [Hin Hc]. apply Hsel in Hc.
    rewrite Hrest. split.
    + intros (-> & H). tauto.
    + intros (Hin' & Hcode & H).
      assert (E : c = coupon).
      { apply (NoDup_map_inj crud.Coupon.code coupons); auto.
        destruct Hc as [-> _]. now symmetry. }
      subst c. tauto.
  - split; [discriminate|]. intros (Hin & H).
    destruct (find_first_In sel coupons coupon Hin) as [b Hb];
      [apply Hsel; tauto|congruence].
Qed.

Lemma validate_coupon_accepts_witness :
  NoDup (map crud.Coupon.code [CouponSample.welcome])
  /\ crud.validate_coupon [CouponSample.welcome] 1705312800 1705312800
       "WELCOME10" 7 236
     = inl CouponSample.welcome.
Proof.
  assert (H : NoDup (map crud.Coupon.code [CouponSample.welcome]))
    by apply NoDup_singleton.
  split; [exact H|].
  apply (proj2 (validate_coupon_accepts [CouponSample.welcome] 1705312800
                  1705312800 "WELCOME10" 7 236 CouponSample.welcome H)).
  repeat split; cbn; auto; try lia. discriminate.
Defined.

(** ** Ratings *)

Lemma round1_error (x : Q) : (Qabs (round1 x - x) <= 1 # 20)%Q.
Proof.
  unfold round1. pose proof (round_half_even_error (x * 10)) as He.
  apply Qabs_Qle_condition in He as [He1 He2].
  apply Qabs_Qle_condition.
  set (n := inject_Z (round_half_even (x * 10))) in *.
  assert (Hn : (n / 10 == n * (1 # 10))%Q) by field.
  rewrite Hn. split; lra.
Qed.

(** Rounding to the nearest multiple of [u] moves a number by half of [u]
    at most. *)
Lemma nearest_multiple_error (x u : Q) :
  (0 < u)%Q ->
  (Qabs (inject_Z (round_half_even (x / u)) * u - x) <= u * (1 # 2))%Q.
Proof.
  intros Hu. pose proof (round_half_even_error (x / u)) as He.
  set (r := inject_Z (round_half_even (x / u))) in *.
  assert (Hx : (r * u - x == (r - x / u) * u)%Q) by (field; lra).
  rewrite Hx, Qabs_Qmult, (Qabs_pos u) by lra.
  rewrite (Qmult_comm u). apply Qmult_le_compat_r; [exact He|lra].
Qed.

(** Between 1 and 5, a binary64 number is within [2^-51] of the number it
    stands for. *)
Lemma float_of_Q_error (x : Q) :
  (1 <= x)%Q -> (x <= 5)%Q ->
  (Qabs (float_of_Q x - x) <= 1 # 2251799813685248)%Q.
Proof.
  intros H1 H5. unfold float_of_Q.
  destruct (Qeq_bool x 0) eqn:H0; [apply Qeq_bool_iff in H0; lra|].
  cbv zeta.
  assert (Ha : (Qabs x == x)%Q) by (apply Qabs_pos; lra).
  assert (He : 0 <= binade (Qabs x) <= 2).
  { unfold binade.
    assert (Hle : Qle_bool 1 (Qabs x) = true)
      by (apply Qle_bool_iff; rewrite Ha; exact H1).
    rewrite Hle.
    assert (Hf : 1 <= Qfloor (Qabs x) <= 5).
    { split.
      - change 1%Z with (Qfloor 1). apply Qfloor_resp_le. now rewrite Ha.
      - change 5%Z with (Qfloor 5). apply Qfloor_resp_le. now rewrite Ha. }
    split; [apply Z.log2_nonneg|].
    change 2%Z with (Z.log2 5). apply Z.log2_le_mono. lia. }
  assert (Hu : (0 < pow2 (binade (Qabs x) - 52))%Q
               /\ (pow2 (binade (Qabs x) - 52) <= 1 # 1125899906842624)%Q).
  { assert (Hc : binade (Qabs x) = 0%Z \/ binade (Qabs x) = 1%Z
                 \/ binade (Qabs x) = 2%Z) by lia.
    destruct Hc as [-> | [-> | ->]]; split;
      first [reflexivity | discriminate]. }
  destruct Hu as [Hu1 Hu2].
  pose proof (nearest_multiple_error x _ Hu1) as Herr.
  eapply Qle_trans; [exact Herr|]. lra.
Qed.

Lemma sum_ratings_between (rows : list crud.Review.t) (a : Z) :
  Forall (fun r => 1 <= crud.Review.rating r <= 5) rows ->
  a + Z.of_nat (length rows)
  <= fold_left Z.add (map crud.Review.rating rows) a
  <= a + 5 * Z.of_nat (length rows).
Proof.
  intros H. revert a. induction H as [|r rows Hr _ IH]; intros a.
  - cbn. lia.
  - cbn [map fold_left length]. specialize (IH (a + crud.Review.rating r)).
    lia.
Qed.

(** A tenth that is within a twentieth and a little of the mean of fewer
    than 10^12 whole numbers is within a twentieth of it: the distance is a
    multiple of the twentieth of the reciprocal of their number. *)
Lemma tenth_near_mean (n s c : Z) :
  0 < c <= 1000000000000 ->
  (Qabs (inject_Z n / 10 - inject_Z s / inject_Z c)
   <= (1 # 20) + (1 # 2251799813685248))%Q ->
  (Qabs (inject_Z n / 10 - inject_Z s / inject_Z c) <= 1 # 20)%Q.
Proof.
  intros [Hc Hmax] H.
  assert (HcQ : (0 < inject_Z c)%Q) by (rewrite <- (Zlt_Qlt 0); exact Hc).
  assert (HmaxQ : (inject_Z c <= 1000000000000)%Q)
    by (change 1000000000000%Q with (inject_Z 1000000000000);
        rewrite <- Zle_Qle; exact Hmax).
  set (d := (inject_Z n / 10 - inject_Z s / inject_Z c)%Q) in *.
  assert (Hd : (inject_Z (2 * n * c - 20 * s) == 20 * inject_Z c * d)%Q).
  { unfold d, Z.sub. rewrite inject_Z_plus, inject_Z_opp, !inject_Z_mult.
    change (inject_Z 2) with 2%Q. change (inject_Z 20) with 20%Q.
    field. lra. }
  apply Qabs_Qle_condition in H as [Hlo Hhi].
  assert (Hlo' : (- inject_Z c - 1 < 20 * inject_Z c * d)%Q).
  { assert (E : (20 * inject_Z c * (- ((1 # 20) + (1 # 2251799813685248)))
                 <= 20 * inject_Z c * d)%Q)
      by (apply Qmult_le_l; [lra|exact Hlo]).
    lra. }
  assert (Hhi' : (20 * inject_Z c * d < inject_Z c + 1)%Q).
  { assert (E : (20 * inject_Z c * d
                 <= 20 * inject_Z c * ((1 # 20) + (1 # 2251799813685248)))%Q)
      by (apply Qmult_le_l; [lra|exact Hhi]).
    lra. }
  rewrite <- Hd in Hlo', Hhi'.
  assert (Hz : - c <= 2 * n * c - 20 * s <= c).
  { split.
    - assert (Hlt : (inject_Z (- c - 1) < inject_Z (2 * n * c - 20 * s))%Q).
      { unfold Z.sub at 1. rewrite inject_Z_plus, inject_Z_opp.
        change (inject_Z (- (1))) with (- (1))%Q. exact Hlo'. }
      rewrite <- Zlt_Qlt in Hlt. lia.
    - assert (Hlt : (inject_Z (2 * n * c - 20 * s) < inject_Z (c + 1))%Q).
      { rewrite (inject_Z_plus c 1). change (inject_Z 1) with 1%Q.
        exact Hhi'. }
      rewrite <- Zlt_Qlt in Hlt. lia. }
  destruct Hz as [Hz1 Hz2]. rewrite Zle_Qle in Hz1, Hz2.
  rewrite inject_Z_opp in Hz1. rewrite Hd in Hz1, Hz2.
  apply Qabs_Qle_condition. split.
  - apply (Qmult_le_l _ _ (20 * inject_Z c)); [lra|].
    eapply Qle_trans; [|exact Hz1]. lra.
  - apply (Qmult_le_l _ _ (20 * inject_Z c)); [lra|].
    eapply Qle_trans; [exact Hz2|]. lra.
Qed.

(** X20.  With every rating between 1 and 5 and at most 10^12 reviews,
    the rating of a product counts its approved reviews; it has no average
    exactly when there is no approved review; and otherwise the average is
    a number of tenths between 1 and 5 that is within 0.05 of the mean of
    the approved ratings.  When the mean is half way between two tenths,
    the binary number that stands for it decides: 4.35 becomes 4.3. *)
Theorem product_rating_is_within_a_twentieth_of_the_mean
    (reviews : list crud.Review.t) (product_id : Z) :
  Forall (fun r => 1 <= crud.Review.rating r <= 5) reviews ->
  Z.of_nat (length reviews) <= 1000000000000 ->
  let approved :=
    List.filter (fun r => (crud.Review.product_id r =? product_id)
                          && crud.Review.is_approved r) reviews in
  let rating := crud._calculate_product_rating reviews product_id in
  let mean :=
    (inject_Z (fold_left Z.add (map crud.Review.rating approved) 0%Z)
     / inject_Z (Z.of_nat (length approved)))%Q in
  crud.Rating.review_count rating = Z.of_nat (length approved)
  /\ (crud.Rating.average_rating rating = None <-> approved = [])
  /\ forall a,
      crud.Rating.average_rating rating = Some a ->
      (exists n : Z, 10 <= n <= 50 /\ (a == inject_Z n / 10)%Q)
      /\ (Qabs (a - mean) <= 1 # 20)%Q.
Proof.
  intros Hall Hmax approved rating mean.
  assert (Hrows :
    List.filter (fun r => (crud.Review.product_id r =? product_id)
                          && Bool.eqb (crud.Review.is_approved r) true)
      reviews = approved).
  { unfold approved. apply filter_ext. intros r.
    now destruct (crud.Review.is_approved r). }
  assert (Happroved : Forall (fun r => 1 <= crud.Review.rating r <= 5)
                        approved).
  { unfold approved. clear -Hall.
    induction Hall as [|r l Hr _ IH]; cbn; [constructor|].
    destruct (_ && _); [constructor|]; auto. }
  assert (Hcount : Z.of_nat (length approved) <= 1000000000000).
  { pose proof (List.filter_length_le
                  (fun r => (crud.Review.product_id r =? product_id)
                            && crud.Review.is_approved r) reviews) as Hle.
    fold approved in Hle. lia. }
  unfold rating, crud._calculate_product_rating. rewrite Hrows.
  cbn [crud.Rating.review_count crud.Rating.average_rating].
  split; [reflexivity|].
  subst mean. clear Hrows rating. clearbody approved.
  destruct approved as [|r rows]; [split; [tauto|discriminate]|].
  remember (r :: rows) as l eqn:Hl.
  set (s := fold_left Z.add (map crud.Review.rating l) 0%Z) in *.
  set (c := Z.of_nat (length l)) in *.
  set (mean := (inject_Z s / inject_Z c)%Q).
  assert (Hcase : match l with
                  | [] => None
                  | _ :: _ => Some mean
                  end = Some mean) by now rewrite Hl.
  replace (match l with
           | [] => None
           | _ :: _ => Some (inject_Z s / inject_Z c)%Q
           end) with (Some mean) by (symmetry; exact Hcase).
  pose proof (sum_ratings_between l 0 Happroved) as Hsum.
  fold s c in Hsum.
  assert (Hn : 0 < c) by (unfold c; rewrite Hl; cbn; lia).
  assert (Hmean : (1 <= mean)%Q /\ (mean <= 5)%Q).
  { unfold mean.
    assert (Hn' : (0 < inject_Z c)%Q) by (rewrite <- (Zlt_Qlt 0); exact Hn).
    rewrite Zle_Qle, Zle_Qle in Hsum. destruct Hsum as [H1 H2].
    rewrite inject_Z_plus in H1, H2. rewrite inject_Z_mult in H2.
    change (inject_Z 0) with 0%Q in H1, H2.
    change (inject_Z 5) with 5%Q in H2.
    split.
    - apply Qle_shift_div_l; [exact Hn'|]. lra.
    - apply Qle_shift_div_r; [exact Hn'|]. lra. }
  destruct Hmean as [Hm1 Hm5].
  destruct (Qeq_bool mean 0) eqn:Hzero.
  { apply Qeq_bool_iff in Hzero. lra. }
  split; [split; [discriminate|rewrite Hl; discriminate]|].
  intros a [= <-].
  set (n := round_half_even (float_of_Q mean * 10)).
  assert (Ha : (round1 (float_of_Q mean) == inject_Z n / 10)%Q)
    by reflexivity.
  assert (Hnear : (Qabs (inject_Z n / 10 - mean) <= 1 # 20)%Q).
  { apply tenth_near_mean; [lia|]. fold mean. rewrite <- Ha.
    pose proof (round1_error (float_of_Q mean)) as E1.
    pose proof (float_of_Q_error mean Hm1 Hm5) as E2.
    apply Qabs_Qle_condition in E1 as [E1 E1'].
    apply Qabs_Qle_condition in E2 as [E2 E2'].
    apply Qabs_Qle_condition. split; lra. }
  split; [|rewrite Ha; exact Hnear].
  exists n. split; [|exact Ha].
  apply Qabs_Qle_condition in Hnear as [Hlo Hhi].
  assert (Hq : (inject_Z n / 10 == inject_Z n * (1 # 10))%Q) by field.
  rewrite Hq in Hlo, Hhi.
  split.
  - destruct (Z.le_gt_cases 10 n) as [|Hlt]; [assumption|].
    assert (H : (inject_Z n <= inject_Z 9)%Q) by (rewrite <- Zle_Qle; lia).
    change (inject_Z 9) with 9%Q in H. exfalso. lra.
  - destruct (Z.le_gt_cases n 50) as [|Hlt]; [assumption|].
    assert (H : (inject_Z 51 <= inject_Z n)%Q) by (rewrite <- Zle_Qle; lia).
    change (inject_Z 51) with 51%Q in H. exfalso. lra.
Qed.

Lemma product_rating_is_within_a_twentieth_of_the_mean_witness :
  Forall (fun r => 1 <= crud.Review.rating r <= 5) CouponSample.tie_reviews
  /\ exists a,
      crud.Rating.average_rating
        (crud._calculate_product_rating CouponSample.tie_reviews 1) = Some a
      /\ (a == 43 # 10)%Q
      /\ (Qabs (a - (87 # 20)) <= 1 # 20)%Q.
Proof.
  assert (H : Forall (fun r => 1 <= crud.Review.rating r <= 5)
                CouponSample.tie_reviews)
    by (repeat constructor; cbn; lia).
  split; [exact H|].
  assert (Hmax : Z.of_nat (length CouponSample.tie_reviews) <= 1000000000000)
    by (cbn; lia).
  assert (E : exists a,
             crud.Rating.average_rating
               (crud._calculate_product_rating CouponSample.tie_reviews 1)
             = Some a /\ (a == 43 # 10)%Q)
    by (eexists; split; vm_compute; reflexivity).
  destruct E as (a & E & Ha). exists a. split; [exact E|].
  split; [exact Ha|].
  destruct (product_rating_is_within_a_twentieth_of_the_mean
              CouponSample.tie_reviews 1 H Hmax) as (_ & _ & Hb).
  destruct (Hb a E) as [_ Hnear]. exact Hnear.
Defined.

(** ** Slugs *)

Lemma slug_char_fixed c :
  slug_char c = true ->
  lower_ascii c = c /\ Ascii.eqb c " " = false.
Proof.
  destruct c as [[] [] [] [] [] [] [] []]; cbn; intros H;
    first [discriminate H | split; reflexivity].
Qed.

Lemma re_sub_not_all keep s : all_chars keep (re_sub_not keep s) = true.
Proof.
  induction s as [|c s IH]; cbn; [reflexivity|].
  destruct (keep c) eqn:Hc; cbn; [now rewrite Hc|exact IH].
Qed.

Lemma slug_of_slug s :
  all_chars slug_char s = true ->
  re_sub_not slug_char (replace_char " " "-" (lower s)) = s.
Proof.
  induction s as [|c s IH]; cbn; [reflexivity|].
  rewrite andb_true_iff. intros [Hc Hs].
  destruct (slug_char_fixed c Hc) as [-> ->]. rewrite Hc. now rewrite IH.
Qed.

(** X21.  The slug [create_category] generates from a name, when the
    request gives none or an empty one, has only lower-case letters, digits
    and hyphens; generating a slug from it again gives the same slug; and a
    name that is such a string already is its own slug.  A slug the request
    does give is stored as it is. *)
Theorem generated_slug_is_clean (name : string) :
  let slug := crud.create_category_slug name None in
  all_chars slug_char slug = true
  /\ crud.create_category_slug slug None = slug
  /\ crud.create_category_slug name (Some "") = slug
  /\ (all_chars slug_char name = true -> slug = name)
  /\ forall c given,
      crud.create_category_slug name (Some (String c given)) = String c given.
Proof.
  cbn zeta. unfold crud.create_category_slug.
  split; [apply re_sub_not_all|].
  split; [apply slug_of_slug, re_sub_not_all|].
  split; [reflexivity|].
  split; [apply slug_of_slug|reflexivity].
Qed.

Lemma generated_slug_is_clean_witness :
  crud.create_category_slug "Health & Wellness 2024!" None
  = "health--wellness-2024"
  /\ all_chars slug_char "health--wellness-2024" = true.
Proof.
  split; [reflexivity|].
  exact (proj1 (generated_slug_is_clean "health--wellness-2024")).
Defined.

(** * The cart summaries *)

Lemma round2_exact (x : Q) (k : Z) :
  (x * 100 == inject_Z k)%Q -> (round2 x == x)%Q.
Proof.
  intros H. unfold round2. rewrite (round_half_even_Z k _ H), <- H. field.
Qed.

Lemma whole_sum (xs : list Q) (a : Q) :
  (exists m : Z, a == inject_Z m)%Q ->
  Forall (fun x => exists n : Z, x == inject_Z n)%Q xs ->
  exists m : Z, (fold_left Qplus xs a == inject_Z m)%Q.
Proof.
  intros Ha Hxs. revert a Ha. induction Hxs as [|x xs [n Hn] _ IH];
    intros a [m Hm]; cbn [fold_left]; [now exists m|].
  apply IH. exists (m + n). rewrite inject_Z_plus, Hm, Hn. reflexivity.
Qed.

Lemma whole_subtotal (ps : gmap Z Product.t) (rows : list CartItem.t) :
  whole_amounts ps rows ->
  exists m : Z, (summary_subtotal ps rows == inject_Z m)%Q.
Proof.
  intros H. unfold summary_subtotal, py_sum. apply whole_sum.
  - now exists 0.
  - apply Forall_map. eapply Forall_impl; [exact H|].
    intros c [_ Hc]. cbn beta.
    destruct (ps !! CartItem.product_id c) as [p|]; [|now exists 0].
    destruct (Hc p eq_refl) as (n & _ & Hn).
    exists (n * CartItem.quantity c). rewrite inject_Z_mult, Hn. reflexivity.
Qed.

(** X22.  [GET /cart/summary] changes nothing.  For a cart of
    whole amounts with a subtotal of at most 10^12, when it answers, the
    number of items is the sum of the quantities of the lines of the user,
    the subtotal shown is the sum of price times quantity, the tax shown is
    18% of it, the shipping is free for a subtotal of zero and from 500 on
    and 50 otherwise, and the total shown is the sum of the subtotal, the
    tax and the shipping shown. *)
Theorem cart_summary_adds_up
    (u : User.t) (db : DB) (f : option nat)
    (summary : routers_cart.CartSummary.t) (db' : DB) :
  let rows := user_rows (User.id u) db in
  let subtotal := summary_subtotal (products db) rows in
  whole_amounts (products db) rows ->
  (subtotal <= 1000000000000)%Q ->
  run (routers_cart.get_cart_summary u) db f = (Ok summary, db') ->
  db' = db
  /\ routers_cart.CartSummary.total_items summary
     = fold_left Z.add (map CartItem.quantity rows) 0
  /\ (routers_cart.CartSummary.subtotal summary == subtotal)%Q
  /\ (routers_cart.CartSummary.tax_amount summary
      == subtotal * (18 # 100))%Q
  /\ routers_cart.CartSummary.shipping_amount summary = shipping_rule subtotal
  /\ (routers_cart.CartSummary.total_amount summary
      == routers_cart.CartSummary.subtotal summary
         + routers_cart.CartSummary.tax_amount summary
         + routers_cart.CartSummary.shipping_amount summary)%Q.
Proof.
  intros rows subtotal Hwhole _ H.
  destruct (whole_subtotal _ _ Hwhole) as [m Hm]. fold subtotal in Hm.
  revert H. unfold run. fold (open_session db f).
  destruct (routers_cart.get_cart_summary u (open_session db f))
    as [r sf] eqn:E.
  intros [= -> <-]. unfold routers_cart.get_cart_summary in E.
  step E cart s1.
  assert (Hcart : cart = rows).
  { unfold crud.get_user_cart, bind, get_working, ret in Ecart.
    now injection Ecart as <- _. }
  unmoved Ecart. subst cart.
  step E amounts s1.
  pose proof (summary_amounts_Ok _ _ _ _ Eamounts) as Hamounts.
  unmoved Eamounts. injection E as <- <-.
  cbn [routers_cart.CartSummary.subtotal routers_cart.CartSummary.total_items
       routers_cart.CartSummary.tax_amount
       routers_cart.CartSummary.total_amount
       routers_cart.CartSummary.shipping_amount open_session committed
       working] in Hamounts |- *.
  subst amounts. fold (summary_subtotal (products db) rows). fold subtotal.
  fold (shipping_rule subtotal).
  assert (Hsub : (round2 subtotal == subtotal)%Q).
  { apply (round2_exact _ (m * 100)). rewrite inject_Z_mult, Hm.
    reflexivity. }
  assert (Htax : (round2 (subtotal * (18 # 100)) == subtotal * (18 # 100))%Q).
  { apply (round2_exact _ (m * 18)). rewrite inject_Z_mult, Hm.
    change (inject_Z 18) with 18%Q. field. }
  assert (Hship : exists k : Z, (shipping_rule subtotal == inject_Z k)%Q).
  { unfold shipping_rule. destruct (_ || _); [now exists 0|now exists 50]. }
  destruct Hship as [k Hk].
  assert (Htotal :
    (round2 (subtotal + subtotal * (18 # 100) + shipping_rule subtotal)
     == subtotal + subtotal * (18 # 100) + shipping_rule subtotal)%Q).
  { apply (round2_exact _ (m * 118 + k * 100)).
    rewrite inject_Z_plus, !inject_Z_mult, Hk, Hm.
    change (inject_Z 118) with 118%Q. change (inject_Z 100) with 100%Q.
    field. }
  split; [reflexivity|]. split; [reflexivity|]. split; [exact Hsub|].
  split; [exact Htax|]. split; [reflexivity|].
  rewrite Htotal, Hsub, Htax. reflexivity.
Qed.

Lemma cart_summary_adds_up_witness :
  exists summary,
    run (routers_cart.get_cart_summary Scenario.alice) Scenario.shop_100 None
    = (Ok summary, Scenario.shop_100)
    /\ (routers_cart.CartSummary.subtotal summary == 200)%Q
    /\ (routers_cart.CartSummary.tax_amount summary == 36)%Q
    /\ (routers_cart.CartSummary.shipping_amount summary == 50)%Q
    /\ (routers_cart.CartSummary.total_amount summary
        == routers_cart.CartSummary.subtotal summary
           + routers_cart.CartSummary.tax_amount summary
           + routers_cart.CartSummary.shipping_amount summary)%Q.
Proof.
  assert (E : exists summary,
             run (routers_cart.get_cart_summary Scenario.alice)
               Scenario.shop_100 None = (Ok summary, Scenario.shop_100)
             /\ (routers_cart.CartSummary.subtotal summary == 200)%Q
             /\ (routers_cart.CartSummary.tax_amount summary == 36)%Q
             /\ (routers_cart.CartSummary.shipping_amount summary == 50)%Q)
    by (eexists; repeat split; vm_compute; reflexivity).
  destruct E as (summary & E & Hsub & Htax & Hship). exists summary.
  split; [exact E|]. split; [exact Hsub|]. split; [exact Htax|].
  split; [exact Hship|].
  assert (Hwhole : whole_amounts (products Scenario.shop_100)
                     (user_rows (User.id Scenario.alice) Scenario.shop_100)).
  { repeat constructor; [cbn; lia|]. intros p Hp. exists 100.
    split; [lia|]. vm_compute in Hp. injection Hp as <-. reflexivity. }
  assert (Hmax : (summary_subtotal (products Scenario.shop_100)
                    (user_rows (User.id Scenario.alice) Scenario.shop_100)
                  <= 1000000000000)%Q) by (vm_compute; discriminate).
  exact (proj2 (proj2 (proj2 (proj2 (proj2
           (cart_summary_adds_up _ _ _ _ _ Hwhole Hmax E)))))).
Defined.

(** * Removing from the session cart *)

(** X23.  When [add_to_session_cart] was accepted for a
    product the session had no row of, removing the product from the session
    cart gives the database back as it was before the two requests. *)
Theorem remove_from_session_cart_undoes_add
    (cart_item : CartItemCreate.t) (session_id : string) (db : DB)
    (f : option nat) (row : SessionCart.t) (db1 : DB) :
  run (routers_cart.add_to_session_cart session_id cart_item) db f
  = (Ok (Accepted row), db1) ->
  List.find (same_session_row session_id (CartItemCreate.product_id cart_item))
    (session_cart db) = None ->
  run (routers_cart.remove_from_session_cart session_id
         (CartItemCreate.product_id cart_item)) db1 None
  = (Ok (Accepted tt), db).
Proof.
  intros Hadd Hnew.
  apply add_to_session_cart_accepted in Hadd. cbn zeta in Hadd.
  destruct Hadd as (_ & Hdb1 & Hrow).
  rewrite Hnew in Hrow. destruct Hrow as (Hr & _ & Hrows).
  unfold run, routers_cart.remove_from_session_cart,
    crud.remove_from_session_cart, bind, get_working, ret.
  cbn [working]. rewrite Hrows.
  fold (same_session_row session_id (CartItemCreate.product_id cart_item)).
  destruct (find_app_last
              (same_session_row session_id
                 (CartItemCreate.product_id cart_item))
              (session_cart db) row) as [Hf Hd].
  { now apply find_none_Forall. }
  { rewrite Hr. unfold same_session_row. cbn.
    now rewrite String.eqb_refl, Z.eqb_refl. }
  rewrite Hf. unfold modify_working.
  cbn [working committed new_orders new_items fault].
  rewrite db_commit_write. cbn. rewrite Hrows, Hd. f_equal.
  rewrite Hdb1. now destruct db.
Qed.

Lemma remove_from_session_cart_undoes_add_witness :
  exists row db1,
    run (routers_cart.add_to_session_cart Scenario.guest CartSample.two_more)
      CartSample.shop_empty_carts None = (Ok (Accepted row), db1)
    /\ session_cart db1 <> []
    /\ run (routers_cart.remove_from_session_cart Scenario.guest 1) db1 None
       = (Ok (Accepted tt), CartSample.shop_empty_carts).
Proof.
  assert (E : exists row db1,
             run (routers_cart.add_to_session_cart Scenario.guest
                    CartSample.two_more) CartSample.shop_empty_carts None
             = (Ok (Accepted row), db1) /\ session_cart db1 <> [])
    by (do 2 eexists; split; [vm_compute; reflexivity|discriminate]).
  destruct E as (row & db1 & E & Hne). exists row, db1.
  split; [exact E|]. split; [exact Hne|].
  exact (remove_from_session_cart_undoes_add _ _ _ _ _ _ E eq_refl).
Defined.

(** X24.  On the session cart, setting the quantity of a
    product to zero or less does what removing the product does: both
    requests succeed for the same carts, answer 404 for the same carts, and
    leave the same database. *)
Theorem zero_quantity_is_removal
    (session_id : string) (cart_item : CartItemUpdate.t) (db : DB)
    (f : option nat) :
  CartItemUpdate.quantity cart_item <= 0 ->
  let set_quantity :=
    run (routers_cart.update_session_cart_item session_id cart_item) db f in
  let remove :=
    run (routers_cart.remove_from_session_cart session_id
           (CartItemUpdate.product_id cart_item)) db f in
  snd set_quantity = snd remove
  /\ (fst set_quantity = Ok tt <-> fst remove = Ok (Accepted tt))
  /\ (fst set_quantity = Raise (HTTPException 404 Cart_item_not_found)
      <-> fst remove = Ok (Refused 404 Refusal.Cart_item_not_found)).
Proof.
  intros Hq. cbn zeta.
  unfold run, routers_cart.update_session_cart_item,
    routers_cart.remove_from_session_cart, crud.update_session_cart_item,
    crud.remove_from_session_cart, bind, get_working, ret, raise.
  cbn [working].
  destruct (List.find _ _) as [c|]; [|cbn; split; [reflexivity|]; split;
    split; first [discriminate | reflexivity]].
  destruct (Z.leb_spec (CartItemUpdate.quantity cart_item) 0) as [_|Hlt];
    [|lia].
  unfold modify_working. cbn [working committed new_orders new_items fault].
  rewrite !db_commit_write.
  destruct f as [[|k]|]; cbn; (split; [reflexivity|]); split; split;
    first [discriminate | reflexivity].
Qed.

Lemma zero_quantity_is_removal_witness :
  run (routers_cart.update_session_cart_item Scenario.guest
         {| CartItemUpdate.product_id := 1; CartItemUpdate.quantity := 0 |})
    Scenario.shop_100 None
  = (Ok tt, set_session_cart Scenario.shop_100 [])
  /\ snd (run (routers_cart.remove_from_session_cart Scenario.guest 1)
            Scenario.shop_100 None)
     = set_session_cart Scenario.shop_100 [].
Proof.
  assert (E : run (routers_cart.update_session_cart_item Scenario.guest
                     {| CartItemUpdate.product_id := 1;
                        CartItemUpdate.quantity := 0 |})
                Scenario.shop_100 None
              = (Ok tt, set_session_cart Scenario.shop_100 []))
    by (vm_compute; reflexivity).
  split; [exact E|].
  assert (Hq : CartItemUpdate.quantity
                 {| CartItemUpdate.product_id := 1;
                    CartItemUpdate.quantity := 0 |} <= 0) by (cbn; lia).
  destruct (zero_quantity_is_removal Scenario.guest _ Scenario.shop_100 None
              Hq) as [H _].
  cbn zeta in H. exact (eq_trans (eq_sym H) (f_equal snd E)).
Defined.

(** * The customer of a guest order *)

Lemma lstrip_length s : (String.length (lstrip s) <= String.length s)%nat.
Proof.
  induction s as [|c s IH]; cbn; [lia|]. destruct (whitespace c); cbn; lia.
Qed.

Lemma rstrip_length s : (String.length (rstrip s) <= String.length s)%nat.
Proof.
  induction s as [|c s IH]; cbn; [lia|].
  destruct (rstrip s); [destruct (whitespace c)|]; cbn in *; lia.
Qed.

Lemma lstrip_fixed_head c s :
  lstrip (String c s) = String c s -> whitespace c = false.
Proof.
  cbn. destruct (whitespace c); [|reflexivity]. intros H.
  pose proof (lstrip_length s) as Hl. rewrite H in Hl. cbn in Hl. lia.
Qed.

Lemma lstrip_lstrip s : lstrip (lstrip s) = lstrip s.
Proof.
  induction s as [|c s IH]; cbn; [reflexivity|].
  destruct (whitespace c) eqn:Hc; [exact IH|]. cbn. now rewrite Hc.
Qed.

Lemma rstrip_rstrip s : rstrip (rstrip s) = rstrip s.
Proof.
  induction s as [|c s IH]; cbn; [reflexivity|].
  destruct (rstrip s) as [|d rest] eqn:Hr.
  - destruct (whitespace c) eqn:Hc; cbn; [reflexivity|]. now rewrite Hc.
  - change (match rstrip (String d rest) with
            | EmptyString =>
                if whitespace c then EmptyString else String c EmptyString
            | r => String c r
            end = String c (String d rest)).
    rewrite IH. reflexivity.
Qed.

Lemma rstrip_keeps_lstrip s : lstrip s = s -> lstrip (rstrip s) = rstrip s.
Proof.
  destruct s as [|c s]; [reflexivity|]. intros H.
  apply lstrip_fixed_head in H. cbn [rstrip].
  destruct (rstrip s); [rewrite H|]; cbn; now rewrite H.
Qed.

Lemma strip_fixed s : lstrip (strip s) = strip s /\ rstrip (strip s) = strip s.
Proof.
  unfold strip. split; [|apply rstrip_rstrip].
  apply rstrip_keeps_lstrip, lstrip_lstrip.
Qed.

Lemma strip_of_fixed s : lstrip s = s -> rstrip s = s -> strip s = s.
Proof. unfold strip. now intros -> ->. Qed.

Lemma rstrip_app_whitespace s c :
  whitespace c = true -> rstrip (String.append s (String c "")) = rstrip s.
Proof.
  intros Hc. induction s as [|d s IH]; simpl.
  - now rewrite Hc.
  - now rewrite IH.
Qed.

Lemma append_length s t :
  String.length (String.append s t)
  = (String.length s + String.length t)%nat.
Proof. induction s as [|c s IH]; simpl; [reflexivity|]. now rewrite IH. Qed.

Lemma split_space_spec s a b :
  has_space s = true -> split_space s = (a, b) ->
  s = String.append a (String " " b).
Proof.
  revert a. induction s as [|c s IH]; intros a; simpl; [discriminate|].
  destruct (Ascii.eqb_spec c " ") as [->|Hc]; simpl.
  - now intros _ [= <- <-].
  - intros Hs. destruct (split_space s) as [a' b'] eqn:E.
    intros [= <- <-].
    change (String c s = String c (String.append a' (String " " b'))).
    f_equal. exact (IH a' Hs eq_refl).
Qed.

(** What stands on the two sides of a space of a stripped string is not
    empty. *)
Lemma stripped_sides s a b :
  lstrip s = s -> rstrip s = s -> s = String.append a (String " " b) ->
  a <> "" /\ b <> "".
Proof.
  intros Hl Hr ->. split; intros ->.
  - change (lstrip (String " " b) = String " " b) in Hl.
    apply lstrip_fixed_head in Hl. discriminate Hl.
  - rewrite rstrip_app_whitespace in Hr by reflexivity.
    pose proof (rstrip_length a) as H. rewrite Hr, append_length in H.
    cbn in H. lia.
Qed.

Lemma customer_name_of_first s :
  lstrip s = s -> rstrip s = s -> s <> "" ->
  crud.customer_name s None = s.
Proof.
  intros Hl Hr Hs. unfold crud.customer_name.
  destruct s as [|c s]; [contradiction|]. cbn [String.eqb negb List.filter].
  cbn [String.concat]. rewrite (strip_of_fixed _ Hl Hr). reflexivity.
Qed.

(** X25.  When a guest checkout comes without [customer_info]
    and [populate_customer_info] fills it in (an email or a phone number is
    given), the customer name that [create_order_from_session_cart] stores
    is the [customer_name] of the request without the white space around
    it, and [Guest] when the request has no name or nothing but white
    space. *)
Theorem guest_order_name_is_the_name_given
    (customer_name customer_email customer_phone : option string)
    (info : CustomerInfoBase.t) :
  CheckoutCreate.populate_customer_info customer_name customer_email
    customer_phone = Some info ->
  crud.customer_name (CustomerInfoBase.first_name info)
    (CustomerInfoBase.last_name info)
  = match customer_name with
    | None => "Guest"
    | Some name =>
        match strip name with
        | EmptyString => "Guest"
        | stripped => stripped
        end
    end.
Proof.
  unfold CheckoutCreate.populate_customer_info.
  set (full_name := str_or customer_name "Guest").
  assert (Hgoal :
    match customer_name with
    | None => "Guest"
    | Some name =>
        match strip name with
        | EmptyString => "Guest"
        | stripped => stripped
        end
    end
    = match strip full_name with
      | EmptyString => "Guest"
      | stripped => stripped
      end).
  { unfold full_name. destruct customer_name as [[|c n]|]; reflexivity. }
  rewrite Hgoal. clear Hgoal. clearbody full_name.
  destruct (strip_fixed full_name) as [Hl Hr].
  set (s := strip full_name) in *. clearbody s.
  destruct (has_space s) eqn:Hsp.
  - destruct (split_space s) as [a b] eqn:Hsplit.
    pose proof (split_space_spec _ _ _ Hsp Hsplit) as Hs.
    destruct (stripped_sides _ _ _ Hl Hr Hs) as [Ha Hb].
    destruct (_ || _); [|discriminate]. intros [= <-].
    cbn [CustomerInfoBase.first_name CustomerInfoBase.last_name].
    destruct a as [|ca a]; [contradiction|].
    destruct b as [|cb b]; [contradiction|].
    assert (Hjoin : String.concat " " [String ca a; String cb b] = s)
      by (rewrite Hs; reflexivity).
    unfold crud.customer_name. cbn [str_or String.eqb negb List.filter].
    rewrite Hjoin, (strip_of_fixed _ Hl Hr).
    destruct s; [discriminate Hs|reflexivity].
  - destruct (_ || _); [|discriminate]. intros [= <-].
    cbn [CustomerInfoBase.first_name CustomerInfoBase.last_name].
    destruct s as [|c s]; [reflexivity|]. cbn [str_or].
    now apply customer_name_of_first.
Qed.

Lemma guest_order_name_is_the_name_given_witness :
  exists info,
    CheckoutCreate.populate_customer_info (Some "  Asha  Rao ")
      (Some "asha@example.com") None = Some info
    /\ CustomerInfoBase.first_name info = "Asha"
    /\ CustomerInfoBase.last_name info = Some " Rao"
    /\ crud.customer_name (CustomerInfoBase.first_name info)
         (CustomerInfoBase.last_name info) = "Asha  Rao".
Proof.
  eexists. split; [reflexivity|]. split; [reflexivity|].
  split; [reflexivity|].
  exact (guest_order_name_is_the_name_given (Some "  Asha  Rao ")
           (Some "asha@example.com") None _ eq_refl).
Defined.
